(** * A shallow embedding of [scripts/validate_toy_dataset.py]

    The validator reads [corpus.jsonl], [queries.jsonl] and
    [qrels/<split>.tsv], prints counts and samples, cross-checks the
    relevance table against the two record tables and returns an exit code.

    Conventions of the model.
    - A Python [str] is a [string], one [ascii] per character; text with
      character codes above 255 is outside the model.
    - A Python [dict] is an association list in insertion order whose keys
      are pairwise distinct ([dict_ok]).
    - A Python [float] is a [spec_float] at precision 53 and maximal
      exponent 1024 (IEEE 754 binary64).
    - Exceptions are values of [exn]; code that may raise lives in the
      [result] monad, code that also prints in the [io] monad.
    - [print] writes its arguments and returns: the output streams accept
      every character of the model.
    - [json.loads], [csv.reader] and [repr] of floats and containers are
      library code: the development is parametric in them.  For
      [csv.reader] the automaton of the library is also embedded, as
      [Csv.reader]. *)

From Stdlib Require Import ZArith NArith List String Ascii Bool Arith Lia.
From Stdlib Require Import DecimalString SpecFloat.
Import ListNotations.

Local Open Scope string_scope.
Local Open Scope list_scope.
Local Open Scope nat_scope.

Set Warnings "-register-all".

(** ** Characters and strings *)

Module PyStr.

(** The characters Python's [str.isspace] accepts, below code 256. *)
Definition isspace (c : ascii) : bool :=
  let n := nat_of_ascii c in
  ((9 <=? n) && (n <=? 13)) || ((28 <=? n) && (n <=? 32))
  || (n =? 133) || (n =? 160).

Fixpoint lstrip (s : string) : string :=
  match s with
  | EmptyString => EmptyString
  | String c r => if isspace c then lstrip r else s
  end.

Fixpoint rstrip (s : string) : string :=
  match s with
  | EmptyString => EmptyString
  | String c r =>
      match rstrip r with
      | EmptyString => if isspace c then EmptyString else String c EmptyString
      | r' => String c r'
      end
  end.

(** [s.strip()] *)
Definition strip (s : string) : string := rstrip (lstrip s).

(** [not s] for a string *)
Definition is_empty (s : string) : bool :=
  match s with EmptyString => true | _ => false end.

(** [k in s] for two strings: [k] occurs in [s] as a substring. *)
Fixpoint contains (k s : string) : bool :=
  prefix k s || match s with
                | EmptyString => false
                | String _ r => contains k r
                end.

(** [s[:n]] *)
Fixpoint take (n : nat) (s : string) : string :=
  match n, s with
  | S n', String c r => String c (take n' r)
  | _, _ => EmptyString
  end.

Definition newline : string := String "010" EmptyString.

(** Iterating a file opened in text mode with universal newlines: the
    text is cut after every line end; a line end is LF, CR LF or CR and
    reaches the program as LF. *)
Fixpoint readlines (s : string) : list string :=
  match s with
  | EmptyString => []
  | String c r =>
      if Ascii.eqb c "010" then newline :: readlines r
      else if Ascii.eqb c "013" then
        match r with
        | String "010" r' => newline :: readlines r'
        | _ => newline :: readlines r
        end
      else
        match readlines r with
        | [] => [String c EmptyString]
        | l :: ls => String c l :: ls
        end
  end.

End PyStr.

(** ** Floats: [float(s)] and [int(x)] *)

Module PyFloat.

Definition prec : Z := 53.
Definition emax : Z := 1024.

Definition is_digit (c : ascii) : bool :=
  let n := nat_of_ascii c in (48 <=? n) && (n <=? 57).

Definition digit_val (c : ascii) : Z := (Z.of_nat (nat_of_ascii c) - 48)%Z.

(** The C locale's [isspace], used inside [float]. *)
Definition c_isspace (c : ascii) : bool :=
  let n := nat_of_ascii c in ((9 <=? n) && (n <=? 13)) || (n =? 32).

(** Before parsing, [float] turns every non-ASCII space into a blank and
    every other non-ASCII character (none is a decimal digit below code
    256) into a question mark, which no float contains. *)
Definition to_ascii_char (c : ascii) : ascii :=
  if nat_of_ascii c <? 128 then c
  else if PyStr.isspace c then " "%char else "?"%char.

(** Underscores are legal only between two digits and are dropped. *)
Fixpoint drop_underscores (prev : ascii) (l : list ascii) : option (list ascii) :=
  match l with
  | [] => if Ascii.eqb prev "_" then None else Some []
  | c :: r =>
      if Ascii.eqb c "_" then
        if is_digit prev then drop_underscores c r else None
      else if Ascii.eqb prev "_" && negb (is_digit c) then None
      else option_map (cons c) (drop_underscores c r)
  end.

Fixpoint lstrip (l : list ascii) : list ascii :=
  match l with
  | c :: r => if c_isspace c then lstrip r else l
  | [] => []
  end.

(** Trailing blanks go, but the last remaining character always stays. *)
Fixpoint rstrip (l : list ascii) : list ascii :=
  match l with
  | [] => []
  | [c] => [c]
  | c :: r =>
      match rstrip r with
      | [d] => if c_isspace d then [c] else [c; d]
      | r' => c :: r'
      end
  end.

Fixpoint span_digits (l : list ascii) : list ascii * list ascii :=
  match l with
  | c :: r =>
      if is_digit c then let (ds, rest) := span_digits r in (c :: ds, rest)
      else ([], l)
  | [] => ([], [])
  end.

Definition digits_value (ds : list ascii) : Z :=
  fold_left (fun acc c => (10 * acc + digit_val c)%Z) ds 0%Z.

Definition parse_sign (l : list ascii) : bool * list ascii :=
  match l with
  | "-"%char :: r => (true, r)
  | "+"%char :: r => (false, r)
  | _ => (false, l)
  end.

Definition lower (c : ascii) : ascii :=
  let n := nat_of_ascii c in
  if (65 <=? n) && (n <=? 90) then ascii_of_nat (n + 32) else c.

(** The correctly rounded binary64 value of [(-1)^s * m * 10^e]. *)
Definition of_decimal (s : bool) (m : Z) (e : Z) : spec_float :=
  match m with
  | Zpos p =>
      if (0 <=? e)%Z then
        binary_normalize prec emax (if s then - (m * 10 ^ e) else m * 10 ^ e)%Z 0%Z s
      else
        SFdiv prec emax (S754_finite s p 0%Z)
              (S754_finite false (Z.to_pos (10 ^ (- e))) 0%Z)
  | _ => S754_zero s
  end.

(** The exponent part: empty, or [e], an optional sign and digits. *)
Definition parse_exponent (l : list ascii) : option Z :=
  match l with
  | [] => Some 0%Z
  | c :: r =>
      if Ascii.eqb (lower c) "e" then
        let (neg, r1) := parse_sign r in
        match span_digits r1 with
        | ((_ :: _) as ds, []) =>
            Some (if neg then - digits_value ds else digits_value ds)%Z
        | _ => None
        end
      else None
  end.

Definition parse_decimal (s : bool) (l : list ascii) : option spec_float :=
  let (ip, r1) := span_digits l in
  let (fp, r2) := match r1 with
                  | "."%char :: r => span_digits r
                  | _ => ([], r1)
                  end in
  match ip ++ fp with
  | [] => None
  | ds =>
      match parse_exponent r2 with
      | Some e => Some (of_decimal s (digits_value ds) (e - Z.of_nat (List.length fp))%Z)
      | None => None
      end
  end.

Definition parse_inf_nan (s : bool) (l : list ascii) : option spec_float :=
  let w := string_of_list_ascii (map lower l) in
  if String.eqb w "inf" || String.eqb w "infinity" then Some (S754_infinity s)
  else if String.eqb w "nan" then Some S754_nan
  else None.

(** [float(s)]; [None] stands for the [ValueError] it raises. *)
Definition float_of_string (s : string) : option spec_float :=
  match drop_underscores "000" (map to_ascii_char (list_ascii_of_string s)) with
  | None => None
  | Some l =>
      match rstrip (lstrip l) with
      | [] => None
      | body =>
          let (neg, r) := parse_sign body in
          match parse_decimal neg r with
          | Some x => Some x
          | None => parse_inf_nan neg r
          end
      end
  end.

(** [int(x)]: truncation toward zero; [None] stands for the
    [OverflowError] (infinities) or [ValueError] (NaN) it raises. *)
Definition int_of_float (x : spec_float) : option Z :=
  match x with
  | S754_zero _ => Some 0%Z
  | S754_finite s m e =>
      let a := match e with
               | Zneg k => Z.shiftr (Zpos m) (Zpos k)
               | _ => Z.shiftl (Zpos m) e
               end in
      Some (if s then - a else a)%Z
  | _ => None
  end.

End PyFloat.

(** ** Dictionaries in insertion order *)

Definition dict (V : Type) : Type := list (string * V).

Section Dict.
Context {V : Type}.

(** [d.get(k)], with [None] when [k] is absent *)
Fixpoint dict_get (k : string) (d : dict V) : option V :=
  match d with
  | [] => None
  | (k', v) :: r => if String.eqb k k' then Some v else dict_get k r
  end.

(** [k in d] *)
Definition dict_mem (k : string) (d : dict V) : bool :=
  match dict_get k d with Some _ => true | None => false end.

(** [d[k] = v]: an existing key keeps its place, a new key goes last. *)
Fixpoint dict_set (k : string) (v : V) (d : dict V) : dict V :=
  match d with
  | [] => [(k, v)]
  | (k', v') :: r =>
      if String.eqb k k' then (k', v) :: r else (k', v') :: dict_set k v r
  end.

(** [d.update(other)] *)
Definition dict_update (d other : dict V) : dict V :=
  fold_left (fun acc kv => dict_set (fst kv) (snd kv) acc) other d.

(** [list(d.keys())] *)
Definition dict_keys (d : dict V) : list string := map fst d.

(** The invariant of a Python dictionary: no key occurs twice. *)
Definition dict_ok (d : dict V) : Prop := NoDup (dict_keys d).
End Dict.

(** [s.add(x)] on a Python set of strings.  The model keeps the elements
    in insertion order; Python fixes no order for [list(s)]. *)
Definition set_add (x : string) (s : list string) : list string :=
  if existsb (String.eqb x) s then s else s ++ [x].

(** ** JSON values, exceptions and messages *)

Inductive json : Type :=
| JNull
| JBool (b : bool)
| JInt (z : Z)
| JFloat (x : spec_float)
| JStr (s : string)
| JArr (l : list json)
| JObj (o : list (string * json)).

(** A record of the corpus or of the queries. *)
Definition record : Type := dict json.

Definition path : Type := list string.

(** [p / name] *)
Definition path_join (p : path) (name : string) : path := p ++ [name].

(** The pieces of a formatted message; the holes of an f-string and the
    arguments of [print] are kept as values. *)
Inductive frag : Type :=
| FText (s : string)
| FNat (n : nat)
| FPath (p : path)
| FJson (v : json)
| FStrs (l : list string)
| FScores (d : dict Z).

Definition message : Type := list frag.

Inductive exn : Type :=
| ValueError (m : message)
| TypeError
| KeyError
| OSError
| CsvError          (** [csv.Error], raised by the reader *)
| DictSliceError.   (** what [d[:n]] raises on a dictionary [d]: a
                        [TypeError] before Python 3.12, a [KeyError] from
                        3.12 on, where a slice can be hashed *)

Inductive result (A : Type) : Type :=
| Ok (a : A)
| Raise (e : exn).
Arguments Ok {A} a.
Arguments Raise {A} e.

Definition bind {A B : Type} (r : result A) (k : A -> result B) : result B :=
  match r with
  | Ok a => k a
  | Raise e => Raise e
  end.

Notation "x <- r ;; k" := (bind r (fun x => k))
  (at level 61, r at next level, right associativity).

(** What [json.loads] does with a line. *)
Inductive decoded : Type :=
| Decoded (v : json)
| DecodeError (e : string).

(** Truth value of a decoded JSON value ([not v] is its negation). *)
Definition truthy (v : json) : bool :=
  match v with
  | JNull => false
  | JBool b => b
  | JInt z => negb (Z.eqb z 0)
  | JFloat (S754_zero _) => false
  | JFloat _ => true
  | JStr s => negb (PyStr.is_empty s)
  | JArr l => match l with [] => false | _ => true end
  | JObj o => match o with [] => false | _ => true end
  end.

(** [k in obj] *)
Definition py_contains (obj : json) (k : string) : result bool :=
  match obj with
  | JObj o => Ok (dict_mem k o)
  | JStr s => Ok (PyStr.contains k s)
  | JArr l =>
      Ok (existsb (fun x => match x with JStr s => String.eqb s k | _ => false end) l)
  | _ => Raise TypeError
  end.

(** [obj[k]] for a string [k] *)
Definition py_getitem (obj : json) (k : string) : result json :=
  match obj with
  | JObj o => match dict_get k o with Some v => Ok v | None => Raise KeyError end
  | _ => Raise TypeError
  end.

(** [d.get(k)] and [d.get(k, dflt)] on a record *)
Definition get_default (k : string) (dflt : json) (d : record) : json :=
  match dict_get k d with Some v => v | None => dflt end.

Definition get (k : string) (d : record) : json := get_default k JNull d.

(** [a or b] *)
Definition py_or (a b : json) : json := if truthy a then a else b.

Definition decimal (z : Z) : string :=
  DecimalString.NilZero.string_of_int (Z.to_int z).

(** ** [csv.reader] with a tab as delimiter

    The reader of the [csv] module (the automaton of CPython's [_csv.c])
    for the dialect [load_qrels] asks for: the delimiter is the tab, the
    quote character the double quote, a doubled quote inside a quoted
    field stands for one quote, there is no escape character and the
    reader is not strict.  The states of the automaton that only an
    escape character reaches are left out.  A field may hold up to
    [field_limit] characters; one more makes the reader raise.  A NUL
    character is an ordinary character, as from Python 3.11 (before, the
    reader raised on it). *)

Module Csv.

Inductive state : Type :=
| START_RECORD
| START_FIELD
| IN_FIELD
| IN_QUOTED_FIELD
| QUOTE_IN_QUOTED_FIELD
| EAT_CRNL.

Definition delimiter : ascii := "009"%char.
Definition quotechar : ascii := "034"%char.

(** [csv.field_size_limit()] *)
Definition field_limit : N := 131072.

Record parser : Type := mkParser
  { st : state;              (** the state of the automaton *)
    fields : list string;    (** the fields of the record so far *)
    field : list ascii;      (** the characters of the field so far, last first *)
    field_len : N }.         (** their number *)

Definition parse_reset : parser := mkParser START_RECORD [] [] 0.

Definition set_state (s : state) (p : parser) : parser :=
  mkParser s (fields p) (field p) (field_len p).

Definition parse_add_char (p : parser) (c : ascii) : result parser :=
  if (field_limit <=? field_len p)%N then Raise CsvError
  else Ok (mkParser (st p) (fields p) (c :: field p) (field_len p + 1)).

(** The string of a buffer. *)
Definition field_string (buf : list ascii) : string :=
  fold_left (fun s c => String c s) buf EmptyString.

Definition parse_save_field (p : parser) : parser :=
  mkParser (st p) (fields p ++ [field_string (field p)]) [] 0.

Definition is_newline (c : ascii) : bool :=
  Ascii.eqb c "010" || Ascii.eqb c "013".

(** [parse_process_char]: one character of a line, or the end of the
    line ([None]). *)
Definition parse_process_char (p : parser) (c : option ascii) : result parser :=
  let start_field (p : parser) :=
    match c with
    | None => Ok (set_state START_RECORD (parse_save_field p))
    | Some a =>
        if is_newline a then Ok (set_state EAT_CRNL (parse_save_field p))
        else if Ascii.eqb a quotechar then Ok (set_state IN_QUOTED_FIELD p)
        else if Ascii.eqb a delimiter then Ok (parse_save_field p)
        else p' <- parse_add_char p a ;; Ok (set_state IN_FIELD p')
    end in
  match st p with
  | START_RECORD =>
      match c with
      | None => Ok p
      | Some a =>
          if is_newline a then Ok (set_state EAT_CRNL p)
          else start_field (set_state START_FIELD p)
      end
  | START_FIELD => start_field p
  | IN_FIELD =>
      match c with
      | None => Ok (set_state START_RECORD (parse_save_field p))
      | Some a =>
          if is_newline a then Ok (set_state EAT_CRNL (parse_save_field p))
          else if Ascii.eqb a delimiter
               then Ok (set_state START_FIELD (parse_save_field p))
          else parse_add_char p a
      end
  | IN_QUOTED_FIELD =>
      match c with
      | None => Ok p
      | Some a =>
          if Ascii.eqb a quotechar then Ok (set_state QUOTE_IN_QUOTED_FIELD p)
          else parse_add_char p a
      end
  | QUOTE_IN_QUOTED_FIELD =>
      match c with
      | None => Ok (set_state START_RECORD (parse_save_field p))
      | Some a =>
          if Ascii.eqb a quotechar
          then p' <- parse_add_char p a ;; Ok (set_state IN_QUOTED_FIELD p')
          else if Ascii.eqb a delimiter
               then Ok (set_state START_FIELD (parse_save_field p))
          else if is_newline a then Ok (set_state EAT_CRNL (parse_save_field p))
          else p' <- parse_add_char p a ;; Ok (set_state IN_FIELD p')
      end
  | EAT_CRNL =>
      match c with
      | None => Ok (set_state START_RECORD p)
      | Some a => if is_newline a then Ok p else Raise CsvError
      end
  end.

Fixpoint process_chars (p : parser) (s : string) : result parser :=
  match s with
  | EmptyString => Ok p
  | String c r => p' <- parse_process_char p (Some c) ;; process_chars p' r
  end.

(** The characters of a line, then the end of the line. *)
Definition process_line (p : parser) (line : string) : result parser :=
  p' <- process_chars p line ;; parse_process_char p' None.

Definition at_start (p : parser) : bool :=
  match st p with START_RECORD => true | _ => false end.

Definition in_quoted (p : parser) : bool :=
  match st p with IN_QUOTED_FIELD => true | _ => false end.

(** Iterating the reader from parser state [p]: the rows it yields and
    the error it stops on, if any. *)
Fixpoint reader_from (p : parser) (lines : list string)
  : list (list string) * option exn :=
  match lines with
  | [] =>
      if negb (field_len p =? 0)%N || in_quoted p
      then ([fields (parse_save_field p)], None)
      else ([], None)
  | line :: rest =>
      match process_line p line with
      | Raise e => ([], Some e)
      | Ok p' =>
          if at_start p'
          then let (rows, err) := reader_from parse_reset rest in
               (fields p' :: rows, err)
          else reader_from p' rest
      end
  end.

Definition reader (lines : list string) : list (list string) * option exn :=
  reader_from parse_reset lines.

End Csv.

(** ** The validator *)

Definition default_id_keys : list string := ["_id"; "id"].
Definition default_text_keys : list string :=
  ["text"; "contents"; "body"; "passage"; "question"; "query"].

Definition msg_invalid_json (i : nat) (p : path) (e : string) : message :=
  [FText "Invalid JSON on line "; FNat i; FText " of "; FPath p; FText ": ";
   FText e].

Definition msg_no_id (i : nat) (p : path) (obj : json) : message :=
  [FText "No id ('_id' or 'id') found in JSON object on line "; FNat i;
   FText " of "; FPath p; FText ": "; FJson obj].

Definition msg_short_row (i : nat) (p : path) (cols : list string) : message :=
  [FText "Invalid qrels line "; FNat i; FText " in "; FPath p;
   FText ": expected at least 3 columns, got "; FNat (List.length cols);
   FText ": "; FStrs cols].

Definition msg_bad_score (i : nat) (p : path) (score : string) : message :=
  [FText "Invalid relevance score on line "; FNat i; FText " in "; FPath p;
   FText ": "; FText score].

(** A directory tree: the text of each regular file, by path. *)
Definition filesystem : Type := path -> option string.

(** [open(path)] followed by reading: a missing file raises. *)
Definition open_text (fs : filesystem) (p : path) : result string :=
  match fs p with
  | Some text => Ok text
  | None => Raise OSError
  end.

(** Lines 30 to 34 of [load_jsonl]: the value of the first identifier key
    that is in [obj], [None] (here [JNull]) when there is none. *)
Fixpoint find_id (id_keys : list string) (obj : json) : result json :=
  match id_keys with
  | [] => Ok JNull
  | k :: ks =>
      present <- py_contains obj k ;;
      if present then py_getitem obj k else find_id ks obj
  end.

(** Line 39: [{k: obj.get(k) for k in text_keys if k in obj}] *)
Definition text_view (text_keys : list string) (o : record) : record :=
  fold_left (fun d k => if dict_mem k o then dict_set k (get k o) d else d)
            text_keys [].

(** Lines 39 and 40.  An [obj] that reaches them is a dictionary
    (see [find_id_truthy_object]); the other branch is never run. *)
Definition build_record (text_keys : list string) (obj : json) : result record :=
  match obj with
  | JObj o => Ok (dict_update (text_view text_keys o) o)
  | _ => Raise TypeError
  end.

(** [int(float(score))] of line 59; [None] when it raises. *)
Definition score_int (score : string) : option Z :=
  match PyFloat.float_of_string score with
  | Some x => PyFloat.int_of_float x
  | None => None
  end.

(** [qrels.setdefault(qid, {})[docid] = score] *)
Definition qrels_add (qid docid : string) (score : Z) (qrels : dict (dict Z))
  : dict (dict Z) :=
  let inner := match dict_get qid qrels with Some d => d | None => [] end in
  dict_set qid (dict_set docid score inner) qrels.

(** The body of the loop of [load_qrels], for row [i]. *)
Definition load_qrels_row (p : path) (qrels : dict (dict Z)) (i : nat)
  (cols : list string) : result (dict (dict Z)) :=
  match cols with
  | [] => Ok qrels
  | _ =>
      if List.length cols <? 3 then Raise (ValueError (msg_short_row i p cols))
      else
        let qid := PyStr.strip (nth 0 cols EmptyString) in
        let docid := PyStr.strip (nth 1 cols EmptyString) in
        let score := PyStr.strip (nth 2 cols EmptyString) in
        match score_int score with
        | None => Raise (ValueError (msg_bad_score i p score))
        | Some z => Ok (qrels_add qid docid z qrels)
        end
  end.

Fixpoint load_qrels_rows (p : path) (qrels : dict (dict Z)) (i : nat)
  (rows : list (list string)) : result (dict (dict Z)) :=
  match rows with
  | [] => Ok qrels
  | cols :: rest =>
      qrels' <- load_qrels_row p qrels i cols ;;
      load_qrels_rows p qrels' (S i) rest
  end.

(** ** Output and sampling *)

Inductive event : Type :=
| Stdout (m : message)      (** [print(...)], one fragment per argument *)
| StderrError (e : exn).    (** [print("ERROR:", e, file=sys.stderr)] *)

(** A computation that prints and then returns or raises. *)
Definition io (A : Type) : Type := (list event * result A)%type.

Definition ret {A : Type} (a : A) : io A := ([], Ok a).

Definition lift {A : Type} (r : result A) : io A := ([], r).

Definition print (m : message) : io unit := ([Stdout m], Ok tt).

Definition print_error (e : exn) : io unit := ([StderrError e], Ok tt).

Definition io_bind {A B : Type} (c : io A) (k : A -> io B) : io B :=
  match c with
  | (out, Ok a) => let (out', r) := k a in (out ++ out', r)
  | (out, Raise e) => (out, Raise e)
  end.

Notation "x <~ c ;;; k" := (io_bind c (fun x => k))
  (at level 61, c at next level, right associativity).
Notation "c ;;; k" := (io_bind c (fun _ => k))
  (at level 61, right associativity).

Fixpoint for_each {A : Type} (body : A -> io unit) (l : list A) : io unit :=
  match l with
  | [] => ret tt
  | a :: r => body a ;;; for_each body r
  end.

Fixpoint remove_at {A : Type} (i : nat) (l : list A) : list A :=
  match i, l with
  | _, [] => []
  | 0, _ :: r => r
  | S i', a :: r => a :: remove_at i' r
  end.

(** [random.sample(pop, n)] for [n <= len(pop)]: [n] draws without
    replacement, each draw taking the next number of [seed]. *)
Fixpoint random_sample (seed : list nat) (pop : list string) (n : nat)
  : list string * list nat :=
  match n, pop with
  | S n', _ :: _ =>
      let i := hd 0 seed mod List.length pop in
      let (picked, seed') := random_sample (tl seed) (remove_at i pop) n' in
      (nth i pop EmptyString :: picked, seed')
  | _, _ => ([], seed)
  end.

Definition sample_keys {V : Type} (seed : list nat) (d : dict V) (n : nat)
  : list string * list nat :=
  let keys := dict_keys d in
  match keys with
  | [] => ([], seed)
  | _ => random_sample seed keys (Nat.min n (List.length keys))
  end.

(** [text[:400]] on whatever value [text] holds.  Numbers and [True]
    cannot be sliced; a dictionary has no slice as key. *)
Definition slice400 (v : json) : result json :=
  match v with
  | JStr s => Ok (JStr (PyStr.take 400 s))
  | JArr l => Ok (JArr (firstn 400 l))
  | JObj _ => Raise DictSliceError
  | _ => Raise TypeError
  end.

(** [d[k]] on a table *)
Definition table_getitem {V : Type} (d : dict V) (k : string) : result V :=
  match dict_get k d with
  | Some v => Ok v
  | None => Raise KeyError
  end.

(** Line 108: the text shown for a sampled document. *)
Definition doc_text (doc : record) : json :=
  py_or (py_or (py_or (py_or (get "text" doc) (get "contents" doc))
                      (get "body" doc))
               (get "passage" doc))
        (JStr EmptyString).

(** Line 115: the text shown for a sampled query. *)
Definition query_text (q : record) : json :=
  py_or (py_or (py_or (get "text" q) (get "question" q)) (get "query" q))
        (JStr EmptyString).

(** Lines 104 to 110: the body of the loop over the sampled documents. *)
Definition report_doc (corpus : dict record) (docid : string) : io unit :=
  doc <~ lift (table_getitem corpus docid) ;;;
  print [FText (PyStr.newline ++ "Sample doc id:"); FText docid] ;;;
  print [FText "Fields:"; FStrs (dict_keys doc)] ;;;
  let title := get_default "title" (JStr EmptyString) doc in
  let text := doc_text doc in
  print [FText "Title:"; FJson title] ;;;
  shown <~ lift (slice400 text) ;;;
  print [FText "Text (first 400 chars):"; FJson shown].

(** Lines 114 to 118: the body of the loop over the sampled queries. *)
Definition report_query (queries : dict record) (qrels : dict (dict Z))
  (qid : string) : io unit :=
  q <~ lift (table_getitem queries qid) ;;;
  let qtext := query_text q in
  print [FText (PyStr.newline ++ "Sample query id:"); FText qid] ;;;
  print [FText "Query text:"; FJson qtext] ;;;
  print [FText "qrels for sample_q:";
         FScores (match dict_get qid qrels with Some d => d | None => [] end)].

(** ** The consistency check, lines 121 to 126 *)

Definition missing_queries (qrels : dict (dict Z)) (queries : dict record)
  : list string :=
  filter (fun q => negb (dict_mem q queries)) (dict_keys qrels).

Definition missing_docs (qrels : dict (dict Z)) (corpus : dict record)
  : list string :=
  fold_left
    (fun acc qd =>
       fold_left (fun acc d => if dict_mem d corpus then acc else set_add d acc)
                 (dict_keys (snd qd)) acc)
    qrels [].

(** Lines 128 to 131. *)
Definition report_missing (mq md : list string) : io unit :=
  (match mq with
   | [] => ret tt
   | _ => print [FText (PyStr.newline ++
            "WARNING: qrels reference query ids not present in queries.jsonl:");
            FStrs mq]
   end) ;;;
  match md with
  | [] => ret tt
  | _ => print [FText (PyStr.newline ++
           "WARNING: qrels reference doc ids not present in corpus.jsonl:");
           FStrs md]
  end.

(** Lines 80 to 83: the expected files that do not exist. *)
Definition missing_files (fs : filesystem) (ps : list path) : list path :=
  filter (fun p => match fs p with Some _ => false | None => true end) ps.

(** ** Notions used to state the properties *)

(** The value of the first key of [keys] that is in [o]. *)
Fixpoint first_present (keys : list string) (o : record) : option json :=
  match keys with
  | [] => None
  | k :: r =>
      match dict_get k o with
      | Some v => Some v
      | None => first_present r o
      end
  end.

(** How often a key of [ks] repeats a key of [seen] or an earlier key
    of [ks]: the duplicate-id collisions of a file. *)
Fixpoint collisions (seen ks : list string) : nat :=
  match ks with
  | [] => 0
  | k :: r =>
      (if existsb (String.eqb k) seen then 1 else 0) + collisions (k :: seen) r
  end.


(** [l] is [l'] with some elements left out, the others in their order. *)
Inductive subseq {A : Type} : list A -> list A -> Prop :=
| subseq_nil : subseq [] []
| subseq_skip (x : A) (l l' : list A) : subseq l l' -> subseq l (x :: l')
| subseq_take (x : A) (l l' : list A) : subseq l l' -> subseq (x :: l) (x :: l').

(** The first truthy value among the fields [keys] of a record, and the
    empty string when there is none. *)
Fixpoint first_truthy (keys : list string) (d : record) : json :=
  match keys with
  | [] => JStr EmptyString
  | k :: r =>
      match dict_get k d with
      | Some v => if truthy v then v else first_truthy r d
      | None => first_truthy r d
      end
  end.

(** The files [main] expects under [data_path]. *)
Definition expected_files (data_path : path) (split : string) : list path :=
  [path_join data_path "corpus.jsonl"; path_join data_path "queries.jsonl";
   path_join (path_join data_path "qrels") (split ++ ".tsv")].

(** The fields line 108 consults for a document, in its order. *)
Definition doc_text_keys : list string := ["text"; "contents"; "body"; "passage"].

(** [items[k] = v] for each entry in turn. *)
Definition store_all {V : Type} (es : list (string * V)) (items : dict V) : dict V :=
  fold_left (fun acc e => dict_set (fst e) (snd e) acc) es items.

(** The parts of [s] between its tabs. *)
Fixpoint split_tabs (s : string) : list string :=
  match s with
  | EmptyString => [EmptyString]
  | String c r =>
      if Ascii.eqb c "009" then EmptyString :: split_tabs r
      else match split_tabs r with
           | f :: fs => String c f :: fs
           | [] => [String c EmptyString]
           end
  end.

(** A line without its final LF. *)
Fixpoint chomp (s : string) : string :=
  match s with
  | EmptyString => EmptyString
  | String c r =>
      match r with
      | EmptyString => if Ascii.eqb c "010" then EmptyString else s
      | _ => String c (chomp r)
      end
  end.

(** The tab-separated fields of a line of the file; an empty line has
    none. *)
Definition line_fields (line : string) : list string :=
  match chomp line with
  | EmptyString => []
  | body => split_tabs body
  end.

Fixpoint all_chars (f : ascii -> bool) (s : string) : bool :=
  match s with
  | EmptyString => true
  | String c r => f c && all_chars f r
  end.

(** A line of at most [Csv.field_limit] characters, none of them a
    double quote or NUL. *)
Definition plain_line (line : string) : bool :=
  (N.of_nat (String.length line) <=? Csv.field_limit)%N
  && all_chars (fun c => negb (Ascii.eqb c Csv.quotechar || Ascii.eqb c "000")) line.

(** A line as iterating a text file gives it: not empty, and with no
    line end but a final LF. *)
Definition file_line (line : string) : bool :=
  negb (PyStr.is_empty line)
  && all_chars (fun c => negb (Csv.is_newline c)) (chomp line).

Section Validator.

(** [json.loads] on a stripped line *)
Variable json_loads : string -> decoded.
(** Iterating [csv.reader(f, delimiter=TAB)] over the lines of the file:
    the rows it yields and, when it stops on an error, that error. *)
Variable csv_reader : list string -> list (list string) * option exn.
(** [str] of a float, an array or an object *)
Variable py_repr : json -> string.

(** [str(v)] *)
Definition py_str (v : json) : string :=
  match v with
  | JStr s => s
  | JInt z => decimal z
  | JBool true => "True"
  | JBool false => "False"
  | JNull => "None"
  | _ => py_repr v
  end.

(** The body of the loop of [load_jsonl], for line [i]. *)
Definition load_jsonl_line (p : path) (id_keys text_keys : list string)
  (items : dict record) (i : nat) (line : string) : result (dict record) :=
  let line := PyStr.strip line in
  if PyStr.is_empty line then Ok items
  else
    obj <- match json_loads line with
           | Decoded v => Ok v
           | DecodeError e => Raise (ValueError (msg_invalid_json i p e))
           end ;;
    doc_id <- find_id id_keys obj ;;
    if negb (truthy doc_id) then Raise (ValueError (msg_no_id i p obj))
    else
      data <- build_record text_keys obj ;;
      Ok (dict_set (py_str doc_id) data items).

Fixpoint load_jsonl_lines (p : path) (id_keys text_keys : list string)
  (items : dict record) (i : nat) (lines : list string)
  : result (dict record) :=
  match lines with
  | [] => Ok items
  | line :: rest =>
      items' <- load_jsonl_line p id_keys text_keys items i line ;;
      load_jsonl_lines p id_keys text_keys items' (S i) rest
  end.

Definition load_jsonl (fs : filesystem) (p : path)
  (id_keys text_keys : list string) : result (dict record) :=
  text <- open_text fs p ;;
  load_jsonl_lines p id_keys text_keys [] 1 (PyStr.readlines text).

(** The loop takes the rows one at a time: a row the loop refuses ends
    the load before the reader reads on, and an error of the reader comes
    after the rows it yielded. *)
Definition load_qrels (fs : filesystem) (p : path) : result (dict (dict Z)) :=
  text <- open_text fs p ;;
  let (rows, err) := csv_reader (PyStr.readlines text) in
  qrels <- load_qrels_rows p [] 1 rows ;;
  match err with
  | Some e => Raise e
  | None => Ok qrels
  end.

(** *** Views of a line, used to state the properties *)

Definition blank (line : string) : bool := PyStr.is_empty (PyStr.strip line).

(** What a line puts into the table: the string form of the
    identifier and the record, when the line holds an object whose first
    identifier field is usable. *)
Definition line_entry (id_keys text_keys : list string) (line : string)
  : option (string * record) :=
  match json_loads (PyStr.strip line) with
  | Decoded (JObj o) =>
      match first_present id_keys o with
      | Some v =>
          if truthy v
          then Some (py_str v, dict_update (text_view text_keys o) o)
          else None
      | None => None
      end
  | _ => None
  end.

(** A line that holds an object, or no JSON at all, and is refused. *)
Definition line_rejected (id_keys : list string) (line : string) : bool :=
  negb (blank line) &&
  match json_loads (PyStr.strip line) with
  | DecodeError _ => true
  | Decoded (JObj o) =>
      match first_present id_keys o with
      | Some v => negb (truthy v)
      | None => true
      end
  | Decoded _ => false
  end.

(** A line that is blank, is no JSON, or holds a JSON object. *)
Definition object_line (line : string) : bool :=
  blank line ||
  match json_loads (PyStr.strip line) with
  | DecodeError _ => true
  | Decoded (JObj _) => true
  | Decoded _ => false
  end.

(** The refusal rule in the words of the specification: a line that is
    no JSON, or an object in which no identifier field occurs. *)
Definition line_rejected_as_stated (id_keys : list string) (line : string) : bool :=
  negb (blank line) &&
  match json_loads (PyStr.strip line) with
  | DecodeError _ => true
  | Decoded (JObj o) => forallb (fun k => negb (dict_mem k o)) id_keys
  | Decoded _ => false
  end.

(** A well-formed line: blank, or an object with a usable identifier. *)
Definition well_formed_line (id_keys text_keys : list string) (line : string)
  : bool :=
  blank line ||
  match line_entry id_keys text_keys line with Some _ => true | None => false end.

Definition entries (id_keys text_keys : list string) (lines : list string)
  : list (string * record) :=
  flat_map (fun line =>
              if blank line then []
              else match line_entry id_keys text_keys line with
                   | Some e => [e]
                   | None => []
                   end) lines.

Definition nonblank (lines : list string) : list string :=
  filter (fun line => negb (blank line)) lines.

(** Lines 90 to 93 of [main]: the three loads, in order. *)
Definition load_all (fs : filesystem) (corpus_file queries_file qrels_file : path)
  : result (dict record * dict record * dict (dict Z)) :=
  corpus <- load_jsonl fs corpus_file default_id_keys default_text_keys ;;
  queries <- load_jsonl fs queries_file default_id_keys default_text_keys ;;
  qrels <- load_qrels fs qrels_file ;;
  Ok (corpus, queries, qrels).

(** [main(data_path, split)], with the draws of the random generator
    in [seed].  [Ok c] is [return c]; [Raise e] is an exception that
    leaves [main]. *)
Definition main (fs : filesystem) (data_path : path) (split : string)
  (seed : list nat) : io Z :=
  let corpus_file := path_join data_path "corpus.jsonl" in
  let queries_file := path_join data_path "queries.jsonl" in
  let qrels_file := path_join (path_join data_path "qrels") (split ++ ".tsv") in
  let missing := missing_files fs [corpus_file; queries_file; qrels_file] in
  match missing with
  | _ :: _ =>
      print [FText "ERROR: missing expected files:"] ;;;
      for_each (fun m => print [FText "  "; FPath m]) missing ;;;
      ret 2%Z
  | [] =>
      match load_all fs corpus_file queries_file qrels_file with
      | Raise e => print_error e ;;; ret 1%Z
      | Ok (corpus, queries, qrels) =>
          print [FText "corpus size: "; FNat (List.length corpus)] ;;;
          print [FText "queries size: "; FNat (List.length queries)] ;;;
          print [FText "qrels size: "; FNat (List.length qrels)] ;;;
          let (docids, seed1) := sample_keys seed corpus 1 in
          for_each (report_doc corpus) docids ;;;
          let (qids, _) := sample_keys seed1 queries 1 in
          for_each (report_query queries qrels) qids ;;;
          report_missing (missing_queries qrels queries)
                         (missing_docs qrels corpus) ;;;
          print [FText (PyStr.newline ++ "Validation completed successfully.")] ;;;
          ret 0%Z
      end
  end.

End Validator.

(** ** Concrete inputs

    The lines, decoder and reader used by the examples.  [sample_loads]
    is [json.loads] on the lines of [table] and on [line_broken], the
    only lines the examples decode; [tsv_reader] is the embedded
    [csv.reader]. *)

Module Sample.

Definition dq : string := String "034" EmptyString.
Definition tab : string := String "009" EmptyString.

(** ["k":"v"] and ["k":v] as JSON text *)
Definition member_str (k v : string) : string := dq ++ k ++ dq ++ ":" ++ dq ++ v ++ dq.
Definition member_raw (k v : string) : string := dq ++ k ++ dq ++ ":" ++ v.

Definition line_d1 : string :=
  "{" ++ member_str "_id" "d1" ++ "," ++ member_str "title" "T" ++ ","
      ++ member_str "text" "hello world" ++ "}".
Definition obj_d1 : record :=
  [("_id", JStr "d1"); ("title", JStr "T"); ("text", JStr "hello world")].

Definition line_d1_again : string :=
  "{" ++ member_str "id" "d1" ++ "," ++ member_str "body" "second" ++ "}".
Definition obj_d1_again : record := [("id", JStr "d1"); ("body", JStr "second")].

Definition line_q1 : string :=
  "{" ++ member_str "_id" "q1" ++ "," ++ member_str "text" "hi" ++ "}".
Definition obj_q1 : record := [("_id", JStr "q1"); ("text", JStr "hi")].

Definition line_empty_id : string :=
  "{" ++ member_str "_id" EmptyString ++ "," ++ member_str "id" "x" ++ "}".
Definition obj_empty_id : record := [("_id", JStr EmptyString); ("id", JStr "x")].

Definition line_no_id : string := "{" ++ member_str "title" "T" ++ "}".
Definition obj_no_id : record := [("title", JStr "T")].

Definition line_numeric_text : string :=
  "{" ++ member_str "_id" "d1" ++ "," ++ member_raw "text" "5" ++ "}".
Definition obj_numeric_text : record := [("_id", JStr "d1"); ("text", JInt 5)].

Definition line_empty_text : string :=
  "{" ++ member_str "_id" "d1" ++ "," ++ member_str "text" EmptyString ++ ","
      ++ member_str "contents" "abc" ++ "}".
Definition obj_empty_text : record :=
  [("_id", JStr "d1"); ("text", JStr EmptyString); ("contents", JStr "abc")].

Definition line_broken : string := "{oops".

Definition table : list (string * json) :=
  [(line_d1, JObj obj_d1); (line_d1_again, JObj obj_d1_again);
   (line_q1, JObj obj_q1); (line_empty_id, JObj obj_empty_id);
   (line_no_id, JObj obj_no_id); (line_numeric_text, JObj obj_numeric_text);
   (line_empty_text, JObj obj_empty_text); ("5", JInt 5)].

Definition sample_loads (line : string) : decoded :=
  match dict_get line table with
  | Some v => Decoded v
  | None =>
      DecodeError "Expecting property name enclosed in double quotes: line 1 column 2 (char 1)"
  end.

Definition tsv_reader (lines : list string) : list (list string) * option exn :=
  Csv.reader lines.

(** No example has a float, an array or an object as identifier. *)
Definition sample_repr (v : json) : string := "?".

Definition eqb_path (p q : path) : bool :=
  if list_eq_dec string_dec p q then true else false.

(** A directory [data] holding the three files with the given texts. *)
Definition data_dir (corpus queries qrels : option string) : filesystem :=
  fun p =>
    if eqb_path p ["data"; "corpus.jsonl"] then corpus
    else if eqb_path p ["data"; "queries.jsonl"] then queries
    else if eqb_path p ["data"; "qrels"; "test.tsv"] then qrels
    else None.

Definition file (lines : list string) : string :=
  String.concat EmptyString (map (fun l => (l ++ PyStr.newline)%string) lines).

Definition qrels_line (q d s : string) : string := q ++ tab ++ d ++ tab ++ s.


Definition fs_numeric_text : filesystem :=
  data_dir (Some (file [line_numeric_text])) (Some (file [line_q1]))
           (Some (file [qrels_line "q1" "d1" "1"])).


Definition fs_no_qrels : filesystem :=
  data_dir (Some (file [line_d1])) (Some (file [line_q1])) None.

(** A corpus whose only line has an empty [_id] next to a usable [id]. *)
Definition text_empty_id : string := file [line_empty_id].
Definition one_file (text : string) : filesystem :=
  data_dir (Some text) None None.
Definition corpus_path : path := ["data"; "corpus.jsonl"].

(** A well-formed corpus: two lines for [d1], a blank line between them. *)
Definition text_twice : string := file [line_d1; "   "; line_d1_again].

(** A corpus with a broken third line. *)
Definition text_broken : string := file [line_d1; line_d1_again; line_broken].

(** The table after loading [line_d1] alone. *)
Definition record_d1 : record :=
  [("text", JStr "hello world"); ("_id", JStr "d1"); ("title", JStr "T")].
Definition items_d1 : dict record := [("d1", record_d1)].

Definition load (text : string) : result (dict record) :=
  load_jsonl sample_loads sample_repr (one_file text) corpus_path
             default_id_keys default_text_keys.

Definition qrels_path : path := ["data"; "qrels"; "test.tsv"].

Definition text_qrels_short : string :=
  file [qrels_line "q1" "d1" "1"; EmptyString; ("q2" ++ tab ++ "d3")%string].
Definition text_qrels_bad_score : string :=
  file [qrels_line "q1" "d1" "1"; qrels_line "q2" "d3" "abc"].
Definition qrels_only (text : string) : filesystem :=
  data_dir None None (Some text).

(** A relevance file whose first row has a quoted field that runs over
    two lines; its second row, on the third line, has two fields. *)
Definition text_qrels_quoted : string :=
  file [("q1" ++ tab ++ dq ++ "d1")%string; ("x" ++ dq ++ tab ++ "1")%string;
        ("q2" ++ tab ++ "d3")%string].


(** A relevance file of one line, a field of 131073 characters. *)
Definition text_qrels_long_field : string :=
  N.iter 131073 (String "a") PyStr.newline.

Definition record_numeric_text : record := [("text", JInt 5); ("_id", JStr "d1")].
Definition record_q1 : record := [("text", JStr "hi"); ("_id", JStr "q1")].

(** A relevance file that judges the pair (q1, d1) twice. *)
Definition text_qrels_twice : string :=
  file [qrels_line "q1" "d1" "1"; qrels_line "q2" "d1" "0";
        qrels_line " q1" "d1 " "3"].
Definition table_qrels_twice : dict (dict Z) :=
  [("q1", [("d1", 3%Z)]); ("q2", [("d1", 0%Z)])].

(** A corpus whose second line is the bare number 5. *)
Definition text_scalar : string := file [line_d1; "5"].

(** A directory whose corpus and queries are both broken. *)
Definition fs_two_broken : filesystem :=
  data_dir (Some text_broken) (Some text_empty_id)
           (Some (file [qrels_line "q1" "d1" "1"])).

Definition run (fs : filesystem) (seed : list nat) : io Z :=
  main sample_loads tsv_reader sample_repr fs ["data"] "test" seed.

End Sample.

(** ** Notions used by the further properties *)

(** What a row of the relevance file contributes: the trimmed query id,
    the trimmed document id and the integer score. *)
Definition row_triple (cols : list string) : option (string * string * Z) :=
  match cols with
  | a :: b :: c :: _ =>
      match score_int (PyStr.strip c) with
      | Some z => Some (PyStr.strip a, PyStr.strip b, z)
      | None => None
      end
  | _ => None
  end.

(** [qrels[q][d]], when both keys are there. *)
Definition judged (q d : string) (t : dict (dict Z)) : option Z :=
  match dict_get q t with
  | Some inner => dict_get d inner
  | None => None
  end.

(** The score of the last row for the pair [(q, d)], starting from [acc]. *)
Definition last_judgment (q d : string) (rows : list (list string))
  (acc : option Z) : option Z :=
  fold_left
    (fun acc cols =>
       match row_triple cols with
       | Some (q', d', z) =>
           if String.eqb q q' && String.eqb d d' then Some z else acc
       | None => acc
       end)
    rows acc.

(** A row that is not empty and has fewer than three fields or a score
    that [int(float(...))] refuses. *)
Definition row_rejected (cols : list string) : bool :=
  match cols with
  | [] => false
  | _ =>
      (List.length cols <? 3)
      || match score_int (PyStr.strip (nth 2 cols EmptyString)) with
         | Some _ => false
         | None => true
         end
  end.

(** A relevance table with distinct query ids, each with a non-empty
    mapping of distinct document ids. *)
Definition qrels_ok (t : dict (dict Z)) : Prop :=
  dict_ok t /\ forall q inner, In (q, inner) t -> dict_ok inner /\ inner <> [].

(** The fields line 115 consults for a query, in its order. *)
Definition query_text_keys : list string := ["text"; "question"; "query"].

(** The warning lines for the two lists of missing ids. *)
Definition warnings (mq md : list string) : list event :=
  (match mq with
   | [] => []
   | _ => [Stdout [FText (PyStr.newline ++
             "WARNING: qrels reference query ids not present in queries.jsonl:");
             FStrs mq]]
   end)
  ++ match md with
     | [] => []
     | _ => [Stdout [FText (PyStr.newline ++
               "WARNING: qrels reference doc ids not present in corpus.jsonl:");
               FStrs md]]
     end.

(** A decoded value that is a number, a boolean or null. *)
Definition is_scalar (v : json) : bool :=
  match v with
  | JNull | JBool _ | JInt _ | JFloat _ => true
  | _ => false
  end.

(** The elements of a list at their first occurrence, in order. *)
Fixpoint first_occurrences (ks : list string) : list string :=
  match ks with
  | [] => []
  | k :: r => k :: filter (fun x => negb (String.eqb x k)) (first_occurrences r)
  end.

(** The key one draw of [seed] picks from a non-empty table. *)
Definition sampled_key {V : Type} (seed : list nat) (d : dict V) : string :=
  nth (hd 0 seed mod List.length d) (dict_keys d) EmptyString.

(** The draws left for the sample of queries: sampling a non-empty
    corpus takes one, an empty corpus takes none. *)
Definition query_seed (seed : list nat) (corpus : dict record) : list nat :=
  match corpus with
  | [] => seed
  | _ => tl seed
  end.

(** The three lines with the sizes, printed after a successful load. *)
Definition size_lines (corpus queries : dict record) (qrels : dict (dict Z))
  : list event :=
  [Stdout [FText "corpus size: "; FNat (List.length corpus)];
   Stdout [FText "queries size: "; FNat (List.length queries)];
   Stdout [FText "qrels size: "; FNat (List.length qrels)]].

(** The last line of a successful run. *)
Definition success_line : event :=
  Stdout [FText (PyStr.newline ++ "Validation completed successfully.")].

(** The lines printed for the sampled query [qid]. *)
Definition query_lines (queries : dict record) (qrels : dict (dict Z))
  (qid : string) : list event :=
  match dict_get qid queries with
  | Some q =>
      [Stdout [FText (PyStr.newline ++ "Sample query id:"); FText qid];
       Stdout [FText "Query text:"; FJson (first_truthy query_text_keys q)];
       Stdout [FText "qrels for sample_q:";
               FScores (match dict_get qid qrels with Some d => d | None => [] end)]]
  | None => []
  end.

(** A value that [text[:400]] accepts: a string or a list. *)
Definition sliceable (v : json) : bool :=
  match v with
  | JStr _ | JArr _ => true
  | _ => false
  end.

(** * Properties *)

(** ** Dictionaries *)

Section DictFacts.
Context {V : Type}.
Implicit Types (d : dict V) (k : string) (v : V).

Lemma dict_get_In_keys k d :
  dict_get k d <> None <-> In k (dict_keys d).
Proof.
  induction d as [|[k' v'] r IH]; simpl.
  - split; [congruence | tauto].
  - destruct (String.eqb_spec k k') as [->|Hne].
    + split; [auto | congruence].
    + rewrite IH. split; [auto | intros [E|H]; [simpl in E; congruence | exact H]].
Qed.

Lemma dict_get_None k d :
  dict_get k d = None <-> ~ In k (dict_keys d).
Proof.
  rewrite <- dict_get_In_keys. destruct (dict_get k d).
  - split; [congruence | intros H; exfalso; apply H; congruence].
  - split; [intros _ H; now apply H | reflexivity].
Qed.

Lemma dict_mem_true k d : dict_mem k d = true <-> In k (dict_keys d).
Proof.
  rewrite <- dict_get_In_keys. unfold dict_mem.
  destruct (dict_get k d); split; congruence.
Qed.

Lemma dict_mem_false k d : dict_mem k d = false <-> dict_get k d = None.
Proof. unfold dict_mem. destruct (dict_get k d); split; congruence. Qed.

Lemma dict_get_In k v d : dict_get k d = Some v -> In (k, v) d.
Proof.
  induction d as [|[k' v'] r IH]; simpl; [congruence|].
  destruct (String.eqb_spec k k') as [->|Hne].
  - intros [= ->]. now left.
  - auto.
Qed.

Lemma dict_In_get k v d : dict_ok d -> In (k, v) d -> dict_get k d = Some v.
Proof.
  unfold dict_ok, dict_keys.
  induction d as [|[k' v'] r IH]; simpl; [tauto|].
  intros Hnd [[= -> ->]|Hin].
  - now rewrite String.eqb_refl.
  - inversion Hnd as [|? ? Hnotin Hnd']; subst.
    destruct (String.eqb_spec k k') as [->|Hne]; [|auto].
    exfalso. apply Hnotin. now apply (in_map fst) in Hin.
Qed.

Lemma dict_get_set_same k v d : dict_get k (dict_set k v d) = Some v.
Proof.
  induction d as [|[k' v'] r IH]; simpl.
  - now rewrite String.eqb_refl.
  - destruct (String.eqb_spec k k') as [->|Hne]; simpl.
    + now rewrite String.eqb_refl.
    + destruct (String.eqb_spec k k'); [contradiction | exact IH].
Qed.

Lemma dict_get_set_other k k' v d :
  k <> k' -> dict_get k' (dict_set k v d) = dict_get k' d.
Proof.
  intros Hne. induction d as [|[k0 v0] r IH]; simpl.
  - destruct (String.eqb_spec k' k); [congruence | reflexivity].
  - destruct (String.eqb_spec k k0) as [->|Hne0]; simpl.
    + destruct (String.eqb_spec k' k0); [congruence | reflexivity].
    + now rewrite IH.
Qed.

Lemma dict_get_set k k' v d :
  dict_get k' (dict_set k v d)
  = if String.eqb k' k then Some v else dict_get k' d.
Proof.
  destruct (String.eqb_spec k' k) as [->|Hne].
  - apply dict_get_set_same.
  - apply dict_get_set_other. congruence.
Qed.

Lemma dict_keys_set k v d :
  dict_keys (dict_set k v d)
  = if dict_mem k d then dict_keys d else dict_keys d ++ [k].
Proof.
  unfold dict_mem. induction d as [|[k' v'] r IH]; simpl; [reflexivity|].
  destruct (String.eqb_spec k k') as [->|Hne]; simpl; [reflexivity|].
  rewrite IH. now destruct (dict_get k r).
Qed.

Lemma dict_ok_nil : dict_ok (@nil (string * V)).
Proof. constructor. Qed.

Lemma dict_ok_set k v d : dict_ok d -> dict_ok (dict_set k v d).
Proof.
  unfold dict_ok. rewrite dict_keys_set.
  destruct (dict_mem k d) eqn:E; [auto|].
  intros Hnd. apply NoDup_app; [exact Hnd | repeat constructor; simpl; tauto |].
  intros x Hx [<-|[]].
  apply dict_mem_true in Hx. congruence.
Qed.

Lemma dict_length_set k v d :
  List.length (dict_set k v d)
  = if dict_mem k d then List.length d else S (List.length d).
Proof.
  unfold dict_mem. induction d as [|[k' v'] r IH]; simpl; [reflexivity|].
  destruct (String.eqb_spec k k') as [->|Hne]; simpl; [reflexivity|].
  rewrite IH. now destruct (dict_get k r).
Qed.

Lemma dict_ok_update d other : dict_ok d -> dict_ok (dict_update d other).
Proof.
  unfold dict_update. revert d.
  induction other as [|[k v] r IH]; simpl; intros d Hd; [exact Hd|].
  apply IH. now apply dict_ok_set.
Qed.

(** After [d.update(other)], the entries of [other] win and the other
    entries of [d] stay. *)
Lemma dict_get_update k d other :
  dict_ok other ->
  dict_get k (dict_update d other)
  = match dict_get k other with
    | Some v => Some v
    | None => dict_get k d
    end.
Proof.
  unfold dict_update, dict_ok, dict_keys. revert d.
  induction other as [|[k' v'] r IH]; simpl; intros d Hnd; [reflexivity|].
  inversion Hnd as [|? ? Hnotin Hnd']; subst.
  rewrite (IH _ Hnd').
  destruct (String.eqb_spec k k') as [->|Hne].
  - apply dict_get_None in Hnotin. rewrite Hnotin. apply dict_get_set_same.
  - destruct (dict_get k r); [reflexivity|].
    apply dict_get_set_other. congruence.
Qed.

(** Two dictionaries with the same bindings have the same size. *)
Lemma dict_ext_length d d' :
  dict_ok d -> dict_ok d' ->
  (forall k, dict_get k d = dict_get k d') ->
  List.length d = List.length d'.
Proof.
  intros Hd Hd' Hext.
  assert (Hincl : forall (a b : dict V),
             dict_ok a -> (forall k, dict_get k a = dict_get k b) ->
             List.length a <= List.length b).
  { intros a b Ha Hab.
    rewrite <- (length_map fst a), <- (length_map fst b).
    apply NoDup_incl_length; [exact Ha|].
    intros k Hk. apply dict_get_In_keys. rewrite <- Hab.
    now apply dict_get_In_keys. }
  apply Nat.le_antisymm; apply Hincl; auto.
Qed.
End DictFacts.

(** ** Identifier lookup and record construction *)


Lemma first_present_split keys o v :
  first_present keys o = Some v <->
  exists before k after,
    keys = before ++ k :: after /\
    (forall k', In k' before -> dict_get k' o = None) /\
    dict_get k o = Some v.
Proof.
  induction keys as [|k0 r IH]; simpl.
  - split; [discriminate|].
    intros (before & k & after & E & _). now destruct before.
  - destruct (dict_get k0 o) as [v0|] eqn:E0.
    + split.
      * intros [= ->]. exists [], k0, r. repeat split; [|exact E0].
        intros k' [].
      * intros ([|b before] & k & after & E & Hb & Hk);
          simpl in E; injection E as E1 E2.
        -- rewrite <- E1 in Hk. congruence.
        -- specialize (Hb b (or_introl eq_refl)). rewrite <- E1 in Hb. congruence.
    + rewrite IH. split.
      * intros (before & k & after & -> & Hb & Hk).
        exists (k0 :: before), k, after. repeat split; [|exact Hk].
        intros k' [<-|Hin]; auto.
      * intros ([|b before] & k & after & E & Hb & Hk);
          simpl in E; injection E as E1 E2.
        -- rewrite <- E1 in Hk. congruence.
        -- exists before, k, after. split; [exact E2|].
           split; [|exact Hk]. intros k' Hin. apply Hb. now right.
Qed.

(** On an object, lines 30 to 34 compute [first_present]. *)
Lemma find_id_object id_keys o :
  find_id id_keys (JObj o)
  = Ok (match first_present id_keys o with Some v => v | None => JNull end).
Proof.
  induction id_keys as [|k r IH]; simpl; [reflexivity|].
  unfold dict_mem. destruct (dict_get k o); [reflexivity | exact IH].
Qed.

(** Only a dictionary gets past the identifier check. *)
Lemma find_id_truthy_object id_keys obj v :
  find_id id_keys obj = Ok v -> truthy v = true -> exists o, obj = JObj o.
Proof.
  destruct obj; try (destruct id_keys; simpl; [intros [= <-]|]; discriminate).
  - induction id_keys as [|k r IH]; simpl; [intros [= <-]; discriminate|].
    destruct (PyStr.contains k s); [discriminate | exact IH].
  - induction id_keys as [|k r IH]; simpl; [intros [= <-]; discriminate|].
    match goal with |- context [existsb ?f l] => destruct (existsb f l) end;
      [discriminate | exact IH].
  - eauto.
Qed.

Lemma text_view_fold_get text_keys o acc k v :
  (forall k v, dict_get k acc = Some v -> dict_get k o = Some v) ->
  dict_get k
    (fold_left (fun d k => if dict_mem k o then dict_set k (get k o) d else d)
               text_keys acc) = Some v
  <-> (In k text_keys /\ dict_get k o = Some v) \/ dict_get k acc = Some v.
Proof.
  revert acc. induction text_keys as [|k0 r IH]; simpl; intros acc Hacc.
  - tauto.
  - rewrite IH.
    + unfold dict_mem, get, get_default.
      destruct (dict_get k0 o) as [v0|] eqn:E0.
      * rewrite dict_get_set. destruct (String.eqb_spec k k0) as [->|Hne].
        -- split.
           ++ intros [[_ H]|[= <-]]; left; auto.
           ++ intros [[_ H]|H]; right; [congruence|].
              apply Hacc in H. congruence.
        -- split.
           ++ intros [[H1 H2]|H]; auto.
           ++ intros [[[E|H1] H2]|H]; auto. congruence.
      * split.
        -- intros [[H1 H2]|H]; auto.
        -- intros [[[E|H1] H2]|H]; auto. congruence.
    + intros k1 v1. unfold dict_mem, get, get_default.
      destruct (dict_get k0 o) as [v0|] eqn:E0; [|apply Hacc].
      rewrite dict_get_set. destruct (String.eqb_spec k1 k0) as [->|Hne].
      * congruence.
      * apply Hacc.
Qed.

(** The pre-populated view holds the text fields that are in the object,
    with the values they hold, and nothing else. *)
Lemma text_view_get text_keys o k v :
  dict_get k (text_view text_keys o) = Some v
  <-> In k text_keys /\ dict_get k o = Some v.
Proof.
  unfold text_view. rewrite text_view_fold_get.
  - simpl. split; [intros [H|H]; [exact H | discriminate] | auto].
  - simpl. discriminate.
Qed.

Lemma text_view_ok text_keys o : dict_ok (text_view text_keys o).
Proof.
  unfold text_view. generalize (@dict_ok_nil json).
  generalize (@nil (string * json)).
  induction text_keys as [|k r IH]; simpl; intros acc Hacc; [exact Hacc|].
  apply IH. destruct (dict_mem k o); [now apply dict_ok_set | exact Hacc].
Qed.

(** The record of an object has the bindings of the object. *)
Lemma record_get text_keys o k :
  dict_ok o ->
  dict_get k (dict_update (text_view text_keys o) o) = dict_get k o.
Proof.
  intros Hok. rewrite (dict_get_update _ _ _ Hok).
  destruct (dict_get k o) eqn:E; [reflexivity|].
  destruct (dict_get k (text_view text_keys o)) eqn:E'; [|reflexivity].
  apply text_view_get in E'. destruct E' as [_ E']. congruence.
Qed.

Lemma record_ok text_keys o : dict_ok (dict_update (text_view text_keys o) o).
Proof. apply dict_ok_update, text_view_ok. Qed.

(** ** The record loader *)


Lemma existsb_eqb_In k l : existsb (String.eqb k) l = true <-> In k l.
Proof.
  rewrite existsb_exists. split.
  - intros (x & Hin & E). apply String.eqb_eq in E. now subst.
  - intros Hin. exists k. split; [exact Hin | apply String.eqb_refl].
Qed.

Lemma existsb_eqb_ext k l l' :
  (forall x, In x l <-> In x l') ->
  existsb (String.eqb k) l = existsb (String.eqb k) l'.
Proof.
  intros H. apply eq_true_iff_eq. now rewrite !existsb_eqb_In.
Qed.

Lemma collisions_ext ks : forall seen seen',
  (forall x, In x seen <-> In x seen') ->
  collisions seen ks = collisions seen' ks.
Proof.
  induction ks as [|k r IH]; simpl; intros seen seen' H; [reflexivity|].
  rewrite (existsb_eqb_ext k seen seen' H). f_equal.
  apply IH. intros x. simpl. now rewrite H.
Qed.

Section StoreFacts.
Context {V : Type}.
Implicit Types (es : list (string * V)) (items : dict V).

Lemma store_all_cons k (v : V) es items :
  store_all ((k, v) :: es) items = store_all es (dict_set k v items).
Proof. reflexivity. Qed.

Lemma store_all_app es es' items :
  store_all (es ++ es') items = store_all es' (store_all es items).
Proof. apply fold_left_app. Qed.

Lemma store_all_ok es : forall items, dict_ok items -> dict_ok (store_all es items).
Proof.
  induction es as [|[k v] r IH]; intros items H; [exact H|].
  rewrite store_all_cons. apply IH. now apply dict_ok_set.
Qed.

Lemma store_all_length es : forall items,
  List.length (store_all es items) + collisions (dict_keys items) (map fst es)
  = List.length items + List.length es.
Proof.
  induction es as [|[k v] r IH]; intros items; [simpl; lia|].
  rewrite store_all_cons. simpl.
  specialize (IH (dict_set k v items)).
  rewrite dict_length_set, dict_keys_set in IH.
  replace (existsb (String.eqb k) (dict_keys items)) with (dict_mem k items).
  2:{ apply eq_true_iff_eq. now rewrite dict_mem_true, existsb_eqb_In. }
  destruct (dict_mem k items) eqn:E.
  - rewrite (collisions_ext (map fst r) (k :: dict_keys items) (dict_keys items)).
    + lia.
    + intros x. simpl. split; [intros [<-|H]; [now apply dict_mem_true | exact H] | auto].
  - rewrite (collisions_ext (map fst r) (k :: dict_keys items) (dict_keys items ++ [k])).
    + lia.
    + intros x. rewrite in_app_iff. simpl. tauto.
Qed.

Lemma store_all_keys es : forall items k,
  In k (dict_keys (store_all es items))
  <-> In k (dict_keys items) \/ In k (map fst es).
Proof.
  induction es as [|[k0 v0] r IH]; intros items k; [simpl; tauto|].
  rewrite store_all_cons, IH, dict_keys_set. simpl.
  destruct (dict_mem k0 items) eqn:E.
  - apply dict_mem_true in E. split; [tauto|].
    intros [H|[<-|H]]; auto.
  - rewrite in_app_iff. simpl. tauto.
Qed.

Lemma store_all_absent es : forall items k,
  ~ In k (map fst es) -> dict_get k (store_all es items) = dict_get k items.
Proof.
  induction es as [|[k0 v0] r IH]; intros items k H; [reflexivity|].
  simpl in H. rewrite store_all_cons, IH by tauto.
  apply dict_get_set_other. tauto.
Qed.

(** The last entry stored under a key is the one that is found. *)
Lemma store_all_last es k (v : V) es' items :
  ~ In k (map fst es') ->
  dict_get k (store_all (es ++ (k, v) :: es') items) = Some v.
Proof.
  intros H. rewrite store_all_app, store_all_cons, store_all_absent by exact H.
  apply dict_get_set_same.
Qed.
End StoreFacts.

Section LoaderFacts.
Variable json_loads : string -> decoded.
Variable py_repr : json -> string.


Lemma load_jsonl_line_blank p id_keys text_keys items i line :
  blank line = true ->
  load_jsonl_line json_loads py_repr p id_keys text_keys items i line = Ok items.
Proof. unfold blank, load_jsonl_line. now intros ->. Qed.

Lemma load_jsonl_line_invalid p id_keys text_keys items i line e :
  blank line = false ->
  json_loads (PyStr.strip line) = DecodeError e ->
  load_jsonl_line json_loads py_repr p id_keys text_keys items i line
  = Raise (ValueError (msg_invalid_json i p e)).
Proof. unfold blank, load_jsonl_line. now intros -> ->. Qed.

Lemma load_jsonl_line_object p id_keys text_keys items i line o :
  blank line = false ->
  json_loads (PyStr.strip line) = Decoded (JObj o) ->
  load_jsonl_line json_loads py_repr p id_keys text_keys items i line
  = match first_present id_keys o with
    | Some v =>
        if truthy v
        then Ok (dict_set (py_str py_repr v) (dict_update (text_view text_keys o) o) items)
        else Raise (ValueError (msg_no_id i p (JObj o)))
    | None => Raise (ValueError (msg_no_id i p (JObj o)))
    end.
Proof.
  unfold blank, load_jsonl_line. intros -> ->. simpl.
  rewrite find_id_object. simpl.
  destruct (first_present id_keys o) as [v|]; simpl; [|reflexivity].
  now destruct (truthy v).
Qed.

Lemma load_jsonl_lines_app p id_keys text_keys pre : forall items i rest,
  load_jsonl_lines json_loads py_repr p id_keys text_keys items i (pre ++ rest)
  = (items' <- load_jsonl_lines json_loads py_repr p id_keys text_keys items i pre ;;
     load_jsonl_lines json_loads py_repr p id_keys text_keys items' (List.length pre + i) rest).
Proof.
  induction pre as [|l r IH]; simpl; intros items i rest; [reflexivity|].
  destruct (load_jsonl_line json_loads py_repr p id_keys text_keys items i l); simpl; [|reflexivity].
  rewrite IH. now rewrite Nat.add_succ_r.
Qed.
Lemma existsb_first {A : Type} (f : A -> bool) (l : list A) :
  existsb f l = true ->
  exists pre x post, l = pre ++ x :: post /\ existsb f pre = false /\ f x = true.
Proof.
  induction l as [|a r IH]; simpl; [discriminate|].
  destruct (f a) eqn:E.
  - intros _. exists [], a, r. auto.
  - simpl. intros H. destruct (IH H) as (pre & x & post & -> & Hpre & Hx).
    exists (a :: pre), x, post. simpl. rewrite E. auto.
Qed.

Lemma load_jsonl_line_accepted p id_keys text_keys items i line :
  object_line json_loads line = true ->
  line_rejected json_loads id_keys line = false ->
  exists items', load_jsonl_line json_loads py_repr p id_keys text_keys items i line = Ok items'.
Proof.
  unfold object_line, line_rejected. destruct (blank line) eqn:Eb; simpl.
  - intros _ _. exists items. now apply load_jsonl_line_blank.
  - destruct (json_loads (PyStr.strip line)) as [v|e] eqn:Ej; [|discriminate].
    destruct v; try discriminate. intros _ Hr.
    rewrite (load_jsonl_line_object p id_keys text_keys items i line o Eb Ej).
    destruct (first_present id_keys o) as [v|]; [|discriminate].
    destruct (truthy v); [eauto | discriminate].
Qed.

Lemma load_jsonl_line_rejected p id_keys text_keys items i line :
  line_rejected json_loads id_keys line = true ->
  exists m,
    load_jsonl_line json_loads py_repr p id_keys text_keys items i line = Raise (ValueError m)
    /\ In (FNat i) m /\ In (FPath p) m.
Proof.
  unfold line_rejected. destruct (blank line) eqn:Eb; simpl; [discriminate|].
  destruct (json_loads (PyStr.strip line)) as [v|e] eqn:Ej.
  - destruct v; try discriminate. intros Hr.
    rewrite (load_jsonl_line_object p id_keys text_keys items i line o Eb Ej).
    exists (msg_no_id i p (JObj o)). split.
    + destruct (first_present id_keys o) as [v|]; [|reflexivity].
      now destruct (truthy v).
    + simpl. auto 6.
  - intros _. exists (msg_invalid_json i p e). split.
    + now apply load_jsonl_line_invalid.
    + simpl. auto 6.
Qed.

Lemma load_jsonl_lines_accepted p id_keys text_keys lines : forall items i,
  forallb (object_line json_loads) lines = true ->
  existsb (line_rejected json_loads id_keys) lines = false ->
  exists items', load_jsonl_lines json_loads py_repr p id_keys text_keys items i lines = Ok items'.
Proof.
  induction lines as [|l r IH]; simpl; intros items i Hobj Hrej; [eauto|].
  apply andb_true_iff in Hobj. destruct Hobj as [Hl Hr].
  apply orb_false_iff in Hrej. destruct Hrej as [Hl' Hr'].
  destruct (load_jsonl_line_accepted p id_keys text_keys items i l Hl Hl') as [items1 E].
  rewrite E. simpl. now apply IH.
Qed.

Lemma load_jsonl_lines_first_rejected p id_keys text_keys pre line post items i :
  forallb (object_line json_loads) pre = true ->
  existsb (line_rejected json_loads id_keys) pre = false ->
  line_rejected json_loads id_keys line = true ->
  exists m,
    load_jsonl_lines json_loads py_repr p id_keys text_keys items i (pre ++ line :: post)
    = Raise (ValueError m)
    /\ In (FNat (List.length pre + i)) m /\ In (FPath p) m.
Proof.
  intros Hobj Hpre Hline. rewrite load_jsonl_lines_app.
  destruct (load_jsonl_lines_accepted p id_keys text_keys pre items i Hobj Hpre)
    as [items1 E].
  rewrite E. simpl.
  destruct (load_jsonl_line_rejected p id_keys text_keys items1
              (List.length pre + i) line Hline) as (m & Em & Hm).
  exists m. now rewrite Em.
Qed.

Lemma load_jsonl_lines_well_formed p id_keys text_keys lines : forall items i,
  forallb (well_formed_line json_loads py_repr id_keys text_keys) lines = true ->
  load_jsonl_lines json_loads py_repr p id_keys text_keys items i lines
  = Ok (store_all (entries json_loads py_repr id_keys text_keys lines) items).
Proof.
  induction lines as [|l r IH]; simpl; intros items i Hwf; [reflexivity|].
  apply andb_true_iff in Hwf. destruct Hwf as [Hl Hr].
  unfold entries. simpl. fold (entries json_loads py_repr id_keys text_keys r).
  rewrite store_all_app.
  unfold well_formed_line in Hl. destruct (blank l) eqn:Eb.
  - rewrite load_jsonl_line_blank by exact Eb. simpl. now apply IH.
  - simpl in Hl. unfold line_entry in *.
    destruct (json_loads (PyStr.strip l)) as [v|e] eqn:Ej; [|discriminate].
    destruct v; try discriminate.
    rewrite (load_jsonl_line_object p id_keys text_keys items i l o Eb Ej).
    destruct (first_present id_keys o) as [v|]; [|discriminate].
    destruct (truthy v); [|discriminate].
    simpl. now apply IH.
Qed.

Lemma entries_app id_keys text_keys l l' :
  entries json_loads py_repr id_keys text_keys (l ++ l')
  = entries json_loads py_repr id_keys text_keys l
    ++ entries json_loads py_repr id_keys text_keys l'.
Proof. apply flat_map_app. Qed.

Lemma entries_length id_keys text_keys lines :
  forallb (well_formed_line json_loads py_repr id_keys text_keys) lines = true ->
  List.length (entries json_loads py_repr id_keys text_keys lines)
  = List.length (nonblank lines).
Proof.
  induction lines as [|l r IH]; simpl; [reflexivity|]. intros Hwf.
  apply andb_true_iff in Hwf. destruct Hwf as [Hl Hr].
  unfold entries. simpl. fold (entries json_loads py_repr id_keys text_keys r).
  rewrite length_app, (IH Hr). unfold well_formed_line in Hl.
  destruct (blank l); simpl; [reflexivity|]. simpl in Hl.
  now destruct (line_entry json_loads py_repr id_keys text_keys l).
Qed.
End LoaderFacts.

(** ** Claims about the record loader *)

Section RecordLoaderClaims.
Variable json_loads : string -> decoded.
Variable py_repr : json -> string.

(** C1, amended.  On a file whose lines are blank, no JSON, or JSON
    objects, [load_jsonl] raises exactly when some non-blank line is no
    JSON or holds an object whose first identifier field present is
    missing or falsy.  The error is a [ValueError] for the first such line;
    its message carries the 1-based line number and the path.  Without
    such a line the load returns a table. *)
Theorem load_jsonl_raises_exactly :
  forall (fs : filesystem) (p : path) (text : string) (id_keys text_keys : list string),
    fs p = Some text ->
    forallb (object_line json_loads) (PyStr.readlines text) = true ->
    ((exists e, load_jsonl json_loads py_repr fs p id_keys text_keys = Raise e)
     <-> existsb (line_rejected json_loads id_keys) (PyStr.readlines text) = true)
    /\
    (forall pre line post,
        PyStr.readlines text = pre ++ line :: post ->
        existsb (line_rejected json_loads id_keys) pre = false ->
        line_rejected json_loads id_keys line = true ->
        exists m,
          load_jsonl json_loads py_repr fs p id_keys text_keys = Raise (ValueError m)
          /\ In (FNat (S (List.length pre))) m /\ In (FPath p) m)
    /\
    (existsb (line_rejected json_loads id_keys) (PyStr.readlines text) = false ->
     exists items, load_jsonl json_loads py_repr fs p id_keys text_keys = Ok items).
Proof.
  intros fs p text id_keys text_keys Hfs Hobj.
  assert (Hload : load_jsonl json_loads py_repr fs p id_keys text_keys
                  = load_jsonl_lines json_loads py_repr p id_keys text_keys [] 1
                      (PyStr.readlines text)).
  { unfold load_jsonl, open_text. now rewrite Hfs. }
  assert (Hfirst : forall pre line post,
             PyStr.readlines text = pre ++ line :: post ->
             existsb (line_rejected json_loads id_keys) pre = false ->
             line_rejected json_loads id_keys line = true ->
             exists m,
               load_jsonl json_loads py_repr fs p id_keys text_keys = Raise (ValueError m)
               /\ In (FNat (S (List.length pre))) m /\ In (FPath p) m).
  { intros pre line post E Hpre Hline. rewrite Hload, E.
    rewrite E, forallb_app in Hobj. apply andb_true_iff in Hobj.
    destruct (load_jsonl_lines_first_rejected json_loads py_repr p id_keys
                text_keys pre line post [] 1 (proj1 Hobj) Hpre Hline)
      as (m & Em & Hn & Hp).
    exists m. rewrite Nat.add_1_r in Hn. auto. }
  assert (Hnone : existsb (line_rejected json_loads id_keys) (PyStr.readlines text) = false ->
                  exists items, load_jsonl json_loads py_repr fs p id_keys text_keys = Ok items).
  { intros Hrej. rewrite Hload. now apply load_jsonl_lines_accepted. }
  split; [|split; [exact Hfirst | exact Hnone]].
  split.
  - intros [e He].
    destruct (existsb (line_rejected json_loads id_keys) (PyStr.readlines text)) eqn:Ex;
      [reflexivity|].
    destruct (Hnone eq_refl) as [items Hi]. congruence.
  - intros Hex. destruct (existsb_first _ _ Hex) as (pre & x & post & E & Hpre & Hx).
    destruct (Hfirst pre x post E Hpre Hx) as (m & Em & _). eauto.
Qed.

(** C6.  On a well-formed file (every line blank or an object with a
    usable identifier) [load_jsonl] returns a table whose size is the
    number of non-blank lines minus the number of duplicate-id collisions;
    the key of a line is [str] of its identifier value, and the record
    found under a key is that of the last line with this key. *)
Theorem load_jsonl_size_and_last_write :
  forall (fs : filesystem) (p : path) (text : string) (id_keys text_keys : list string),
    fs p = Some text ->
    forallb (well_formed_line json_loads py_repr id_keys text_keys)
            (PyStr.readlines text) = true ->
    let lines := PyStr.readlines text in
    let keys := map fst (entries json_loads py_repr id_keys text_keys lines) in
    exists items,
      load_jsonl json_loads py_repr fs p id_keys text_keys = Ok items
      /\ List.length keys = List.length (nonblank lines)
      /\ List.length items = List.length (nonblank lines) - collisions [] keys
      /\ collisions [] keys <= List.length (nonblank lines)
      /\ (forall k, In k (dict_keys items) <-> In k keys)
      /\ (forall pre line post k r,
             lines = pre ++ line :: post ->
             blank line = false ->
             line_entry json_loads py_repr id_keys text_keys line = Some (k, r) ->
             ~ In k (map fst (entries json_loads py_repr id_keys text_keys post)) ->
             dict_get k items = Some r)
      /\ (forall line k r,
             line_entry json_loads py_repr id_keys text_keys line = Some (k, r) ->
             exists o v,
               json_loads (PyStr.strip line) = Decoded (JObj o)
               /\ first_present id_keys o = Some v
               /\ k = py_str py_repr v).
Proof.
  intros fs p text id_keys text_keys Hfs Hwf lines keys.
  exists (store_all (entries json_loads py_repr id_keys text_keys lines) []).
  assert (Hlen := store_all_length
                    (entries json_loads py_repr id_keys text_keys lines) []).
  assert (Hn := entries_length json_loads py_repr id_keys text_keys lines Hwf).
  simpl in Hlen. fold keys in Hlen.
  split; [|split; [|split; [|split; [|split; [|split]]]]].
  - unfold load_jsonl, open_text. rewrite Hfs. simpl.
    now apply load_jsonl_lines_well_formed.
  - unfold keys. now rewrite length_map.
  - lia.
  - lia.
  - intros k. rewrite store_all_keys. simpl. tauto.
  - intros pre line post k r E Hb He Hlast.
    rewrite E, entries_app. unfold entries at 2. simpl.
    fold (entries json_loads py_repr id_keys text_keys post).
    rewrite Hb, He. simpl. now apply store_all_last.
  - intros line k r. unfold line_entry.
    destruct (json_loads (PyStr.strip line)) as [v|e]; [|discriminate].
    destruct v; try discriminate.
    destruct (first_present id_keys o) as [v|] eqn:Ev; [|discriminate].
    destruct (truthy v); [|discriminate].
    intros [= <- <-]. eauto.
Qed.

(** C7.  For a line that holds an object, the record stored by
    [load_jsonl] is the update of a pre-populated dictionary by the
    object: the pre-populated dictionary binds exactly the recognized text
    fields that are in the object, to the values they have there (nothing
    is bound for an absent field), and after the update every field of the
    object is in the record with the value of the object. *)
Theorem record_is_text_view_overlaid :
  forall (p : path) (id_keys text_keys : list string) (items items' : dict record)
         (i : nat) (line : string) (o : record),
    blank line = false ->
    json_loads (PyStr.strip line) = Decoded (JObj o) ->
    dict_ok o ->
    load_jsonl_line json_loads py_repr p id_keys text_keys items i line = Ok items' ->
    exists doc_id pre,
      first_present id_keys o = Some doc_id
      /\ items' = dict_set (py_str py_repr doc_id) (dict_update pre o) items
      /\ dict_get (py_str py_repr doc_id) items' = Some (dict_update pre o)
      /\ (forall k v, dict_get k pre = Some v
                      <-> In k text_keys /\ dict_get k o = Some v)
      /\ (forall k v, dict_get k o = Some v ->
                      dict_get k (dict_update pre o) = Some v).
Proof.
  intros p id_keys text_keys items items' i line o Hb Hj Hok.
  rewrite (load_jsonl_line_object json_loads py_repr p id_keys text_keys
             items i line o Hb Hj).
  destruct (first_present id_keys o) as [v|]; [|discriminate].
  destruct (truthy v); [|discriminate].
  intros [= <-]. exists v, (text_view text_keys o).
  split; [reflexivity|]. split; [reflexivity|].
  split; [apply dict_get_set_same|].
  split; [apply text_view_get|].
  intros k w Hk. now rewrite record_get.
Qed.

(** C9.  For a line that loads, the stored record and the parsed object
    bind the same keys to the same values: looking up any key gives the
    same answer in both, and both have the same number of fields. *)
Theorem record_equals_object :
  forall (p : path) (id_keys text_keys : list string) (items items' : dict record)
         (i : nat) (line : string) (o : record),
    blank line = false ->
    json_loads (PyStr.strip line) = Decoded (JObj o) ->
    dict_ok o ->
    load_jsonl_line json_loads py_repr p id_keys text_keys items i line = Ok items' ->
    exists doc_id data,
      first_present id_keys o = Some doc_id
      /\ dict_get (py_str py_repr doc_id) items' = Some data
      /\ (forall k, dict_get k data = dict_get k o)
      /\ (forall k, In k (dict_keys data) <-> In k (dict_keys o))
      /\ dict_ok data
      /\ List.length data = List.length o.
Proof.
  intros p id_keys text_keys items items' i line o Hb Hj Hok.
  rewrite (load_jsonl_line_object json_loads py_repr p id_keys text_keys
             items i line o Hb Hj).
  destruct (first_present id_keys o) as [v|]; [|discriminate].
  destruct (truthy v); [|discriminate].
  intros [= <-]. exists v, (dict_update (text_view text_keys o) o).
  assert (Hext : forall k, dict_get k (dict_update (text_view text_keys o) o)
                           = dict_get k o)
    by (intros k; now apply record_get).
  split; [reflexivity|]. split; [apply dict_get_set_same|].
  split; [exact Hext|]. split.
  - intros k. now rewrite <- !dict_get_In_keys, Hext.
  - split; [apply record_ok|].
    apply dict_ext_length; [apply record_ok | exact Hok | exact Hext].
Qed.

(** C10.  Only the first identifier field present in the object is
    consulted, and a falsy value there is refused: when the identifier keys
    before [k] are absent from the object and [k] holds a falsy value, the
    load stops at this line with the no-id [ValueError], whatever the later
    identifier fields hold.  The empty string, 0, null and false are
    falsy. *)
Theorem falsy_identifier_rejected :
  forall (fs : filesystem) (p : path) (text : string) (text_keys : list string)
         (pre post : list string) (line : string) (items : dict record)
         (o : record) (before after : list string) (k : string) (v : json),
    fs p = Some text ->
    PyStr.readlines text = pre ++ line :: post ->
    load_jsonl_lines json_loads py_repr p (before ++ k :: after) text_keys [] 1 pre
    = Ok items ->
    blank line = false ->
    json_loads (PyStr.strip line) = Decoded (JObj o) ->
    (forall k', In k' before -> dict_get k' o = None) ->
    dict_get k o = Some v ->
    truthy v = false ->
    load_jsonl json_loads py_repr fs p (before ++ k :: after) text_keys
    = Raise (ValueError (msg_no_id (S (List.length pre)) p (JObj o)))
    /\ truthy (JStr EmptyString) = false /\ truthy (JInt 0) = false
    /\ truthy JNull = false /\ truthy (JBool false) = false.
Proof.
  intros fs p text text_keys pre post line items o before after k v
         Hfs Hlines Hpre Hb Hj Hbefore Hk Hv.
  split; [|repeat split].
  unfold load_jsonl, open_text. rewrite Hfs. simpl.
  rewrite Hlines, load_jsonl_lines_app, Hpre. simpl.
  rewrite (load_jsonl_line_object json_loads py_repr p _ text_keys
             items _ line o Hb Hj).
  assert (Hfp : first_present (before ++ k :: after) o = Some v).
  { apply first_present_split. exists before, k, after. auto. }
  rewrite Hfp, Hv. now rewrite Nat.add_1_r.
Qed.
End RecordLoaderClaims.

(** *** The claims on concrete files *)

Ltac distinct_keys :=
  unfold dict_ok; simpl;
  repeat (apply NoDup_cons; [simpl; intuition discriminate|]); apply NoDup_nil.

(** C1 as stated fails: the only line of this corpus is valid JSON and
    holds an object with the field [_id] (and [id]), yet the load raises. *)
Lemma load_jsonl_raises_on_present_id :
  Sample.load Sample.text_empty_id
  = Raise (ValueError (msg_no_id 1 Sample.corpus_path (JObj Sample.obj_empty_id)))
  /\ PyStr.readlines Sample.text_empty_id = [(Sample.line_empty_id ++ PyStr.newline)%string]
  /\ Sample.sample_loads (PyStr.strip (Sample.line_empty_id ++ PyStr.newline))
     = Decoded (JObj Sample.obj_empty_id)
  /\ dict_mem "_id" Sample.obj_empty_id = true
  /\ existsb (line_rejected_as_stated Sample.sample_loads default_id_keys)
             (PyStr.readlines Sample.text_empty_id) = false.
Proof. repeat split; vm_compute; reflexivity. Qed.

Lemma load_jsonl_raises_exactly_witness :
  exists m,
    Sample.load Sample.text_broken = Raise (ValueError m)
    /\ In (FNat 3) m /\ In (FPath Sample.corpus_path) m.
Proof.
  destruct (load_jsonl_raises_exactly Sample.sample_loads Sample.sample_repr
              (Sample.one_file Sample.text_broken) Sample.corpus_path
              Sample.text_broken default_id_keys default_text_keys)
    as (_ & Hfirst & _).
  - reflexivity.
  - vm_compute. reflexivity.
  - apply (Hfirst [(Sample.line_d1 ++ PyStr.newline)%string;
                   (Sample.line_d1_again ++ PyStr.newline)%string]
                  (Sample.line_broken ++ PyStr.newline)%string []);
      vm_compute; reflexivity.
Defined.

Lemma load_jsonl_size_and_last_write_witness :
  exists items,
    Sample.load Sample.text_twice = Ok items
    /\ List.length items = 2 - 1
    /\ dict_get "d1" items
       = Some (dict_update (text_view default_text_keys Sample.obj_d1_again)
                           Sample.obj_d1_again).
Proof.
  destruct (load_jsonl_size_and_last_write Sample.sample_loads Sample.sample_repr
              (Sample.one_file Sample.text_twice) Sample.corpus_path
              Sample.text_twice default_id_keys default_text_keys)
    as (items & Hload & _ & Hlen & _ & _ & Hlast & _).
  - reflexivity.
  - vm_compute. reflexivity.
  - exists items. split; [exact Hload|]. split; [exact Hlen|].
    apply (Hlast [(Sample.line_d1 ++ PyStr.newline)%string;
                  ("   " ++ PyStr.newline)%string]
                 (Sample.line_d1_again ++ PyStr.newline)%string []).
    + vm_compute. reflexivity.
    + vm_compute. reflexivity.
    + vm_compute. reflexivity.
    + simpl. tauto.
Defined.

Lemma record_is_text_view_overlaid_witness :
  exists doc_id pre,
    first_present default_id_keys Sample.obj_d1 = Some doc_id
    /\ Sample.items_d1
       = dict_set (py_str Sample.sample_repr doc_id) (dict_update pre Sample.obj_d1) []
    /\ dict_get (py_str Sample.sample_repr doc_id) Sample.items_d1
       = Some (dict_update pre Sample.obj_d1)
    /\ (forall k v, dict_get k pre = Some v
                    <-> In k default_text_keys /\ dict_get k Sample.obj_d1 = Some v)
    /\ (forall k v, dict_get k Sample.obj_d1 = Some v ->
                    dict_get k (dict_update pre Sample.obj_d1) = Some v).
Proof.
  apply (record_is_text_view_overlaid Sample.sample_loads Sample.sample_repr
           Sample.corpus_path default_id_keys default_text_keys [] Sample.items_d1
           1 Sample.line_d1 Sample.obj_d1).
  - vm_compute. reflexivity.
  - vm_compute. reflexivity.
  - distinct_keys.
  - vm_compute. reflexivity.
Defined.

Lemma record_equals_object_witness :
  exists doc_id data,
    first_present default_id_keys Sample.obj_d1 = Some doc_id
    /\ dict_get (py_str Sample.sample_repr doc_id) Sample.items_d1 = Some data
    /\ (forall k, dict_get k data = dict_get k Sample.obj_d1)
    /\ (forall k, In k (dict_keys data) <-> In k (dict_keys Sample.obj_d1))
    /\ dict_ok data
    /\ List.length data = List.length Sample.obj_d1.
Proof.
  apply (record_equals_object Sample.sample_loads Sample.sample_repr
           Sample.corpus_path default_id_keys default_text_keys [] Sample.items_d1
           1 Sample.line_d1 Sample.obj_d1).
  - vm_compute. reflexivity.
  - vm_compute. reflexivity.
  - distinct_keys.
  - vm_compute. reflexivity.
Defined.

Lemma falsy_identifier_rejected_witness :
  Sample.load Sample.text_empty_id
  = Raise (ValueError (msg_no_id 1 Sample.corpus_path (JObj Sample.obj_empty_id)))
  /\ truthy (JStr EmptyString) = false /\ truthy (JInt 0) = false
  /\ truthy JNull = false /\ truthy (JBool false) = false.
Proof.
  apply (falsy_identifier_rejected Sample.sample_loads Sample.sample_repr
           (Sample.one_file Sample.text_empty_id) Sample.corpus_path
           Sample.text_empty_id default_text_keys [] []
           (Sample.line_empty_id ++ PyStr.newline)%string []
           Sample.obj_empty_id [] ["id"] "_id" (JStr EmptyString)).
  - reflexivity.
  - vm_compute. reflexivity.
  - reflexivity.
  - vm_compute. reflexivity.
  - vm_compute. reflexivity.
  - intros k' H. destruct H.
  - reflexivity.
  - reflexivity.
Defined.

(** ** The relevance table loader *)



Lemma load_qrels_row_short p t i cols :
  cols <> [] -> List.length cols < 3 ->
  load_qrels_row p t i cols = Raise (ValueError (msg_short_row i p cols)).
Proof.
  intros Hne Hlen. unfold load_qrels_row.
  destruct cols as [|c r]; [contradiction|].
  apply Nat.ltb_lt in Hlen. now rewrite Hlen.
Qed.


(** A row makes the loader return or raise a [ValueError], nothing else. *)
Lemma load_qrels_row_value_error p t i cols e :
  load_qrels_row p t i cols = Raise e -> exists m, e = ValueError m.
Proof.
  unfold load_qrels_row. destruct cols as [|c r]; [discriminate|].
  destruct (List.length (c :: r) <? 3); [intros [= <-]; eauto|].
  destruct (score_int _); [discriminate | intros [= <-]; eauto].
Qed.

Lemma load_qrels_rows_app p pre : forall t i rest,
  load_qrels_rows p t i (pre ++ rest)
  = (t' <- load_qrels_rows p t i pre ;;
     load_qrels_rows p t' (List.length pre + i) rest).
Proof.
  induction pre as [|c r IH]; simpl; intros t i rest; [reflexivity|].
  destruct (load_qrels_row p t i c); simpl; [|reflexivity].
  rewrite IH. now rewrite Nat.add_succ_r.
Qed.

Lemma load_qrels_rows_value_error p rows : forall t i e,
  load_qrels_rows p t i rows = Raise e -> exists m, e = ValueError m.
Proof.
  induction rows as [|c r IH]; simpl; intros t i e; [discriminate|].
  destruct (load_qrels_row p t i c) eqn:E; simpl.
  - apply IH.
  - intros [= <-]. eapply load_qrels_row_value_error, E.
Qed.

(** ** The csv reader on lines without quotes *)

Lemma string_app_nil_r (s : string) : (s ++ EmptyString)%string = s.
Proof. induction s as [|c r IH]; simpl; [reflexivity | now rewrite IH]. Qed.

Lemma string_app_assoc (a b c : string) :
  ((a ++ b) ++ c)%string = (a ++ (b ++ c))%string.
Proof. induction a as [|x r IH]; simpl; [reflexivity | now rewrite IH]. Qed.

Lemma string_length_app (a b : string) :
  String.length (a ++ b) = String.length a + String.length b.
Proof. induction a as [|x r IH]; simpl; [reflexivity | now rewrite IH]. Qed.

Lemma all_chars_app f (a b : string) :
  all_chars f (a ++ b) = all_chars f a && all_chars f b.
Proof.
  induction a as [|x r IH]; simpl; [reflexivity|].
  now rewrite IH, andb_assoc.
Qed.

Lemma field_string_acc (buf : list ascii) : forall acc,
  fold_left (fun s c => String c s) buf acc
  = (Csv.field_string buf ++ acc)%string.
Proof.
  unfold Csv.field_string.
  induction buf as [|c r IH]; intros acc; simpl; [reflexivity|].
  rewrite IH, (IH (String c EmptyString)), string_app_assoc. reflexivity.
Qed.

Lemma field_string_cons c buf :
  Csv.field_string (c :: buf)
  = (Csv.field_string buf ++ String c EmptyString)%string.
Proof. unfold Csv.field_string at 1. simpl. apply field_string_acc. Qed.

Lemma split_tabs_not_nil s : split_tabs s <> [].
Proof.
  destruct s as [|c r]; simpl; [discriminate|].
  destruct (Ascii.eqb c "009"); [discriminate|].
  destruct (split_tabs r); discriminate.
Qed.

(** A line is its body, or its body and a final LF. *)
Lemma chomp_cases s :
  s = chomp s \/ s = (chomp s ++ PyStr.newline)%string.
Proof.
  induction s as [|c r IH]; [now left|].
  destruct r as [|c' r'].
  - simpl. destruct (Ascii.eqb_spec c "010") as [->|Hc]; [now right | now left].
  - change (chomp (String c (String c' r')))
      with (String c (chomp (String c' r'))).
    destruct IH as [IH|IH]; [left | right]; cbn [append]; now rewrite <- IH.
Qed.

Lemma chomp_all_chars f s : all_chars f s = true -> all_chars f (chomp s) = true.
Proof.
  induction s as [|c r IH]; [reflexivity|].
  destruct r as [|c' r'].
  - simpl. now destruct (Ascii.eqb c "010").
  - change (chomp (String c (String c' r')))
      with (String c (chomp (String c' r'))).
    cbn [all_chars] in *. intros H. apply andb_true_iff in H.
    destruct H as [Hc H]. rewrite Hc. now apply IH.
Qed.

Lemma chomp_length s : String.length (chomp s) <= String.length s.
Proof.
  induction s as [|c r IH]; [reflexivity|].
  destruct r as [|c' r'].
  - simpl. destruct (Ascii.eqb c "010"); simpl; lia.
  - change (chomp (String c (String c' r')))
      with (String c (chomp (String c' r'))).
    cbn [String.length] in *. lia.
Qed.

Lemma process_chars_app a : forall p b,
  Csv.process_chars p (a ++ b)
  = (p' <- Csv.process_chars p a ;; Csv.process_chars p' b).
Proof.
  induction a as [|c r IH]; intros p b; simpl; [reflexivity|].
  destruct (Csv.parse_process_char p (Some c)); simpl; [apply IH | reflexivity].
Qed.

(** Inside a line without quotes and line ends the automaton is in one
    of two states, and cuts the line at its tabs. *)
Lemma process_chars_body s : forall p,
  Csv.st p = Csv.START_FIELD \/ Csv.st p = Csv.IN_FIELD ->
  (Csv.field_len p + N.of_nat (String.length s) <= Csv.field_limit)%N ->
  all_chars (fun c => negb (Csv.is_newline c)) s = true ->
  all_chars (fun c => negb (Ascii.eqb c Csv.quotechar || Ascii.eqb c "000")) s = true ->
  exists p',
    Csv.process_chars p s = Ok p'
    /\ (Csv.st p' = Csv.START_FIELD \/ Csv.st p' = Csv.IN_FIELD)
    /\ Csv.fields p' ++ [Csv.field_string (Csv.field p')]
       = Csv.fields p
         ++ match split_tabs s with
            | h :: t => (Csv.field_string (Csv.field p) ++ h)%string :: t
            | [] => [Csv.field_string (Csv.field p)]
            end.
Proof.
  induction s as [|c r IH]; intros p Hst Hlen Hnl Hq.
  - exists p. simpl. rewrite string_app_nil_r. auto.
  - cbn [all_chars] in Hnl, Hq.
    apply andb_true_iff in Hnl. destruct Hnl as [Hc Hnl].
    apply andb_true_iff in Hq. destruct Hq as [Hcq Hq].
    apply negb_true_iff in Hc. apply negb_true_iff, orb_false_iff in Hcq.
    destruct Hcq as [Hcq _].
    cbn [String.length] in Hlen.
    cbn [Csv.process_chars split_tabs].
    change (Ascii.eqb c "009") with (Ascii.eqb c Csv.delimiter).
    destruct (Ascii.eqb c Csv.delimiter) eqn:Ed.
    + (* a tab ends the field *)
      destruct (IH (Csv.mkParser Csv.START_FIELD
                      (Csv.fields p ++ [Csv.field_string (Csv.field p)]) [] 0))
        as (p' & Ep & Hst' & Hf); [now left | simpl; lia | exact Hnl | exact Hq |].
      exists p'. split; [|split; [exact Hst'|]].
      * rewrite <- Ep.
        destruct Hst as [Hst|Hst]; unfold Csv.parse_process_char;
          rewrite Hst, Hc, ?Hcq, Ed; unfold Csv.parse_save_field, Csv.set_state;
          simpl; rewrite ?Hst; reflexivity.
      * rewrite Hf. cbn [Csv.fields Csv.field]. rewrite <- app_assoc.
        rewrite string_app_nil_r.
        destruct (split_tabs r) as [|h t] eqn:Es;
          [now destruct (split_tabs_not_nil r)|].
        reflexivity.
    + (* any other character joins the field *)
      assert (Hroom : (Csv.field_limit <=? Csv.field_len p)%N = false)
        by (apply N.leb_gt; lia).
      destruct (IH (Csv.mkParser Csv.IN_FIELD (Csv.fields p) (c :: Csv.field p)
                      (Csv.field_len p + 1)))
        as (p' & Ep & Hst' & Hf); [now right | simpl; lia | exact Hnl | exact Hq |].
      exists p'. split; [|split; [exact Hst'|]].
      * rewrite <- Ep.
        destruct Hst as [Hst|Hst]; unfold Csv.parse_process_char;
          rewrite Hst, Hc, ?Hcq, Ed; unfold Csv.parse_add_char;
          rewrite Hroom; unfold Csv.set_state; simpl; rewrite ?Hst; reflexivity.
      * rewrite Hf. cbn [Csv.fields Csv.field]. rewrite field_string_cons.
        destruct (split_tabs r) as [|h t];
          rewrite ?string_app_assoc; reflexivity.
Qed.

(** A line of the file without quotes is one row: its tab-separated
    fields. *)
Lemma process_plain_line line :
  file_line line = true -> plain_line line = true ->
  exists p',
    Csv.process_line Csv.parse_reset line = Ok p'
    /\ Csv.st p' = Csv.START_RECORD
    /\ Csv.fields p' = line_fields line.
Proof.
  unfold file_line, plain_line, line_fields. intros Hfile Hplain.
  apply andb_true_iff in Hfile. destruct Hfile as [_ Hnl].
  apply andb_true_iff in Hplain. destruct Hplain as [Hlen Hq].
  apply N.leb_le in Hlen.
  pose proof (chomp_all_chars _ line Hq) as Hqb.
  pose proof (chomp_length line) as Hlb.
  destruct (chomp line) as [|c r] eqn:Eb.
  - (* an empty line *)
    destruct (chomp_cases line) as [E|E]; rewrite Eb in E; rewrite E;
      eexists; (split; [reflexivity | split; reflexivity]).
  - assert (Hc : Csv.is_newline c = false).
    { cbn [all_chars] in Hnl. apply andb_true_iff in Hnl.
      now apply negb_true_iff. }
    destruct (process_chars_body (String c r)
                (Csv.set_state Csv.START_FIELD Csv.parse_reset))
      as (p' & Ep & Hst & Hf);
      [now left | simpl Csv.field_len; lia | exact Hnl | exact Hqb |].
    assert (Estart : forall tail,
               Csv.process_chars Csv.parse_reset (String c r ++ tail)
               = Csv.process_chars p' tail).
    { intros tail.
      assert (E1 : Csv.process_chars Csv.parse_reset (String c r ++ tail)
                   = Csv.process_chars
                       (Csv.set_state Csv.START_FIELD Csv.parse_reset)
                       (String c r ++ tail)).
      { cbn [append Csv.process_chars]. unfold Csv.parse_process_char.
        cbn [Csv.st Csv.parse_reset Csv.set_state]. rewrite Hc. reflexivity. }
      rewrite E1, process_chars_app, Ep. reflexivity. }
    cbn [Csv.fields Csv.field Csv.set_state Csv.parse_reset app] in Hf.
    change (Csv.field_string []) with EmptyString in Hf.
    assert (Hsplit : Csv.fields p' ++ [Csv.field_string (Csv.field p')]
                     = split_tabs (String c r)).
    { rewrite Hf. destruct (split_tabs (String c r)) as [|h t] eqn:Es;
        [now destruct (split_tabs_not_nil (String c r)) | reflexivity]. }
    destruct (chomp_cases line) as [E|E]; rewrite Eb in E.
    + (* the last line of a file that does not end in a line end *)
      exists (Csv.set_state Csv.START_RECORD (Csv.parse_save_field p')).
      split; [|split; [reflexivity | exact Hsplit]].
      unfold Csv.process_line.
      rewrite E, <- (string_app_nil_r (String c r)), Estart.
      cbn [Csv.process_chars bind]. unfold Csv.parse_process_char.
      destruct Hst as [-> | ->]; reflexivity.
    + exists (Csv.set_state Csv.START_RECORD
                (Csv.set_state Csv.EAT_CRNL (Csv.parse_save_field p'))).
      split; [|split; [reflexivity | exact Hsplit]].
      unfold Csv.process_line. rewrite E, Estart.
      unfold PyStr.newline. cbn [Csv.process_chars].
      assert (E2 : Csv.parse_process_char p' (Some "010"%char)
                   = Ok (Csv.set_state Csv.EAT_CRNL (Csv.parse_save_field p'))).
      { unfold Csv.parse_process_char. destruct Hst as [-> | ->]; reflexivity. }
      rewrite E2. reflexivity.
Qed.

(** On lines without quotes the reader yields one row per line, and what
    follows them is read from a fresh state. *)
Lemma reader_plain_app (pre rest : list string) :
  forallb file_line pre = true ->
  forallb plain_line pre = true ->
  Csv.reader (pre ++ rest)
  = (map line_fields pre ++ fst (Csv.reader rest), snd (Csv.reader rest)).
Proof.
  unfold Csv.reader.
  induction pre as [|l r IH]; intros Hfile Hplain.
  - simpl. now destruct (Csv.reader_from Csv.parse_reset rest).
  - cbn [forallb] in Hfile, Hplain.
    apply andb_true_iff in Hfile. destruct Hfile as [Hl Hfile].
    apply andb_true_iff in Hplain. destruct Hplain as [Hp Hplain].
    destruct (process_plain_line l Hl Hp) as (p' & Ep & Hst & Hf).
    cbn [app Csv.reader_from map]. rewrite Ep.
    unfold Csv.at_start. rewrite Hst, (IH Hfile Hplain), Hf. reflexivity.
Qed.

(** Every line of a text file is a [file_line]. *)
Lemma readlines_file_lines text : forallb file_line (PyStr.readlines text) = true.
Proof.
  induction text as [|c r IH]; [reflexivity|].
  cbn [PyStr.readlines].
  destruct (Ascii.eqb c "010") eqn:E10; [exact IH|].
  destruct (Ascii.eqb c "013") eqn:E13.
  - destruct r as [|c' r']; [reflexivity|].
    destruct (Ascii.eqb_spec c' "010") as [->|Hc'].
    + cbn [forallb]. cbn [PyStr.readlines] in IH. simpl in IH |- *. exact IH.
    + assert (E : match c' with
                  | "010"%char => PyStr.newline :: PyStr.readlines r'
                  | _ => PyStr.newline :: PyStr.readlines (String c' r')
                  end = PyStr.newline :: PyStr.readlines (String c' r')).
      { destruct c' as [[] [] [] [] [] [] [] []]; try reflexivity.
        now contradiction Hc'. }
      rewrite E. exact IH.
  - destruct (PyStr.readlines r) as [|l ls]; [|cbn [forallb] in IH |- *].
    + cbn [forallb]. rewrite andb_true_r. unfold file_line.
      cbn [PyStr.is_empty negb andb chomp]. rewrite E10.
      cbn [all_chars]. unfold Csv.is_newline. rewrite E10, E13. reflexivity.
    + apply andb_true_iff in IH. destruct IH as [Hl Hls]. rewrite Hls, andb_true_r.
      unfold file_line in *. apply andb_true_iff in Hl. destruct Hl as [Hne Hl].
      destruct l as [|c' l']; [discriminate|].
      change (chomp (String c (String c' l')))
        with (String c (chomp (String c' l'))).
      cbn [PyStr.is_empty negb andb all_chars]. rewrite Hl.
      unfold Csv.is_newline. rewrite E10, E13. reflexivity.
Qed.

Lemma forallb_app_l {A : Type} (f : A -> bool) (l l' : list A) :
  forallb f (l ++ l') = true -> forallb f l = true.
Proof. rewrite forallb_app. intros H. now apply andb_true_iff in H. Qed.

(** The rows of a file whose first lines have no quotes: the fields of
    these lines, then whatever the reader makes of the other lines. *)
Lemma reader_of_plain_lines text (pre post : list string) :
  PyStr.readlines text = pre ++ post ->
  forallb plain_line pre = true ->
  Csv.reader (PyStr.readlines text)
  = (map line_fields pre ++ fst (Csv.reader post), snd (Csv.reader post)).
Proof.
  intros E Hplain. rewrite E. apply reader_plain_app; [|exact Hplain].
  apply (forallb_app_l _ pre post). rewrite <- E. apply readlines_file_lines.
Qed.

Section QrelsRows.
Variable csv_reader : list string -> list (list string) * option exn.

(** [load_qrels] on a file that exists: the rows the reader yields go
    through the loop, then the error of the reader, if any, comes out. *)
Lemma load_qrels_of_file fs p text :
  fs p = Some text ->
  load_qrels csv_reader fs p
  = (t <- load_qrels_rows p [] 1 (fst (csv_reader (PyStr.readlines text))) ;;
     match snd (csv_reader (PyStr.readlines text)) with
     | Some e => Raise e
     | None => Ok t
     end).
Proof.
  intros Hfs. unfold load_qrels, open_text. rewrite Hfs. simpl.
  now destruct (csv_reader (PyStr.readlines text)).
Qed.

(** A row that the loop refuses, after rows that load: the load raises
    what the row raises. *)
Lemma load_qrels_row_raises fs p text pre post cols t e :
  fs p = Some text ->
  fst (csv_reader (PyStr.readlines text)) = pre ++ cols :: post ->
  load_qrels_rows p [] 1 pre = Ok t ->
  load_qrels_row p t (S (List.length pre)) cols = Raise e ->
  load_qrels csv_reader fs p = Raise e.
Proof.
  intros Hfs Hrows Hpre Hrow.
  rewrite (load_qrels_of_file fs p text Hfs), Hrows, load_qrels_rows_app, Hpre.
  simpl. rewrite Nat.add_1_r, Hrow. reflexivity.
Qed.

(** A non-empty row with fewer than three fields, among the rows the
    reader yields, makes [load_qrels] raise a [ValueError]. *)
Lemma short_row_raises fs p text pre post cols :
  fs p = Some text ->
  fst (csv_reader (PyStr.readlines text)) = pre ++ cols :: post ->
  cols <> [] ->
  List.length cols < 3 ->
  exists m, load_qrels csv_reader fs p = Raise (ValueError m).
Proof.
  intros Hfs Hrows Hne Hlen.
  destruct (load_qrels_rows p [] 1 pre) as [t|e] eqn:E.
  - eexists. apply (load_qrels_row_raises fs p text pre post cols t _ Hfs Hrows E).
    now apply load_qrels_row_short.
  - destruct (load_qrels_rows_value_error _ _ _ _ _ E) as [m ->]. exists m.
    rewrite (load_qrels_of_file fs p text Hfs), Hrows, load_qrels_rows_app, E.
    reflexivity.
Qed.
End QrelsRows.

(** The rows of a file up to a line, when the lines up to it have no
    quotes. *)
Lemma rows_up_to_plain_line text (pre post : list string) (line : string) :
  PyStr.readlines text = pre ++ line :: post ->
  forallb plain_line (pre ++ [line]) = true ->
  fst (Csv.reader (PyStr.readlines text))
  = map line_fields pre ++ line_fields line :: fst (Csv.reader post).
Proof.
  intros Hlines Hplain.
  rewrite (reader_of_plain_lines text (pre ++ [line]) post).
  - cbn [fst]. rewrite map_app, <- app_assoc. reflexivity.
  - rewrite Hlines, <- app_assoc. reflexivity.
  - exact Hplain.
Qed.

(** C3, amended.  Every non-empty row with fewer than three fields that
    the reader yields makes [load_qrels] raise a [ValueError] and return
    no table.  Where the lines of the file, up to the line in question,
    hold no double quote and no NUL and have at most 131072 characters,
    the rows are the lines and the fields their tab-separated parts: a
    non-empty line with fewer than three of them makes the load raise,
    and when the lines before it load, the message is the one of this
    line, with the path, the 1-based number of the line, the number of
    its fields and the fields.  An empty line is an empty row, which is
    skipped (and counted). *)
Theorem short_line_aborts_load :
  forall (fs : filesystem) (p : path) (text : string),
    fs p = Some text ->
    (forall (before after : list (list string)) (cols : list string),
        fst (Csv.reader (PyStr.readlines text)) = before ++ cols :: after ->
        cols <> [] ->
        List.length cols < 3 ->
        exists m, load_qrels Csv.reader fs p = Raise (ValueError m))
    /\ (forall (pre post : list string) (line : string),
          PyStr.readlines text = pre ++ line :: post ->
          forallb plain_line (pre ++ [line]) = true ->
          line_fields line <> [] ->
          List.length (line_fields line) < 3 ->
          (exists m, load_qrels Csv.reader fs p = Raise (ValueError m))
          /\ (forall t,
                 load_qrels_rows p [] 1 (map line_fields pre) = Ok t ->
                 load_qrels Csv.reader fs p
                 = Raise (ValueError
                            [FText "Invalid qrels line ";
                             FNat (S (List.length pre));
                             FText " in "; FPath p;
                             FText ": expected at least 3 columns, got ";
                             FNat (List.length (line_fields line)); FText ": ";
                             FStrs (line_fields line)])))
    /\ line_fields PyStr.newline = []
    /\ (forall t i rest,
           load_qrels_rows p t i ([] :: rest) = load_qrels_rows p t (S i) rest).
Proof.
  intros fs p text Hfs.
  split; [|split; [|split; reflexivity]].
  - intros before after cols Hrows Hne Hlen.
    exact (short_row_raises Csv.reader fs p text _ _ _ Hfs Hrows Hne Hlen).
  - intros pre post line Hlines Hplain Hne Hlen.
    pose proof (rows_up_to_plain_line text pre post line Hlines Hplain) as Hrows.
    split.
    + exact (short_row_raises Csv.reader fs p text _ _ _ Hfs Hrows Hne Hlen).
    + intros t Ht.
      apply (load_qrels_row_raises Csv.reader fs p text _ _ _ t _ Hfs Hrows Ht).
      rewrite length_map. now apply load_qrels_row_short.
Qed.


Lemma short_line_aborts_load_witness :
  load_qrels Csv.reader (Sample.qrels_only Sample.text_qrels_short)
             Sample.qrels_path
  = Raise (ValueError
             [FText "Invalid qrels line "; FNat 3; FText " in ";
              FPath Sample.qrels_path;
              FText ": expected at least 3 columns, got "; FNat 2; FText ": ";
              FStrs ["q2"; "d3"]]).
Proof.
  destruct (short_line_aborts_load
              (Sample.qrels_only Sample.text_qrels_short) Sample.qrels_path
              Sample.text_qrels_short)
    as (_ & Hline & _); [reflexivity|].
  destruct (Hline
              [Sample.qrels_line "q1" "d1" "1" ++ PyStr.newline; PyStr.newline]%string
              [] ("q2" ++ Sample.tab ++ "d3" ++ PyStr.newline)%string)
    as (_ & Hmsg).
  - vm_compute. reflexivity.
  - vm_compute. reflexivity.
  - discriminate.
  - simpl. lia.
  - apply (Hmsg [("q1", [("d1", 1%Z)])]). vm_compute. reflexivity.
Defined.


(** C3 as stated fails: the first row of this file has a quoted field
    that runs over the first two lines, so the row with two fields is the
    second row and stands on the third line; the message names line 2. *)
Lemma short_row_numbered_by_row_not_line :
  PyStr.readlines Sample.text_qrels_quoted
  = [("q1" ++ Sample.tab ++ Sample.dq ++ "d1" ++ PyStr.newline)%string;
     ("x" ++ Sample.dq ++ Sample.tab ++ "1" ++ PyStr.newline)%string;
     ("q2" ++ Sample.tab ++ "d3" ++ PyStr.newline)%string]
  /\ line_fields (nth 2 (PyStr.readlines Sample.text_qrels_quoted) EmptyString)
     = ["q2"; "d3"]
  /\ fst (Csv.reader (PyStr.readlines Sample.text_qrels_quoted))
     = [["q1"; ("d1" ++ PyStr.newline ++ "x")%string; "1"]; ["q2"; "d3"]]
  /\ load_qrels Csv.reader (Sample.qrels_only Sample.text_qrels_quoted)
                Sample.qrels_path
     = Raise (ValueError
                [FText "Invalid qrels line "; FNat 2; FText " in ";
                 FPath Sample.qrels_path;
                 FText ": expected at least 3 columns, got "; FNat 2; FText ": ";
                 FStrs ["q2"; "d3"]]).
Proof. repeat split; vm_compute; reflexivity. Qed.


(** ** The consistency check *)

Lemma filter_subseq {A : Type} (f : A -> bool) (l : list A) :
  subseq (filter f l) l.
Proof.
  induction l as [|a r IH]; simpl; [constructor|].
  destruct (f a); now constructor.
Qed.

Lemma set_add_In x y s : In x (set_add y s) <-> In x s \/ x = y.
Proof.
  unfold set_add. destruct (existsb (String.eqb y) s) eqn:E.
  - apply existsb_eqb_In in E. split; [auto | intros [H| ->]; auto].
  - rewrite in_app_iff. simpl. intuition.
Qed.

Lemma set_add_NoDup y s : NoDup s -> NoDup (set_add y s).
Proof.
  intros H. unfold set_add. destruct (existsb (String.eqb y) s) eqn:E; [exact H|].
  apply NoDup_app; [exact H | repeat constructor; simpl; tauto|].
  intros x Hx [<-|[]]. apply existsb_eqb_In in Hx. congruence.
Qed.

(** The inner loop of lines 124 to 126, over the documents of one query. *)
Lemma missing_docs_inner (corpus : dict record) ks : forall acc d,
  In d (fold_left (fun acc d => if dict_mem d corpus then acc else set_add d acc)
                  ks acc)
  <-> In d acc \/ (In d ks /\ dict_get d corpus = None).
Proof.
  induction ks as [|k r IH]; simpl; intros acc d; [tauto|].
  rewrite IH. destruct (dict_mem k corpus) eqn:E.
  - split; [tauto|]. intros [H|[[<-|H1] H2]]; auto.
    apply dict_mem_false in H2. congruence.
  - rewrite set_add_In. apply dict_mem_false in E.
    split; [intros [[H| ->]|H]; auto; tauto | intros [H|[[<-|H1] H2]]; auto].
Qed.

Lemma missing_docs_inner_NoDup (corpus : dict record) ks : forall acc,
  NoDup acc ->
  NoDup (fold_left (fun acc d => if dict_mem d corpus then acc else set_add d acc)
                   ks acc).
Proof.
  induction ks as [|k r IH]; simpl; intros acc H; [exact H|].
  apply IH. destruct (dict_mem k corpus); [exact H | now apply set_add_NoDup].
Qed.

Lemma missing_docs_outer (corpus : dict record) (qrels : dict (dict Z)) : forall acc d,
  In d (fold_left
          (fun acc qd =>
             fold_left (fun acc d => if dict_mem d corpus then acc else set_add d acc)
                       (dict_keys (snd qd)) acc)
          qrels acc)
  <-> In d acc
      \/ ((exists q docs, In (q, docs) qrels /\ In d (dict_keys docs))
          /\ dict_get d corpus = None).
Proof.
  induction qrels as [|[q docs] r IH]; simpl; intros acc d.
  - split; [auto | intros [H|[(q & docs & [] & _) _]]; exact H].
  - rewrite IH, missing_docs_inner. split.
    + intros [[H|[H1 H2]]|[(q' & docs' & Hin & Hd) H2]]; auto.
      * right. split; [exists q, docs; auto | exact H2].
      * right. split; [exists q', docs'; auto | exact H2].
    + intros [H|[(q' & docs' & [[= <- <-]|Hin] & Hd) H2]]; auto.
      right. split; [exists q', docs'; auto | exact H2].
Qed.

Lemma missing_docs_outer_NoDup (corpus : dict record) (qrels : dict (dict Z)) : forall acc,
  NoDup acc ->
  NoDup (fold_left
           (fun acc qd =>
              fold_left (fun acc d => if dict_mem d corpus then acc else set_add d acc)
                        (dict_keys (snd qd)) acc)
           qrels acc).
Proof.
  induction qrels as [|[q docs] r IH]; simpl; intros acc H; [exact H|].
  apply IH. now apply missing_docs_inner_NoDup.
Qed.

(** C4.  [missing_queries] holds exactly the keys of the relevance table
    that the queries lack, in the order of the table; [missing_docs] holds
    exactly the inner keys of the table that the corpus lacks, each once.
    Both are total functions of the three tables.  On the table
    q1 -> d1 -> 1, an empty corpus and a query q1 they give d1 and
    nothing. *)
Theorem consistency_check_exact :
  forall (qrels : dict (dict Z)) (corpus queries : dict record),
    (forall q, In q (missing_queries qrels queries)
               <-> In q (dict_keys qrels) /\ dict_get q queries = None)
    /\ subseq (missing_queries qrels queries) (dict_keys qrels)
    /\ (forall d, In d (missing_docs qrels corpus)
                  <-> (exists q docs, In (q, docs) qrels /\ In d (dict_keys docs))
                      /\ dict_get d corpus = None)
    /\ NoDup (missing_docs qrels corpus)
    /\ missing_docs [("q1", [("d1", 1%Z)])] [] = ["d1"]
    /\ missing_queries [("q1", [("d1", 1%Z)])] [("q1", Sample.obj_q1)] = [].
Proof.
  intros qrels corpus queries. repeat split.
  - unfold missing_queries in H. apply filter_In in H. tauto.
  - unfold missing_queries in H. apply filter_In in H. destruct H as [_ H].
    apply negb_true_iff in H. now apply dict_mem_false.
  - intros [H1 H2]. unfold missing_queries. apply filter_In. split; [exact H1|].
    apply negb_true_iff. now apply dict_mem_false.
  - apply filter_subseq.
  - unfold missing_docs in H. apply missing_docs_outer in H.
    destruct H as [[]|[H _]]. exact H.
  - unfold missing_docs in H. apply missing_docs_outer in H.
    destruct H as [[]|[_ H]]. exact H.
  - intros [H1 H2]. unfold missing_docs. apply missing_docs_outer. auto.
  - unfold missing_docs. apply missing_docs_outer_NoDup. constructor.
Qed.

(** ** The orchestrator *)

Lemma for_each_print {A : Type} (f : A -> message) (l : list A) :
  for_each (fun a => print (f a)) l = (map (fun a => Stdout (f a)) l, Ok tt).
Proof.
  induction l as [|a r IH]; simpl; [reflexivity|].
  rewrite IH. reflexivity.
Qed.

Lemma py_or_assoc a b c : py_or (py_or a b) c = py_or a (py_or b c).
Proof.
  unfold py_or. destruct (truthy a) eqn:Ea; [now rewrite Ea | reflexivity].
Qed.

Lemma py_or_get k doc rest :
  py_or (get k doc) rest
  = match dict_get k doc with
    | Some v => if truthy v then v else rest
    | None => rest
    end.
Proof. unfold py_or, get, get_default. now destruct (dict_get k doc). Qed.

(** Line 108 takes the first truthy value among the four text fields. *)
Lemma doc_text_first_truthy doc : doc_text doc = first_truthy doc_text_keys doc.
Proof.
  unfold doc_text. rewrite !py_or_assoc, !py_or_get. reflexivity.
Qed.

(** One draw from a non-empty table. *)
Lemma sample_keys_one {V : Type} (seed : list nat) (d : dict V) :
  d <> [] ->
  sample_keys seed d 1
  = ([nth (hd 0 seed mod List.length d) (dict_keys d) EmptyString], tl seed).
Proof.
  destruct d as [|[k v] r]; [contradiction|]. intros _.
  unfold sample_keys.
  change (dict_keys ((k, v) :: r)) with (k :: dict_keys r).
  change (Nat.min 1 (List.length (k :: dict_keys r))) with 1.
  cbn [random_sample hd tl].
  change (List.length ((k, v) :: r)) with (S (List.length r)).
  change (List.length (k :: dict_keys r)) with (S (List.length (dict_keys r))).
  unfold dict_keys. now rewrite length_map.
Qed.

Lemma sample_keys_none {V : Type} (seed : list nat) (n : nat) :
  sample_keys seed (@nil (string * V)) n = ([], seed).
Proof. reflexivity. Qed.

Lemma sampled_key_bound {V : Type} (seed : list nat) (d : dict V) :
  d <> [] ->
  exists v,
    dict_get (nth (hd 0 seed mod List.length d) (dict_keys d) EmptyString) d = Some v.
Proof.
  intros Hne.
  assert (Hin : In (nth (hd 0 seed mod List.length d) (dict_keys d) EmptyString)
                   (dict_keys d)).
  { apply nth_In. unfold dict_keys. rewrite length_map.
    apply Nat.mod_upper_bound. destruct d; [contradiction | simpl; lia]. }
  apply dict_get_In_keys in Hin.
  destruct (dict_get _ d) as [v|]; [eauto | congruence].
Qed.

Lemma report_doc_shown corpus docid doc shown :
  dict_get docid corpus = Some doc ->
  slice400 (doc_text doc) = Ok shown ->
  report_doc corpus docid
  = ([Stdout [FText (PyStr.newline ++ "Sample doc id:"); FText docid];
      Stdout [FText "Fields:"; FStrs (dict_keys doc)];
      Stdout [FText "Title:"; FJson (get_default "title" (JStr EmptyString) doc)];
      Stdout [FText "Text (first 400 chars):"; FJson shown]], Ok tt).
Proof.
  intros Hd Hs. unfold report_doc, table_getitem, lift, io_bind, print.
  rewrite Hd, Hs. reflexivity.
Qed.

Lemma report_doc_raises corpus docid doc e :
  dict_get docid corpus = Some doc ->
  slice400 (doc_text doc) = Raise e ->
  report_doc corpus docid
  = ([Stdout [FText (PyStr.newline ++ "Sample doc id:"); FText docid];
      Stdout [FText "Fields:"; FStrs (dict_keys doc)];
      Stdout [FText "Title:"; FJson (get_default "title" (JStr EmptyString) doc)]],
     Raise e).
Proof.
  intros Hd Hs. unfold report_doc, table_getitem, lift, io_bind, print.
  rewrite Hd, Hs. reflexivity.
Qed.

Lemma report_query_ok queries qrels qid q :
  dict_get qid queries = Some q ->
  exists out, report_query queries qrels qid = (out, Ok tt).
Proof.
  intros Hq. unfold report_query, table_getitem, lift, io_bind, print.
  rewrite Hq. eauto.
Qed.

Lemma report_missing_ok mq md : exists out, report_missing mq md = (out, Ok tt).
Proof.
  unfold report_missing, io_bind, print, ret.
  destruct mq, md; simpl; eauto.
Qed.

Lemma io_bind_ok {A B : Type} (out : list event) (a : A) (k : A -> io B) :
  io_bind (out, Ok a) k = (out ++ fst (k a), snd (k a)).
Proof. unfold io_bind. now destruct (k a). Qed.

Lemma io_bind_raise {A B : Type} (out : list event) (e : exn) (k : A -> io B) :
  io_bind (out, Raise e) k = (out, Raise e).
Proof. reflexivity. Qed.

Lemma snd_print_bind {B : Type} (m : message) (k : unit -> io B) :
  snd (io_bind (print m) k) = snd (k tt).
Proof. unfold print. now rewrite io_bind_ok. Qed.

Lemma snd_ret_bind {A B : Type} (a : A) (k : A -> io B) :
  snd (io_bind (ret a) k) = snd (k a).
Proof. unfold ret. now rewrite io_bind_ok. Qed.

Lemma for_each_one {A : Type} (body : A -> io unit) (a : A) :
  for_each body [a] = io_bind (body a) (fun _ => ret tt).
Proof. reflexivity. Qed.

Section OrchestratorFacts.
Variable json_loads : string -> decoded.
Variable csv_reader : list string -> list (list string) * option exn.
Variable py_repr : json -> string.

(** A missing file: every missing path is listed and the exit code is 2;
    no file is read. *)
Lemma main_missing_files fs data_path split seed m ms :
  missing_files fs (expected_files data_path split) = m :: ms ->
  main json_loads csv_reader py_repr fs data_path split seed
  = (Stdout [FText "ERROR: missing expected files:"]
       :: map (fun x => Stdout [FText "  "; FPath x]) (m :: ms), Ok 2%Z).
Proof.
  unfold main, expected_files. intros ->.
  rewrite (for_each_print (fun x => [FText "  "; FPath x])).
  unfold io_bind, print, ret. simpl. now rewrite app_nil_r.
Qed.

(** Any exception of a loader: it is printed and the exit code is 1. *)
Lemma main_load_error fs data_path split seed e :
  missing_files fs (expected_files data_path split) = [] ->
  load_all json_loads csv_reader py_repr fs
           (path_join data_path "corpus.jsonl") (path_join data_path "queries.jsonl")
           (path_join (path_join data_path "qrels") (split ++ ".tsv")) = Raise e ->
  main json_loads csv_reader py_repr fs data_path split seed
  = ([StderrError e], Ok 1%Z).
Proof. unfold main, expected_files. now intros -> ->. Qed.

(** After the three loads: the counts, the samples, the warnings. *)
Lemma main_loaded fs data_path split seed corpus queries qrels :
  missing_files fs (expected_files data_path split) = [] ->
  load_all json_loads csv_reader py_repr fs
           (path_join data_path "corpus.jsonl") (path_join data_path "queries.jsonl")
           (path_join (path_join data_path "qrels") (split ++ ".tsv"))
  = Ok (corpus, queries, qrels) ->
  main json_loads csv_reader py_repr fs data_path split seed
  = (print [FText "corpus size: "; FNat (List.length corpus)] ;;;
     print [FText "queries size: "; FNat (List.length queries)] ;;;
     print [FText "qrels size: "; FNat (List.length qrels)] ;;;
     let (docids, seed1) := sample_keys seed corpus 1 in
     for_each (report_doc corpus) docids ;;;
     let (qids, _) := sample_keys seed1 queries 1 in
     for_each (report_query queries qrels) qids ;;;
     report_missing (missing_queries qrels queries) (missing_docs qrels corpus) ;;;
     print [FText (PyStr.newline ++ "Validation completed successfully.")] ;;;
     ret 0%Z).
Proof. unfold main, expected_files. now intros -> ->. Qed.

(** The sample of queries and the warnings never raise. *)
Lemma main_tail_returns_zero seed queries qrels corpus :
  exists out,
    (let (qids, _) := sample_keys seed queries 1 in
     for_each (report_query queries qrels) qids ;;;
     report_missing (missing_queries qrels queries) (missing_docs qrels corpus) ;;;
     print [FText (PyStr.newline ++ "Validation completed successfully.")] ;;;
     ret 0%Z) = (out, Ok 0%Z).
Proof.
  destruct (report_missing_ok (missing_queries qrels queries)
                              (missing_docs qrels corpus)) as [outm Em].
  destruct queries as [|e r] eqn:Eq.
  - rewrite sample_keys_none. simpl for_each.
    rewrite Em. unfold ret, print, io_bind. simpl. eauto.
  - rewrite <- Eq in *. rewrite sample_keys_one by (rewrite Eq; discriminate).
    destruct (sampled_key_bound seed queries) as [q Hq]; [rewrite Eq; discriminate|].
    destruct (report_query_ok queries qrels _ q Hq) as [outq Eoq].
    simpl for_each. rewrite Eoq, Em. unfold ret, print, io_bind. simpl. eauto.
Qed.

(** When the text of the sampled document can be sliced, and when the
    corpus is empty, [main] returns 0: the warnings do not count. *)
Lemma main_returns_zero fs data_path split seed corpus queries qrels :
  missing_files fs (expected_files data_path split) = [] ->
  load_all json_loads csv_reader py_repr fs
           (path_join data_path "corpus.jsonl") (path_join data_path "queries.jsonl")
           (path_join (path_join data_path "qrels") (split ++ ".tsv"))
  = Ok (corpus, queries, qrels) ->
  (forall docid doc, dict_get docid corpus = Some doc ->
                     exists shown, slice400 (doc_text doc) = Ok shown) ->
  snd (main json_loads csv_reader py_repr fs data_path split seed) = Ok 0%Z.
Proof.
  intros Hm Hl Hslice. rewrite (main_loaded _ _ _ _ _ _ _ Hm Hl).
  rewrite !snd_print_bind.
  destruct corpus as [|e r] eqn:Ec.
  - rewrite sample_keys_none. cbv beta iota.
    change (for_each (report_doc []) []) with (@ret unit tt).
    rewrite snd_ret_bind.
    destruct (main_tail_returns_zero seed queries qrels []) as [out E].
    cbv beta. rewrite E. reflexivity.
  - rewrite <- Ec in *. rewrite sample_keys_one by (rewrite Ec; discriminate).
    destruct (sampled_key_bound seed corpus) as [doc Hd]; [rewrite Ec; discriminate|].
    destruct (Hslice _ doc Hd) as [shown Hs].
    cbv beta iota.
    rewrite for_each_one, (report_doc_shown corpus _ doc shown Hd Hs).
    rewrite !io_bind_ok. cbn [snd].
    destruct (main_tail_returns_zero (tl seed) queries qrels corpus) as [out E].
    cbv beta. unfold ret at 1. cbn [snd fst]. rewrite E. reflexivity.
Qed.
End OrchestratorFacts.




(** C5 fails on this dataset: the three files exist and load, the only
    document has the number 5 as text, and slicing it raises a [TypeError]
    that leaves [main], whatever the random draw. *)
Theorem main_escapes_on_numeric_text :
  forall seed : list nat,
    Sample.run Sample.fs_numeric_text seed
    = ([Stdout [FText "corpus size: "; FNat 1];
        Stdout [FText "queries size: "; FNat 1];
        Stdout [FText "qrels size: "; FNat 1];
        Stdout [FText (PyStr.newline ++ "Sample doc id:"); FText "d1"];
        Stdout [FText "Fields:"; FStrs ["text"; "_id"]];
        Stdout [FText "Title:"; FJson (JStr EmptyString)]],
       Raise TypeError).
Proof.
  intros seed. unfold Sample.run.
  rewrite (main_loaded Sample.sample_loads Sample.tsv_reader Sample.sample_repr
             Sample.fs_numeric_text ["data"] "test" seed
             [("d1", Sample.record_numeric_text)] [("q1", Sample.record_q1)]
             [("q1", [("d1", 1%Z)])])
    by (vm_compute; reflexivity).
  rewrite sample_keys_one by discriminate.
  change (List.length [("d1", Sample.record_numeric_text)]) with 1.
  rewrite Nat.mod_1_r. reflexivity.
Qed.

(** The record and the object of [Sample.line_d1] list their fields in
    different orders: the text fields come first in the record. *)
Remark record_order_can_differ :
  dict_keys Sample.record_d1 = ["text"; "_id"; "title"]
  /\ dict_keys Sample.obj_d1 = ["_id"; "title"; "text"].
Proof. split; reflexivity. Qed.

(** * Further properties *)

(** ** Sampling *)

Lemma remove_at_length {A : Type} (l : list A) : forall i,
  i < List.length l -> List.length (remove_at i l) = List.length l - 1.
Proof.
  induction l as [|a r IH]; intros [|i] H; simpl in *; try lia.
  rewrite IH by lia. lia.
Qed.

Lemma remove_at_In {A : Type} (l : list A) : forall i x,
  In x (remove_at i l) -> In x l.
Proof.
  induction l as [|a r IH]; intros [|i] x; simpl; auto.
  intros [<-|H]; eauto.
Qed.

Lemma remove_at_NoDup {A : Type} (l : list A) : forall i,
  NoDup l -> NoDup (remove_at i l).
Proof.
  induction l as [|a r IH]; intros [|i] H; simpl; auto.
  - now inversion H.
  - inversion H as [|? ? Hnotin Hnd]; subst. constructor; [|now apply IH].
    intros Hin. apply Hnotin. eapply remove_at_In, Hin.
Qed.

Lemma remove_at_nth_absent {A : Type} (dflt : A) (l : list A) : forall i,
  NoDup l -> i < List.length l -> ~ In (nth i l dflt) (remove_at i l).
Proof.
  induction l as [|a r IH]; intros [|i] Hnd Hi; simpl in *; try lia.
  - now inversion Hnd.
  - inversion Hnd as [|? ? Hnotin Hnd']; subst. intros [E|Hin].
    + apply Hnotin. rewrite E. apply nth_In. lia.
    + apply (IH i); [exact Hnd' | lia | exact Hin].
Qed.

Lemma random_sample_sound n : forall seed pop,
  let picked := fst (random_sample seed pop n) in
  List.length picked = Nat.min n (List.length pop)
  /\ (forall k, In k picked -> In k pop)
  /\ (NoDup pop -> NoDup picked).
Proof.
  induction n as [|n IH]; intros seed pop; simpl.
  - repeat split; [tauto | constructor].
  - destruct pop as [|a r]; [simpl; repeat split; [tauto | constructor]|].
    set (i := hd 0 seed mod List.length (a :: r)).
    assert (Hi : i < List.length (a :: r))
      by (apply Nat.mod_upper_bound; simpl; lia).
    specialize (IH (tl seed) (remove_at i (a :: r))).
    destruct (random_sample (tl seed) (remove_at i (a :: r)) n) as [picked seed'].
    simpl in IH. destruct IH as (Hlen & Hin & Hnd).
    cbn [fst]. split; [|split].
    + cbn [List.length]. rewrite Hlen, remove_at_length by exact Hi.
      simpl List.length. lia.
    + intros k [<-|Hk]; [now apply nth_In | eapply remove_at_In, Hin, Hk].
    + intros Hpop. constructor.
      * intros Hk. apply Hin in Hk.
        now apply (remove_at_nth_absent EmptyString (a :: r) i Hpop Hi).
      * apply Hnd. now apply remove_at_NoDup.
Qed.

(** X1.  [sample_keys(d, n)] returns [min(n, len(d))] keys of [d], no key
    twice; on an empty table it returns nothing. *)
Theorem sample_keys_sound :
  forall (V : Type) (seed : list nat) (d : dict V) (n : nat),
    dict_ok d ->
    let picked := fst (sample_keys seed d n) in
    List.length picked = Nat.min n (List.length d)
    /\ (forall k, In k picked -> exists v, dict_get k d = Some v)
    /\ NoDup picked
    /\ (d = [] -> picked = []).
Proof.
  intros V seed d n Hok picked. subst picked. unfold sample_keys.
  destruct (dict_keys d) as [|k0 r] eqn:Ek.
  - destruct d; [|discriminate]. simpl.
    repeat split; [lia | tauto | constructor].
  - rewrite <- Ek.
    destruct (random_sample_sound (Nat.min n (List.length (dict_keys d))) seed
                                  (dict_keys d)) as (Hlen & Hin & Hnd).
    assert (Hl : List.length (dict_keys d) = List.length d)
      by (unfold dict_keys; apply length_map).
    split; [|split; [|split]].
    + rewrite Hlen, Hl. lia.
    + intros k Hk. apply Hin, dict_get_In_keys in Hk.
      destruct (dict_get k d) as [v|]; [eauto | congruence].
    + apply Hnd, Hok.
    + intros ->. discriminate.
Qed.

Lemma sample_keys_sound_witness :
  let picked := fst (sample_keys [4; 1] Sample.obj_d1 2) in
  List.length picked = Nat.min 2 (List.length Sample.obj_d1)
  /\ (forall k, In k picked -> exists v, dict_get k Sample.obj_d1 = Some v)
  /\ NoDup picked
  /\ (Sample.obj_d1 = [] -> picked = []).
Proof.
  apply (sample_keys_sound json [4; 1] Sample.obj_d1 2). distinct_keys.
Defined.

(** ** The relevance table *)

Lemma load_qrels_row_triple p t i cols :
  load_qrels_row p t i cols
  = match cols with
    | [] => Ok t
    | _ =>
        if List.length cols <? 3 then Raise (ValueError (msg_short_row i p cols))
        else match row_triple cols with
             | Some (q, d, z) => Ok (qrels_add q d z t)
             | None =>
                 Raise (ValueError
                          (msg_bad_score i p (PyStr.strip (nth 2 cols EmptyString))))
             end
    end.
Proof.
  destruct cols as [|a [|b [|c rest]]]; try reflexivity.
  unfold load_qrels_row, row_triple. cbn [List.length nth Nat.ltb Nat.leb].
  now destruct (score_int (PyStr.strip c)).
Qed.

Lemma load_qrels_row_inv p t i cols t' :
  load_qrels_row p t i cols = Ok t' ->
  (cols = [] /\ t' = t)
  \/ exists q d z, row_triple cols = Some (q, d, z) /\ t' = qrels_add q d z t.
Proof.
  rewrite load_qrels_row_triple. destruct cols as [|a r]; [intros [= <-]; auto|].
  destruct (List.length (a :: r) <? 3); [discriminate|].
  destruct (row_triple (a :: r)) as [[[q d] z]|]; [|discriminate].
  intros [= <-]. right. eauto.
Qed.

Lemma judged_qrels_add q d q' d' z t :
  judged q d (qrels_add q' d' z t)
  = if String.eqb q q' && String.eqb d d' then Some z else judged q d t.
Proof.
  unfold judged, qrels_add. rewrite dict_get_set.
  destruct (String.eqb_spec q q') as [->|Hq]; simpl; [|reflexivity].
  rewrite dict_get_set. destruct (String.eqb d d'); [reflexivity|].
  now destruct (dict_get q' t).
Qed.

Lemma load_qrels_rows_judged p rows : forall t0 i t q d,
  load_qrels_rows p t0 i rows = Ok t ->
  judged q d t = last_judgment q d rows (judged q d t0).
Proof.
  unfold last_judgment.
  induction rows as [|cols r IH]; simpl; intros t0 i t q d H.
  - now injection H as <-.
  - destruct (load_qrels_row p t0 i cols) as [t1|e] eqn:E; [|discriminate].
    simpl in H. rewrite (IH _ _ _ q d H).
    destruct (load_qrels_row_inv _ _ _ _ _ E) as [[-> ->]|(q' & d' & z & Et & ->)].
    + reflexivity.
    + rewrite Et, judged_qrels_add. reflexivity.
Qed.

Lemma dict_set_In {V : Type} (k k' : string) (v v' : V) (d : dict V) :
  In (k', v') (dict_set k v d) -> (k' = k /\ v' = v) \/ In (k', v') d.
Proof.
  induction d as [|[k0 v0] r IH]; simpl.
  - intros [[= <- <-]|[]]. auto.
  - destruct (String.eqb_spec k k0) as [->|Hne]; simpl.
    + intros [[= <- <-]|H]; auto.
    + intros [H|H]; auto. destruct (IH H); auto.
Qed.

Lemma dict_set_nonempty {V : Type} (k : string) (v : V) (d : dict V) :
  dict_set k v d <> [].
Proof.
  destruct d as [|[k0 v0] r]; simpl; [discriminate|].
  destruct (String.eqb k k0); discriminate.
Qed.

Lemma qrels_ok_add q d z t : qrels_ok t -> qrels_ok (qrels_add q d z t).
Proof.
  intros [Hok Hin]. unfold qrels_add. split; [now apply dict_ok_set|].
  intros q0 inner0 H. apply dict_set_In in H.
  destruct H as [[-> ->]|H]; [|now apply (Hin q0)].
  split; [|apply dict_set_nonempty].
  apply dict_ok_set. destruct (dict_get q t) as [inner|] eqn:E.
  - apply dict_get_In in E. now destruct (Hin q inner E).
  - apply dict_ok_nil.
Qed.

Lemma qrels_add_keys q d z t q0 :
  In q0 (dict_keys (qrels_add q d z t)) <-> q0 = q \/ In q0 (dict_keys t).
Proof.
  unfold qrels_add. rewrite dict_keys_set.
  destruct (dict_mem q t) eqn:E.
  - apply dict_mem_true in E. split; [auto | intros [->|H]; auto].
  - rewrite in_app_iff. simpl. intuition.
Qed.

Lemma load_qrels_rows_ok p rows : forall t0 i t,
  load_qrels_rows p t0 i rows = Ok t ->
  qrels_ok t0 ->
  qrels_ok t
  /\ forall q, In q (dict_keys t)
               <-> In q (dict_keys t0)
                   \/ exists cols d z, In cols rows /\ row_triple cols = Some (q, d, z).
Proof.
  induction rows as [|cols r IH]; simpl; intros t0 i t H Hok.
  - injection H as <-. split; [exact Hok|].
    intros q. split; [auto | intros [H|(c & _ & _ & [] & _)]; exact H].
  - destruct (load_qrels_row p t0 i cols) as [t1|e] eqn:E; [|discriminate].
    simpl in H.
    destruct (load_qrels_row_inv _ _ _ _ _ E) as [[-> ->]|(q' & d' & z & Et & ->)].
    + destruct (IH _ _ _ H Hok) as [Hok' Hkeys]. split; [exact Hok'|].
      intros q. rewrite Hkeys. split.
      * intros [Hq|(c & d & z & Hc & Hr)]; [auto|]. right. exists c, d, z. auto.
      * intros [Hq|(c & d & z & [<-|Hc] & Hr)]; [auto | discriminate |].
        right. exists c, d, z. auto.
    + destruct (IH _ _ _ H (qrels_ok_add q' d' z t0 Hok)) as [Hok' Hkeys].
      split; [exact Hok'|]. intros q. rewrite Hkeys, qrels_add_keys. split.
      * intros [[->|Hq]|(c & d & z0 & Hc & Hr)]; auto.
        -- right. exists cols, d', z. auto.
        -- right. exists c, d, z0. auto.
      * intros [Hq|(c & d & z0 & [<-|Hc] & Hr)]; auto.
        -- rewrite Et in Hr. injection Hr as -> _ _. auto.
        -- right. exists c, d, z0. auto.
Qed.

Lemma qrels_ok_nil : qrels_ok [].
Proof. split; [apply dict_ok_nil | intros q inner []]. Qed.

Lemma load_qrels_row_accepted p t i cols :
  row_rejected cols = false -> exists t', load_qrels_row p t i cols = Ok t'.
Proof.
  unfold row_rejected, load_qrels_row. destruct cols as [|a r]; [eauto|].
  destruct (List.length (a :: r) <? 3); [discriminate|]. simpl orb.
  destruct (score_int _); [eauto | discriminate].
Qed.

Lemma load_qrels_row_rejected p t i cols :
  row_rejected cols = true ->
  exists m, load_qrels_row p t i cols = Raise (ValueError m)
            /\ In (FNat i) m /\ In (FPath p) m.
Proof.
  unfold row_rejected, load_qrels_row. destruct cols as [|a r]; [discriminate|].
  destruct (List.length (a :: r) <? 3).
  - intros _. eexists. split; [reflexivity|]. simpl. auto 6.
  - simpl orb. destruct (score_int _); [discriminate|].
    intros _. eexists. split; [reflexivity|]. simpl. auto 6.
Qed.

Lemma load_qrels_rows_accepted p rows : forall t i,
  existsb row_rejected rows = false -> exists t', load_qrels_rows p t i rows = Ok t'.
Proof.
  induction rows as [|cols r IH]; simpl; intros t i H; [eauto|].
  apply orb_false_iff in H. destruct H as [Hc Hr].
  destruct (load_qrels_row_accepted p t i cols Hc) as [t1 ->]. simpl. now apply IH.
Qed.

Section QrelsFurther.
Variable csv_reader : list string -> list (list string) * option exn.

(** X2.  [load_qrels] raises exactly when the reader yields a non-empty
    row with fewer than three fields or with a score that
    [int(float(...))] refuses (not a number, an infinity or NaN), or when
    the reader itself stops on an error.  For the first such row the error
    is a [ValueError] that carries the 1-based number of the row and the
    path; when the loop accepts every row the reader yields, the load
    raises the error of the reader, and returns a table when there is
    none. *)
Theorem load_qrels_raises_exactly :
  forall (fs : filesystem) (p : path) (text : string),
    fs p = Some text ->
    let rows := fst (csv_reader (PyStr.readlines text)) in
    let err := snd (csv_reader (PyStr.readlines text)) in
    ((exists e, load_qrels csv_reader fs p = Raise e)
     <-> existsb row_rejected rows = true \/ err <> None)
    /\ (forall pre cols post,
          rows = pre ++ cols :: post ->
          existsb row_rejected pre = false ->
          row_rejected cols = true ->
          exists m, load_qrels csv_reader fs p = Raise (ValueError m)
                    /\ In (FNat (S (List.length pre))) m /\ In (FPath p) m)
    /\ (existsb row_rejected rows = false ->
        match err with
        | Some e => load_qrels csv_reader fs p = Raise e
        | None => exists t, load_qrels csv_reader fs p = Ok t
        end).
Proof.
  intros fs p text Hfs rows err.
  pose proof (load_qrels_of_file csv_reader fs p text Hfs) as Hload.
  fold rows err in Hload.
  assert (Hfirst : forall pre cols post,
             rows = pre ++ cols :: post ->
             existsb row_rejected pre = false ->
             row_rejected cols = true ->
             exists m, load_qrels csv_reader fs p = Raise (ValueError m)
                       /\ In (FNat (S (List.length pre))) m /\ In (FPath p) m).
  { intros pre cols post E Hpre Hc. rewrite Hload, E, load_qrels_rows_app.
    destruct (load_qrels_rows_accepted p pre [] 1 Hpre) as [t1 ->]. simpl.
    destruct (load_qrels_row_rejected p t1 (List.length pre + 1) cols Hc)
      as (m & -> & Hn & Hp).
    exists m. rewrite Nat.add_1_r in Hn. auto. }
  assert (Hnone : existsb row_rejected rows = false ->
                  match err with
                  | Some e => load_qrels csv_reader fs p = Raise e
                  | None => exists t, load_qrels csv_reader fs p = Ok t
                  end).
  { intros H. rewrite Hload.
    destruct (load_qrels_rows_accepted p rows [] 1 H) as [t ->]. simpl.
    destruct err; eauto. }
  split; [|split; [exact Hfirst | exact Hnone]].
  split.
  - intros [e He]. destruct (existsb row_rejected rows) eqn:Ex; [now left|].
    right. specialize (Hnone eq_refl). destruct err; [discriminate|].
    destruct Hnone as [t Ht]. congruence.
  - intros [Hex|Herr].
    + destruct (existsb_first _ _ Hex) as (pre & x & post & E & Hpre & Hx).
      destruct (Hfirst pre x post E Hpre Hx) as (m & Em & _). eauto.
    + destruct (existsb row_rejected rows) eqn:Ex.
      * destruct (existsb_first _ _ Ex) as (pre & x & post & E & Hpre & Hx).
        destruct (Hfirst pre x post E Hpre Hx) as (m & Em & _). eauto.
      * specialize (Hnone eq_refl). destruct err as [e|]; [eauto|].
        now contradiction Herr.
Qed.

(** X3.  In the table [load_qrels] returns, the score of a pair (query
    id, document id) is the score of the last row with this pair, ids
    trimmed; a pair no row mentions is not in the table. *)
Theorem load_qrels_last_row_wins :
  forall (fs : filesystem) (p : path) (text : string) (t : dict (dict Z)),
    fs p = Some text ->
    load_qrels csv_reader fs p = Ok t ->
    forall q d,
      judged q d t
      = last_judgment q d (fst (csv_reader (PyStr.readlines text))) None.
Proof.
  intros fs p text t Hfs. rewrite (load_qrels_of_file csv_reader fs p text Hfs).
  destruct (load_qrels_rows p [] 1 (fst (csv_reader (PyStr.readlines text))))
    as [t'|e] eqn:H; [|discriminate].
  simpl. destruct (snd (csv_reader (PyStr.readlines text))); [discriminate|].
  intros [= <-] q d. now rewrite (load_qrels_rows_judged _ _ _ _ _ q d H).
Qed.

(** X4.  The table [load_qrels] returns has each query id once, and
    under each query id a non-empty mapping with each document id once;
    its query ids are exactly the trimmed first fields of the rows. *)
Theorem load_qrels_table_shape :
  forall (fs : filesystem) (p : path) (text : string) (t : dict (dict Z)),
    fs p = Some text ->
    load_qrels csv_reader fs p = Ok t ->
    qrels_ok t
    /\ forall q, In q (dict_keys t)
                 <-> exists cols d z,
                       In cols (fst (csv_reader (PyStr.readlines text)))
                       /\ row_triple cols = Some (q, d, z).
Proof.
  intros fs p text t Hfs. rewrite (load_qrels_of_file csv_reader fs p text Hfs).
  destruct (load_qrels_rows p [] 1 (fst (csv_reader (PyStr.readlines text))))
    as [t'|e] eqn:H; [|discriminate].
  simpl. destruct (snd (csv_reader (PyStr.readlines text))); [discriminate|].
  intros [= <-].
  destruct (load_qrels_rows_ok _ _ _ _ _ H qrels_ok_nil) as [Hok Hkeys].
  split; [exact Hok|]. intros q. rewrite Hkeys. simpl. tauto.
Qed.
End QrelsFurther.

(** X5.  Fields after the third are ignored: cutting every row down to
    its first three fields changes neither the table nor the error. *)
Theorem extra_columns_ignored :
  forall (p : path) (rows : list (list string)) (t : dict (dict Z)) (i : nat),
    load_qrels_rows p t i (map (firstn 3) rows) = load_qrels_rows p t i rows.
Proof.
  intros p rows. induction rows as [|cols r IH]; intros t i; [reflexivity|].
  cbn [map load_qrels_rows].
  assert (E : load_qrels_row p t i (firstn 3 cols) = load_qrels_row p t i cols).
  { destruct cols as [|a [|b [|c rest]]]; reflexivity. }
  rewrite E. destruct (load_qrels_row p t i cols); simpl; [apply IH | reflexivity].
Qed.

Lemma load_qrels_raises_exactly_witness :
  exists m,
    load_qrels Sample.tsv_reader (Sample.qrels_only Sample.text_qrels_bad_score)
               Sample.qrels_path = Raise (ValueError m)
    /\ In (FNat 2) m /\ In (FPath Sample.qrels_path) m.
Proof.
  destruct (load_qrels_raises_exactly Sample.tsv_reader
              (Sample.qrels_only Sample.text_qrels_bad_score) Sample.qrels_path
              Sample.text_qrels_bad_score)
    as (_ & Hfirst & _).
  - reflexivity.
  - apply (Hfirst [["q1"; "d1"; "1"]] ["q2"; "d3"; "abc"] []);
      vm_compute; reflexivity.
Defined.

(** A field of more than 131072 characters: the reader yields no row and
    raises, and the load raises its error, which is no [ValueError]. *)
Remark long_field_raises_csv_error :
  Csv.reader (PyStr.readlines Sample.text_qrels_long_field) = ([], Some CsvError)
  /\ load_qrels Csv.reader (Sample.qrels_only Sample.text_qrels_long_field)
                Sample.qrels_path
     = Raise CsvError.
Proof. split; vm_compute; reflexivity. Qed.

Lemma load_qrels_last_row_wins_witness :
  judged "q1" "d1" Sample.table_qrels_twice
  = last_judgment "q1" "d1"
      (fst (Sample.tsv_reader (PyStr.readlines Sample.text_qrels_twice))) None.
Proof.
  apply (load_qrels_last_row_wins Sample.tsv_reader
           (Sample.qrels_only Sample.text_qrels_twice) Sample.qrels_path
           Sample.text_qrels_twice Sample.table_qrels_twice).
  - reflexivity.
  - vm_compute. reflexivity.
Defined.

Lemma load_qrels_table_shape_witness :
  qrels_ok Sample.table_qrels_twice
  /\ forall q, In q (dict_keys Sample.table_qrels_twice)
               <-> exists cols d z,
                     In cols (fst (Sample.tsv_reader
                                     (PyStr.readlines Sample.text_qrels_twice)))
                     /\ row_triple cols = Some (q, d, z).
Proof.
  apply (load_qrels_table_shape Sample.tsv_reader
           (Sample.qrels_only Sample.text_qrels_twice) Sample.qrels_path).
  - reflexivity.
  - vm_compute. reflexivity.
Defined.

(** ** The record loader, further *)

Lemma find_id_raise id_keys obj e : find_id id_keys obj = Raise e -> e = TypeError.
Proof.
  induction id_keys as [|k r IH]; simpl; [discriminate|].
  destruct obj; simpl; try (now intros [= <-]).
  - destruct (PyStr.contains k s); [now intros [= <-] | exact IH].
  - match goal with |- context [existsb ?f l] => destruct (existsb f l) end;
      [now intros [= <-] | exact IH].
  - unfold dict_mem. destruct (dict_get k o); [discriminate | exact IH].
Qed.

Lemma first_present_record id_keys text_keys o :
  dict_ok o ->
  first_present id_keys (dict_update (text_view text_keys o) o)
  = first_present id_keys o.
Proof.
  intros Hok. induction id_keys as [|k ks IH]; [reflexivity|]. simpl.
  rewrite record_get by exact Hok. now rewrite IH.
Qed.

Section RecordLoaderFurther.
Variable json_loads : string -> decoded.
Variable py_repr : json -> string.

(** A line is stored exactly when it is blank (nothing changes) or has
    an entry (the entry is stored). *)
Lemma load_jsonl_line_ok_iff p id_keys text_keys items i line items' :
  load_jsonl_line json_loads py_repr p id_keys text_keys items i line = Ok items'
  <-> (blank line = true /\ items' = items)
      \/ (blank line = false
          /\ exists k r, line_entry json_loads py_repr id_keys text_keys line = Some (k, r)
                         /\ items' = dict_set k r items).
Proof.
  destruct (blank line) eqn:Eb.
  - rewrite load_jsonl_line_blank by exact Eb. split.
    + intros [= <-]. auto.
    + intros [[_ ->]|[H _]]; [reflexivity | discriminate].
  - unfold line_entry.
    destruct (json_loads (PyStr.strip line)) as [v|msg] eqn:Ej.
    + destruct v;
        try (split;
             [ unfold load_jsonl_line; unfold blank in Eb; rewrite Eb, Ej;
               cbn [bind];
               match goal with
               | |- context [find_id id_keys ?obj] =>
                   destruct (find_id id_keys obj) as [w|e] eqn:Ef
               end; cbn [bind]; [|discriminate];
               destruct (truthy w) eqn:Ew; cbn [negb]; [|discriminate];
               destruct (find_id_truthy_object _ _ _ Ef Ew); discriminate
             | intros [[H _]|(_ & k & r & H & _)]; discriminate ]).
      rewrite (load_jsonl_line_object json_loads py_repr p id_keys text_keys
                 items i line o Eb Ej).
      destruct (first_present id_keys o) as [v|].
      * destruct (truthy v).
        -- split.
           ++ intros [= <-]. right. split; [reflexivity|]. eauto.
           ++ intros [[H _]|(_ & k & r & [= <- <-] & ->)]; [discriminate | reflexivity].
        -- split; [discriminate|].
           intros [[H _]|(_ & k & r & H & _)]; discriminate.
      * split; [discriminate|].
        intros [[H _]|(_ & k & r & H & _)]; discriminate.
    + rewrite (load_jsonl_line_invalid json_loads py_repr p id_keys text_keys
                 items i line msg Eb Ej).
      split; [discriminate|].
      intros [[H _]|(_ & k & r & H & _)]; discriminate.
Qed.

Lemma load_jsonl_lines_ok_iff p id_keys text_keys lines : forall items i t,
  load_jsonl_lines json_loads py_repr p id_keys text_keys items i lines = Ok t
  <-> forallb (well_formed_line json_loads py_repr id_keys text_keys) lines = true
      /\ t = store_all (entries json_loads py_repr id_keys text_keys lines) items.
Proof.
  induction lines as [|l r IH]; intros items i t.
  - simpl. split; [intros [= <-]; auto | intros [_ ->]; reflexivity].
  - split.
    + simpl. destruct (load_jsonl_line json_loads py_repr p id_keys text_keys
                         items i l) as [items1|e] eqn:E; [|discriminate].
      simpl. intros H. apply IH in H. destruct H as [Hwf ->].
      apply load_jsonl_line_ok_iff in E.
      unfold entries. simpl flat_map.
      fold (entries json_loads py_repr id_keys text_keys r).
      rewrite store_all_app. unfold well_formed_line at 1.
      destruct E as [[Eb ->]|(Eb & k & e & Ee & ->)]; rewrite Eb.
      * simpl. auto.
      * rewrite Ee. simpl. auto.
    + intros [Hwf ->].
      now rewrite (load_jsonl_lines_well_formed json_loads py_repr p id_keys
                     text_keys (l :: r) items i Hwf).
Qed.

Lemma nonblank_well_formed id_keys text_keys lines :
  forallb (well_formed_line json_loads py_repr id_keys text_keys) (nonblank lines)
  = forallb (well_formed_line json_loads py_repr id_keys text_keys) lines.
Proof.
  induction lines as [|l r IH]; [reflexivity|].
  unfold nonblank in *. cbn [filter forallb].
  destruct (blank l) eqn:Eb; cbn [negb forallb]; rewrite IH; [|reflexivity].
  unfold well_formed_line at 2. now rewrite Eb.
Qed.

Lemma nonblank_entries id_keys text_keys lines :
  entries json_loads py_repr id_keys text_keys (nonblank lines)
  = entries json_loads py_repr id_keys text_keys lines.
Proof.
  induction lines as [|l r IH]; [reflexivity|].
  unfold nonblank, entries in *. simpl.
  destruct (blank l) eqn:Eb; simpl; [exact IH | now rewrite Eb, IH].
Qed.

(** X6.  The table [load_jsonl] builds does not depend on the blank
    lines, on the line numbers or on the path: the lines give a table
    exactly when the non-blank lines alone, numbered from anywhere and
    read under any path, give the same table. *)
Theorem blank_lines_do_not_matter :
  forall (p p' : path) (id_keys text_keys : list string) (lines : list string)
         (items : dict record) (i j : nat) (t : dict record),
    load_jsonl_lines json_loads py_repr p id_keys text_keys items i lines = Ok t
    <-> load_jsonl_lines json_loads py_repr p' id_keys text_keys items j
                         (nonblank lines) = Ok t.
Proof.
  intros. rewrite !load_jsonl_lines_ok_iff.
  now rewrite nonblank_well_formed, nonblank_entries.
Qed.

Lemma load_jsonl_line_raise p id_keys text_keys items i line e :
  load_jsonl_line json_loads py_repr p id_keys text_keys items i line = Raise e ->
  e = TypeError \/ exists m, e = ValueError m.
Proof.
  unfold load_jsonl_line. destruct (PyStr.is_empty (PyStr.strip line)); [discriminate|].
  destruct (json_loads (PyStr.strip line)) as [v|msg]; cbn [bind];
    [|intros [= <-]; eauto].
  destruct (find_id id_keys v) as [w|e'] eqn:Ef; cbn [bind].
  - destruct (truthy w); cbn [negb]; [|intros [= <-]; eauto].
    destruct (build_record text_keys v) as [d|e''] eqn:Eb; cbn [bind]; [discriminate|].
    intros [= <-]. left. destruct v; simpl in Eb; congruence.
  - intros [= <-]. left. eapply find_id_raise, Ef.
Qed.

(** X7.  [load_jsonl] raises nothing but the error of [open] for a
    missing file, a [ValueError] or a [TypeError]: no [KeyError] comes out
    of the identifier lookup. *)
Theorem load_jsonl_exception_kinds :
  forall (fs : filesystem) (p : path) (id_keys text_keys : list string) (e : exn),
    load_jsonl json_loads py_repr fs p id_keys text_keys = Raise e ->
    (e = OSError /\ fs p = None) \/ e = TypeError \/ exists m, e = ValueError m.
Proof.
  intros fs p id_keys text_keys e. unfold load_jsonl, open_text.
  destruct (fs p) as [text|]; cbn [bind]; [|intros [= <-]; auto].
  generalize (@nil (string * record)) 1.
  induction (PyStr.readlines text) as [|l r IH]; simpl; intros items i;
    [discriminate|].
  destruct (load_jsonl_line json_loads py_repr p id_keys text_keys items i l)
    as [items1|e1] eqn:E; cbn [bind].
  - apply IH.
  - intros [= <-]. right. eapply load_jsonl_line_raise, E.
Qed.

(** X8.  A non-blank line that holds a bare number, boolean or null
    makes [load_jsonl] raise a [TypeError] (the membership test on it
    fails), not a [ValueError] with the line number. *)
Theorem scalar_line_raises_type_error :
  forall (fs : filesystem) (p : path) (text : string)
         (k : string) (id_keys text_keys : list string)
         (pre post : list string) (line : string) (items : dict record) (v : json),
    fs p = Some text ->
    PyStr.readlines text = pre ++ line :: post ->
    load_jsonl_lines json_loads py_repr p (k :: id_keys) text_keys [] 1 pre = Ok items ->
    blank line = false ->
    json_loads (PyStr.strip line) = Decoded v ->
    is_scalar v = true ->
    load_jsonl json_loads py_repr fs p (k :: id_keys) text_keys = Raise TypeError.
Proof.
  intros fs p text k id_keys text_keys pre post line items v
         Hfs Hlines Hpre Hb Hj Hs.
  unfold load_jsonl, open_text. rewrite Hfs. cbn [bind].
  rewrite Hlines, load_jsonl_lines_app, Hpre. cbn [bind load_jsonl_lines].
  unfold load_jsonl_line. unfold blank in Hb. rewrite Hb, Hj. cbn [bind].
  destruct v; try discriminate; reflexivity.
Qed.

(** X9.  Every record of the table [load_jsonl] returns is filed under
    the string form of its own identifier: the first identifier field
    present in the record holds a truthy value and its [str] is the key.
    The keys of the table are distinct and so are the fields of each
    record.  (The decoder yields objects with distinct keys.) *)
Theorem table_keys_are_record_ids :
  forall (fs : filesystem) (p : path) (id_keys text_keys : list string)
         (t : dict record),
    (forall s o, json_loads s = Decoded (JObj o) -> dict_ok o) ->
    load_jsonl json_loads py_repr fs p id_keys text_keys = Ok t ->
    dict_ok t
    /\ forall k r,
         dict_get k t = Some r ->
         dict_ok r
         /\ exists v, first_present id_keys r = Some v
                      /\ truthy v = true
                      /\ k = py_str py_repr v.
Proof.
  intros fs p id_keys text_keys t Hdec. unfold load_jsonl, open_text.
  destruct (fs p) as [text|]; cbn [bind]; [|discriminate].
  assert (Hinv : forall lines items i,
             dict_ok items ->
             (forall k r, dict_get k items = Some r ->
                          dict_ok r
                          /\ exists v, first_present id_keys r = Some v
                                       /\ truthy v = true /\ k = py_str py_repr v) ->
             load_jsonl_lines json_loads py_repr p id_keys text_keys items i lines
             = Ok t ->
             dict_ok t
             /\ forall k r, dict_get k t = Some r ->
                  dict_ok r
                  /\ exists v, first_present id_keys r = Some v
                               /\ truthy v = true /\ k = py_str py_repr v).
  { induction lines as [|l rest IH]; simpl; intros items i Hok Hrec H.
    - injection H as <-. auto.
    - destruct (load_jsonl_line json_loads py_repr p id_keys text_keys items i l)
        as [items1|e] eqn:E; [|discriminate].
      cbn [bind] in H. apply load_jsonl_line_ok_iff in E.
      destruct E as [[_ ->]|(_ & k & r & Ee & ->)]; [now apply (IH items (S i))|].
      apply (IH (dict_set k r items) (S i)); [now apply dict_ok_set | | exact H].
      intros k' r'. rewrite dict_get_set.
      destruct (String.eqb_spec k' k) as [->|Hne]; [|apply Hrec].
      intros [= <-]. unfold line_entry in Ee.
      destruct (json_loads (PyStr.strip l)) as [v|msg] eqn:Ej; [|discriminate].
      destruct v; try discriminate.
      destruct (first_present id_keys o) as [v|] eqn:Ev; [|discriminate].
      destruct (truthy v) eqn:Et; [|discriminate].
      injection Ee as <- <-. split; [apply record_ok|].
      exists v. split; [|auto].
      rewrite <- Ev. apply first_present_record. eapply Hdec, Ej. }
  apply Hinv; [apply dict_ok_nil | discriminate].
Qed.
End RecordLoaderFurther.

Lemma sample_loads_ok s o :
  Sample.sample_loads s = Decoded (JObj o) -> dict_ok o.
Proof.
  unfold Sample.sample_loads.
  destruct (dict_get s Sample.table) as [v|] eqn:E; [|discriminate].
  intros [= ->]. apply dict_get_In in E. unfold Sample.table in E.
  repeat (destruct E as [E|E]; [inversion E; subst; distinct_keys|]).
  contradiction.
Qed.

Lemma load_jsonl_exception_kinds_witness :
  (ValueError (msg_no_id 1 Sample.corpus_path (JObj Sample.obj_empty_id)) = OSError
   /\ Sample.one_file Sample.text_empty_id Sample.corpus_path = None)
  \/ ValueError (msg_no_id 1 Sample.corpus_path (JObj Sample.obj_empty_id)) = TypeError
  \/ exists m,
       ValueError (msg_no_id 1 Sample.corpus_path (JObj Sample.obj_empty_id))
       = ValueError m.
Proof.
  apply (load_jsonl_exception_kinds Sample.sample_loads Sample.sample_repr
           (Sample.one_file Sample.text_empty_id) Sample.corpus_path
           default_id_keys default_text_keys).
  vm_compute. reflexivity.
Defined.

Lemma scalar_line_raises_type_error_witness :
  Sample.load Sample.text_scalar = Raise TypeError.
Proof.
  apply (scalar_line_raises_type_error Sample.sample_loads Sample.sample_repr
           (Sample.one_file Sample.text_scalar) Sample.corpus_path
           Sample.text_scalar "_id" ["id"] default_text_keys
           [(Sample.line_d1 ++ PyStr.newline)%string] []
           ("5" ++ PyStr.newline)%string Sample.items_d1 (JInt 5)).
  - reflexivity.
  - vm_compute. reflexivity.
  - vm_compute. reflexivity.
  - vm_compute. reflexivity.
  - vm_compute. reflexivity.
  - reflexivity.
Defined.

Lemma table_keys_are_record_ids_witness :
  dict_ok Sample.items_d1
  /\ forall k r,
       dict_get k Sample.items_d1 = Some r ->
       dict_ok r
       /\ exists v, first_present default_id_keys r = Some v
                    /\ truthy v = true
                    /\ k = py_str Sample.sample_repr v.
Proof.
  apply (table_keys_are_record_ids Sample.sample_loads Sample.sample_repr
           (Sample.one_file (Sample.file [Sample.line_d1])) Sample.corpus_path
           default_id_keys default_text_keys Sample.items_d1).
  - exact sample_loads_ok.
  - vm_compute. reflexivity.
Defined.

(** ** Order of fields and of records *)

Lemma filter_filter {A : Type} (f g : A -> bool) (l : list A) :
  filter f (filter g l) = filter (fun x => g x && f x) l.
Proof.
  induction l as [|a r IH]; simpl; [reflexivity|].
  destruct (g a); simpl; [destruct (f a); now rewrite IH | exact IH].
Qed.

Lemma dict_mem_set {V : Type} (k k' : string) (v : V) (d : dict V) :
  dict_mem k' (dict_set k v d) = String.eqb k' k || dict_mem k' d.
Proof.
  unfold dict_mem. rewrite dict_get_set. now destruct (String.eqb k' k).
Qed.

Lemma dict_update_keys {V : Type} (other : dict V) : forall d : dict V,
  dict_ok other ->
  dict_keys (dict_update d other)
  = dict_keys d ++ filter (fun k => negb (dict_mem k d)) (dict_keys other).
Proof.
  unfold dict_update, dict_ok.
  induction other as [|[k v] r IH]; simpl; intros d Hnd; [now rewrite app_nil_r|].
  inversion Hnd as [|? ? Hnotin Hnd']; subst.
  rewrite (IH _ Hnd'), dict_keys_set.
  assert (Hf : filter (fun k0 => negb (dict_mem k0 (dict_set k v d))) (dict_keys r)
               = filter (fun k0 => negb (dict_mem k0 d)) (dict_keys r)).
  { apply filter_ext_in. intros x Hx. rewrite dict_mem_set.
    destruct (String.eqb_spec x k) as [->|Hne]; [contradiction | reflexivity]. }
  rewrite Hf. destruct (dict_mem k d); simpl; [reflexivity|].
  now rewrite <- app_assoc.
Qed.

Lemma text_view_fold_keys text_keys o : forall acc : record,
  NoDup text_keys ->
  (forall k, In k text_keys -> dict_mem k acc = false) ->
  dict_keys
    (fold_left (fun d k => if dict_mem k o then dict_set k (get k o) d else d)
               text_keys acc)
  = dict_keys acc ++ filter (fun k => dict_mem k o) text_keys.
Proof.
  induction text_keys as [|k r IH]; simpl; intros acc Hnd Hacc;
    [now rewrite app_nil_r|].
  inversion Hnd as [|? ? Hnotin Hnd']; subst.
  destruct (dict_mem k o) eqn:Ek.
  - rewrite IH; [|exact Hnd'|].
    + rewrite dict_keys_set, (Hacc k (or_introl eq_refl)).
      now rewrite <- app_assoc.
    + intros k' Hk'. rewrite dict_mem_set, (Hacc k' (or_intror Hk')).
      destruct (String.eqb_spec k' k) as [->|Hne]; [contradiction | reflexivity].
  - apply IH; [exact Hnd' | auto].
Qed.

Lemma text_view_mem text_keys o k :
  dict_mem k (text_view text_keys o)
  = existsb (String.eqb k) text_keys && dict_mem k o.
Proof.
  apply eq_true_iff_eq. rewrite andb_true_iff, existsb_eqb_In.
  unfold dict_mem.
  destruct (dict_get k (text_view text_keys o)) as [v|] eqn:E.
  - apply text_view_get in E. destruct E as [Hin ->]. tauto.
  - split; [discriminate|]. intros [Hin Ho].
    destruct (dict_get k o) as [v|] eqn:Eo; [|discriminate].
    assert (H : dict_get k (text_view text_keys o) = Some v)
      by (apply text_view_get; auto).
    congruence.
Qed.

(** X10.  The fields of a stored record come in this order: first the
    recognized text fields that the object has, in the order of
    [text_keys], then the other fields of the object in the order of the
    object. *)
Theorem record_field_order :
  forall (text_keys : list string) (o : record),
    NoDup text_keys ->
    dict_ok o ->
    dict_keys (dict_update (text_view text_keys o) o)
    = filter (fun k => dict_mem k o) text_keys
      ++ filter (fun k => negb (existsb (String.eqb k) text_keys)) (dict_keys o).
Proof.
  intros text_keys o Hnd Hok.
  rewrite dict_update_keys by exact Hok.
  unfold text_view at 1. rewrite text_view_fold_keys by (auto; reflexivity).
  simpl. f_equal. apply filter_ext_in. intros k Hk.
  rewrite text_view_mem. apply dict_mem_true in Hk. rewrite Hk.
  now rewrite andb_true_r.
Qed.

Lemma record_field_order_witness :
  dict_keys (dict_update (text_view default_text_keys Sample.obj_d1) Sample.obj_d1)
  = filter (fun k => dict_mem k Sample.obj_d1) default_text_keys
    ++ filter (fun k => negb (existsb (String.eqb k) default_text_keys))
              (dict_keys Sample.obj_d1).
Proof.
  apply (record_field_order default_text_keys Sample.obj_d1).
  - repeat (apply NoDup_cons; [simpl; intuition discriminate|]). apply NoDup_nil.
  - distinct_keys.
Defined.

Lemma store_all_keys_order {V : Type} (es : list (string * V)) : forall d : dict V,
  dict_keys (store_all es d)
  = dict_keys d
    ++ filter (fun k => negb (dict_mem k d)) (first_occurrences (map fst es)).
Proof.
  induction es as [|[k v] r IH]; intros d; [simpl; now rewrite app_nil_r|].
  rewrite store_all_cons, IH, dict_keys_set. cbn [map fst first_occurrences filter].
  assert (Hf : filter (fun k0 => negb (dict_mem k0 (dict_set k v d)))
                      (first_occurrences (map fst r))
               = filter (fun k0 => negb (dict_mem k0 d))
                        (filter (fun x => negb (String.eqb x k))
                                (first_occurrences (map fst r)))).
  { rewrite filter_filter. apply filter_ext. intros x.
    rewrite dict_mem_set. now destruct (String.eqb x k), (dict_mem x d). }
  rewrite Hf. destruct (dict_mem k d) eqn:E; cbn [negb].
  - reflexivity.
  - now rewrite <- app_assoc.
Qed.

Section TableOrder.
Variable json_loads : string -> decoded.
Variable py_repr : json -> string.

(** X11.  The table [load_jsonl] returns lists the ids in the order of
    their first line: a later line with the same id replaces the record
    and leaves the id where it is. *)
Theorem table_key_order :
  forall (fs : filesystem) (p : path) (text : string)
         (id_keys text_keys : list string) (t : dict record),
    fs p = Some text ->
    load_jsonl json_loads py_repr fs p id_keys text_keys = Ok t ->
    dict_keys t
    = first_occurrences
        (map fst (entries json_loads py_repr id_keys text_keys
                          (PyStr.readlines text))).
Proof.
  intros fs p text id_keys text_keys t Hfs. unfold load_jsonl, open_text.
  rewrite Hfs. cbn [bind]. intros H.
  apply load_jsonl_lines_ok_iff in H. destruct H as [_ ->].
  rewrite store_all_keys_order. simpl.
  induction (first_occurrences _) as [|a r IH]; simpl; [reflexivity | now rewrite IH].
Qed.
End TableOrder.

Lemma table_key_order_witness :
  dict_keys [("d1", dict_update (text_view default_text_keys Sample.obj_d1_again)
                                Sample.obj_d1_again)]
  = first_occurrences
      (map fst (entries Sample.sample_loads Sample.sample_repr default_id_keys
                        default_text_keys (PyStr.readlines Sample.text_twice))).
Proof.
  apply (table_key_order Sample.sample_loads Sample.sample_repr
           (Sample.one_file Sample.text_twice) Sample.corpus_path).
  - reflexivity.
  - vm_compute. reflexivity.
Defined.

(** ** The orchestrator, further *)

Lemma io_bind_ret_r (c : io unit) : io_bind c (fun _ => ret tt) = c.
Proof.
  destruct c as [out [[]|e]]; simpl; [now rewrite app_nil_r | reflexivity].
Qed.

Lemma report_missing_warnings mq md :
  report_missing mq md = (warnings mq md, Ok tt).
Proof. destruct mq, md; reflexivity. Qed.

Lemma report_query_shown queries qrels qid q :
  dict_get qid queries = Some q ->
  report_query queries qrels qid
  = ([Stdout [FText (PyStr.newline ++ "Sample query id:"); FText qid];
      Stdout [FText "Query text:"; FJson (first_truthy query_text_keys q)];
      Stdout [FText "qrels for sample_q:";
              FScores (match dict_get qid qrels with Some d => d | None => [] end)]],
     Ok tt).
Proof.
  intros Hq. unfold report_query, table_getitem, lift, io_bind, print.
  rewrite Hq. unfold query_text. rewrite !py_or_assoc, !py_or_get. reflexivity.
Qed.

Lemma nil_or_not {A : Type} (l : list A) : l = [] \/ l <> [].
Proof. destruct l; [now left | right; discriminate]. Qed.

Lemma if_nonempty {A B : Type} (l : list A) (a b : B) :
  l <> [] -> match l with [] => a | _ :: _ => b end = b.
Proof. destruct l; [contradiction | reflexivity]. Qed.

Lemma slice400_raise v e :
  slice400 v = Raise e ->
  e = TypeError \/ (e = DictSliceError /\ exists o, v = JObj o).
Proof. destruct v; simpl; intros [= <-]; eauto. Qed.

Section OrchestratorFurther.
Variable json_loads : string -> decoded.
Variable csv_reader : list string -> list (list string) * option exn.
Variable py_repr : json -> string.

(** After the loads [main] is four steps in a row: the sizes, the sample
    of the corpus, the sample of the queries, the warnings with the final
    line. *)
Lemma main_loaded_shape fs data_path split seed corpus queries qrels :
  missing_files fs (expected_files data_path split) = [] ->
  load_all json_loads csv_reader py_repr fs
           (path_join data_path "corpus.jsonl") (path_join data_path "queries.jsonl")
           (path_join (path_join data_path "qrels") (split ++ ".tsv"))
  = Ok (corpus, queries, qrels) ->
  main json_loads csv_reader py_repr fs data_path split seed
  = io_bind (size_lines corpus queries qrels, Ok tt)
      (fun _ =>
         io_bind (match corpus with
                  | [] => ret tt
                  | _ => report_doc corpus (sampled_key seed corpus)
                  end)
           (fun _ =>
              io_bind (match queries with
                       | [] => ret tt
                       | _ => report_query queries qrels
                                (sampled_key (query_seed seed corpus) queries)
                       end)
                (fun _ =>
                   (warnings (missing_queries qrels queries)
                             (missing_docs qrels corpus)
                    ++ [success_line], Ok 0%Z)))).
Proof.
  intros Hm Hl. rewrite (main_loaded _ _ _ _ _ _ _ _ _ _ Hm Hl).
  assert (Htail : (report_missing (missing_queries qrels queries)
                                  (missing_docs qrels corpus) ;;;
                   print [FText (PyStr.newline ++ "Validation completed successfully.")] ;;;
                   ret 0%Z)
                  = (warnings (missing_queries qrels queries)
                              (missing_docs qrels corpus) ++ [success_line], Ok 0%Z)).
  { rewrite report_missing_warnings. reflexivity. }
  assert (Hq : forall seed1,
             (let (qids, _) := sample_keys seed1 queries 1 in
              for_each (report_query queries qrels) qids ;;;
              report_missing (missing_queries qrels queries)
                             (missing_docs qrels corpus) ;;;
              print [FText (PyStr.newline ++ "Validation completed successfully.")] ;;;
              ret 0%Z)
             = io_bind (match queries with
                        | [] => ret tt
                        | _ => report_query queries qrels (sampled_key seed1 queries)
                        end)
                 (fun _ =>
                    (warnings (missing_queries qrels queries)
                              (missing_docs qrels corpus) ++ [success_line], Ok 0%Z))).
  { intros seed1. rewrite Htail.
    destruct (nil_or_not queries) as [->|Hne].
    - rewrite sample_keys_none. reflexivity.
    - rewrite sample_keys_one, (if_nonempty _ _ _ Hne) by exact Hne.
      cbv beta iota. now rewrite for_each_one, io_bind_ret_r. }
  unfold print at 1 2 3. unfold size_lines.
  assert (Hs : forall K : io Z,
             io_bind ([Stdout [FText "corpus size: "; FNat (List.length corpus)]], Ok tt)
               (fun _ =>
                  io_bind ([Stdout [FText "queries size: ";
                                    FNat (List.length queries)]], Ok tt)
                    (fun _ =>
                       io_bind ([Stdout [FText "qrels size: ";
                                         FNat (List.length qrels)]], Ok tt)
                         (fun _ => K)))
             = io_bind ([Stdout [FText "corpus size: "; FNat (List.length corpus)];
                         Stdout [FText "queries size: "; FNat (List.length queries)];
                         Stdout [FText "qrels size: "; FNat (List.length qrels)]],
                        Ok tt) (fun _ => K)).
  { intros [out r]. reflexivity. }
  rewrite Hs. f_equal.
  destruct (nil_or_not corpus) as [->|Hne].
  - rewrite sample_keys_none. cbv beta iota. cbn [for_each query_seed].
    now rewrite Hq.
  - rewrite sample_keys_one, (if_nonempty _ _ _ Hne) by exact Hne.
    unfold query_seed. rewrite (if_nonempty _ _ _ Hne).
    cbv beta iota. now rewrite for_each_one, io_bind_ret_r, Hq.
Qed.
End OrchestratorFurther.

Lemma slice400_sliceable v :
  (sliceable v = true -> exists shown, slice400 v = Ok shown)
  /\ (sliceable v = false -> exists e, slice400 v = Raise e).
Proof. destruct v; simpl; split; intros; eauto; discriminate. Qed.

(** The step of [main] that shows a document. *)
Lemma doc_step_cases (corpus : dict record) (seed : list nat) :
  (corpus = []
   /\ match corpus with
      | [] => ret tt
      | _ => report_doc corpus (sampled_key seed corpus)
      end = ([], Ok tt))
  \/ (corpus <> []
      /\ exists doc,
          dict_get (sampled_key seed corpus) corpus = Some doc
          /\ ((sliceable (first_truthy doc_text_keys doc) = true
               /\ exists out,
                   List.length out = 4
                   /\ match corpus with
                      | [] => ret tt
                      | _ => report_doc corpus (sampled_key seed corpus)
                      end = (out, Ok tt))
              \/ (sliceable (first_truthy doc_text_keys doc) = false
                  /\ exists out e,
                      match corpus with
                      | [] => ret tt
                      | _ => report_doc corpus (sampled_key seed corpus)
                      end = (out, Raise e)))).
Proof.
  destruct (nil_or_not corpus) as [->|Hne]; [left; auto|]. right.
  split; [exact Hne|]. rewrite (if_nonempty _ _ _ Hne).
  destruct (sampled_key_bound seed corpus Hne) as [doc Hd].
  exists doc. split; [exact Hd|].
  destruct (slice400_sliceable (doc_text doc)) as [Hyes Hno].
  rewrite <- doc_text_first_truthy.
  destruct (sliceable (doc_text doc)).
  - left. split; [reflexivity|]. destruct (Hyes eq_refl) as [shown Hs].
    eexists. split; [|exact (report_doc_shown corpus _ doc shown Hd Hs)].
    reflexivity.
  - right. split; [reflexivity|]. destruct (Hno eq_refl) as [e He].
    eexists. exists e. exact (report_doc_raises corpus _ doc e Hd He).
Qed.

(** The step of [main] that shows a query never raises. *)
Lemma query_step_ok (queries : dict record) (qrels : dict (dict Z)) (seed : list nat) :
  match queries with
  | [] => ret tt
  | _ => report_query queries qrels (sampled_key seed queries)
  end
  = (match queries with
     | [] => []
     | _ => query_lines queries qrels (sampled_key seed queries)
     end, Ok tt).
Proof.
  destruct (nil_or_not queries) as [->|Hne]; [reflexivity|].
  rewrite !(if_nonempty _ _ _ Hne).
  destruct (sampled_key_bound seed queries Hne) as [q Hq].
  unfold query_lines. change (nth _ (dict_keys queries) EmptyString)
    with (sampled_key seed queries) in Hq.
  rewrite Hq. now apply report_query_shown.
Qed.

Section OrchestratorProperties.
Variable json_loads : string -> decoded.
Variable csv_reader : list string -> list (list string) * option exn.
Variable py_repr : json -> string.

(** What [main] does after the loads, by the case of the document step. *)
Lemma main_loaded_cases fs data_path split seed corpus queries qrels :
  missing_files fs (expected_files data_path split) = [] ->
  load_all json_loads csv_reader py_repr fs
           (path_join data_path "corpus.jsonl") (path_join data_path "queries.jsonl")
           (path_join (path_join data_path "qrels") (split ++ ".tsv"))
  = Ok (corpus, queries, qrels) ->
  ((corpus = []
    \/ exists doc, dict_get (sampled_key seed corpus) corpus = Some doc
                   /\ sliceable (first_truthy doc_text_keys doc) = true)
   /\ exists out,
       List.length out <= 4
       /\ main json_loads csv_reader py_repr fs data_path split seed
          = (size_lines corpus queries qrels ++ out
             ++ match queries with
                | [] => []
                | _ => query_lines queries qrels
                         (sampled_key (query_seed seed corpus) queries)
                end
             ++ warnings (missing_queries qrels queries) (missing_docs qrels corpus)
             ++ [success_line], Ok 0%Z))
  \/ (corpus <> []
      /\ (exists doc, dict_get (sampled_key seed corpus) corpus = Some doc
                      /\ sliceable (first_truthy doc_text_keys doc) = false)
      /\ exists e,
          snd (main json_loads csv_reader py_repr fs data_path split seed)
          = Raise e).
Proof.
  intros Hm Hl. rewrite (main_loaded_shape _ _ _ _ _ _ _ _ _ _ Hm Hl).
  rewrite query_step_ok.
  destruct (doc_step_cases corpus seed)
    as [[Hc E]|(Hne & doc & Hd & [(Hs & out & Hlen & E)|(Hs & out & e & E)])];
    rewrite E.
  - left. split; [now left|]. exists []. split; [simpl; lia|].
    rewrite !io_bind_ok. reflexivity.
  - left. split; [right; eauto|]. exists out. split; [lia|].
    rewrite !io_bind_ok. reflexivity.
  - right. split; [exact Hne|]. split; [eauto|]. exists e.
    rewrite io_bind_ok. reflexivity.
Qed.


(** X13.  [main] returns 1 exactly when the three files exist and one of
    the loads raises, whatever the exception; it then prints the exception
    on the error stream and nothing else. *)
Theorem exit_one_iff_load_raises :
  forall (fs : filesystem) (data_path : path) (split : string) (seed : list nat),
    (snd (main json_loads csv_reader py_repr fs data_path split seed) = Ok 1%Z
     <-> missing_files fs (expected_files data_path split) = []
         /\ exists e,
              load_all json_loads csv_reader py_repr fs
                (path_join data_path "corpus.jsonl")
                (path_join data_path "queries.jsonl")
                (path_join (path_join data_path "qrels") (split ++ ".tsv"))
              = Raise e)
    /\ (forall e,
          missing_files fs (expected_files data_path split) = [] ->
          load_all json_loads csv_reader py_repr fs
            (path_join data_path "corpus.jsonl")
            (path_join data_path "queries.jsonl")
            (path_join (path_join data_path "qrels") (split ++ ".tsv"))
          = Raise e ->
          fst (main json_loads csv_reader py_repr fs data_path split seed)
          = [StderrError e]).
Proof.
  intros fs data_path split seed. split.
  - destruct (missing_files fs (expected_files data_path split)) as [|m ms] eqn:Em.
    + destruct (load_all json_loads csv_reader py_repr fs
                  (path_join data_path "corpus.jsonl")
                  (path_join data_path "queries.jsonl")
                  (path_join (path_join data_path "qrels") (split ++ ".tsv")))
        as [[[corpus queries] qrels]|e] eqn:El.
      * destruct (main_loaded_cases fs data_path split seed corpus queries qrels Em El)
          as [(_ & out & _ & ->)|(_ & _ & e' & ->)];
          (split; [discriminate | intros [_ [e He]]; discriminate]).
      * rewrite (main_load_error json_loads csv_reader py_repr fs data_path split
                   seed e Em El).
        split; [eauto | reflexivity].
    + rewrite (main_missing_files json_loads csv_reader py_repr fs data_path split
                 seed m ms Em).
      split; [discriminate | intros [H _]; discriminate].
  - intros e Hm Hl.
    now rewrite (main_load_error json_loads csv_reader py_repr fs data_path split
                   seed e Hm Hl).
Qed.

(** X14.  Once the three files are loaded and the corpus is not empty,
    a sampled document whose text (its first truthy value among text,
    contents, body, passage) is neither a string nor a list makes [main]
    return no exit code: it prints the three sizes and the id, the fields
    and the title of the document, and the exception of [text[:400]]
    leaves it, a [TypeError] unless the text is an object. *)
Theorem unsliceable_text_escapes :
  forall (fs : filesystem) (data_path : path) (split : string) (seed : list nat)
         (corpus queries : dict record) (qrels : dict (dict Z)) (doc : record),
    missing_files fs (expected_files data_path split) = [] ->
    load_all json_loads csv_reader py_repr fs
             (path_join data_path "corpus.jsonl") (path_join data_path "queries.jsonl")
             (path_join (path_join data_path "qrels") (split ++ ".tsv"))
    = Ok (corpus, queries, qrels) ->
    corpus <> [] ->
    dict_get (sampled_key seed corpus) corpus = Some doc ->
    sliceable (first_truthy doc_text_keys doc) = false ->
    exists e,
      slice400 (first_truthy doc_text_keys doc) = Raise e
      /\ (e = TypeError
          \/ (e = DictSliceError
              /\ exists o, first_truthy doc_text_keys doc = JObj o))
      /\ main json_loads csv_reader py_repr fs data_path split seed
         = (size_lines corpus queries qrels
            ++ [Stdout [FText (PyStr.newline ++ "Sample doc id:");
                        FText (sampled_key seed corpus)];
                Stdout [FText "Fields:"; FStrs (dict_keys doc)];
                Stdout [FText "Title:";
                        FJson (get_default "title" (JStr EmptyString) doc)]],
            Raise e).
Proof.
  intros fs data_path split seed corpus queries qrels doc Hm Hl Hne Hd Hs.
  destruct (slice400_sliceable (first_truthy doc_text_keys doc)) as [_ Hno].
  destruct (Hno Hs) as [e He]. exists e.
  split; [exact He|]. split; [exact (slice400_raise _ _ He)|].
  rewrite (main_loaded_shape _ _ _ _ _ _ _ _ _ _ Hm Hl).
  rewrite (if_nonempty _ _ _ Hne).
  rewrite <- doc_text_first_truthy in He.
  rewrite (report_doc_raises corpus _ doc e Hd He).
  rewrite io_bind_ok. reflexivity.
Qed.

End OrchestratorProperties.

(** X16.  No warning is printed exactly when the relevance table is
    consistent with the other two tables: every query id of the table is a
    key of the queries and every document id in it is a key of the
    corpus. *)
Theorem no_warning_iff_consistent :
  forall (qrels : dict (dict Z)) (corpus queries : dict record),
    warnings (missing_queries qrels queries) (missing_docs qrels corpus) = []
    <-> (forall q, In q (dict_keys qrels) -> exists r, dict_get q queries = Some r)
        /\ (forall q docs d,
              In (q, docs) qrels -> In d (dict_keys docs) ->
              exists r, dict_get d corpus = Some r).
Proof.
  intros qrels corpus queries.
  assert (Hw : warnings (missing_queries qrels queries) (missing_docs qrels corpus) = []
               <-> missing_queries qrels queries = [] /\ missing_docs qrels corpus = []).
  { unfold warnings.
    destruct (missing_queries qrels queries), (missing_docs qrels corpus);
      simpl; split; try tauto; try discriminate; intros [? ?]; discriminate. }
  rewrite Hw. clear Hw. split.
  - intros [Hq Hd]. split.
    + intros q Hin. destruct (dict_get q queries) as [r|] eqn:E; [eauto|].
      assert (H : In q (missing_queries qrels queries)).
      { unfold missing_queries. apply filter_In. split; [exact Hin|].
        apply negb_true_iff. now apply dict_mem_false. }
      rewrite Hq in H. destruct H.
    + intros q docs d Hin Hk. destruct (dict_get d corpus) as [r|] eqn:E; [eauto|].
      assert (H : In d (missing_docs qrels corpus)).
      { unfold missing_docs. apply missing_docs_outer. right. split; [eauto | exact E]. }
      rewrite Hd in H. destruct H.
  - intros [Hq Hd]. split.
    + destruct (missing_queries qrels queries) as [|q l] eqn:E; [reflexivity|].
      assert (H : In q (missing_queries qrels queries)) by (rewrite E; now left).
      unfold missing_queries in H. apply filter_In in H. destruct H as [Hin Hn].
      apply negb_true_iff, dict_mem_false in Hn.
      destruct (Hq q Hin) as [r Hr]. congruence.
    + destruct (missing_docs qrels corpus) as [|d l] eqn:E; [reflexivity|].
      assert (H : In d (missing_docs qrels corpus)) by (rewrite E; now left).
      unfold missing_docs in H. apply missing_docs_outer in H.
      destruct H as [[]|[(q & docs & Hin & Hk) Hn]].
      destruct (Hd q docs d Hin Hk) as [r Hr]. congruence.
Qed.

(** ** Integer scores *)

Lemma digits2_pos_lower p : (2 ^ (Zpos (digits2_pos p) - 1) <= Zpos p)%Z.
Proof.
  induction p as [q IH|q IH|]; simpl digits2_pos.
  - rewrite Pos2Z.inj_succ.
    replace (Z.succ (Zpos (digits2_pos q)) - 1)%Z
      with (Z.succ (Zpos (digits2_pos q) - 1))%Z by lia.
    rewrite Z.pow_succ_r by lia. lia.
  - rewrite Pos2Z.inj_succ.
    replace (Z.succ (Zpos (digits2_pos q)) - 1)%Z
      with (Z.succ (Zpos (digits2_pos q) - 1))%Z by lia.
    rewrite Z.pow_succ_r by lia. lia.
  - simpl. lia.
Qed.

Lemma digits2_pos_bound p : (Zpos p < 2 ^ 53)%Z -> (Zpos (digits2_pos p) <= 53)%Z.
Proof.
  intros H. destruct (Z_le_gt_dec (Zpos (digits2_pos p)) 53) as [Hle|Hgt]; [exact Hle|].
  pose proof (digits2_pos_lower p) as Hl.
  assert (2 ^ 53 <= 2 ^ (Zpos (digits2_pos p) - 1))%Z
    by (apply Z.pow_le_mono_r; lia).
  lia.
Qed.

Lemma digits2_pos_shift p k :
  digits2_pos (Pos.iter xO p k) = (digits2_pos p + k)%positive.
Proof.
  induction k as [|k IH] using Pos.peano_ind.
  - simpl. lia.
  - rewrite Pos.iter_succ. simpl. rewrite IH. lia.
Qed.

Lemma pos_shift_value p k :
  Zpos (Pos.iter xO p k) = (Zpos p * 2 ^ Zpos k)%Z.
Proof.
  induction k as [|k IH] using Pos.peano_ind.
  - simpl. lia.
  - rewrite Pos.iter_succ, Pos2Z.inj_succ, Z.pow_succ_r by lia.
    rewrite Pos2Z.inj_xO, IH. lia.
Qed.

Lemma binary_round_aux_exact s m e :
  fexp 53 1024 (Zpos (digits2_pos m) + e) = e ->
  (e <= 971)%Z ->
  binary_round_aux 53 1024 s (Zpos m) e loc_Exact = S754_finite s m e.
Proof.
  intros Hf He.
  assert (Hs : shr_fexp 53 1024 (Zpos m) e loc_Exact
               = (Build_shr_record (Zpos m) false false, e)).
  { unfold shr_fexp. cbn [Zdigits2]. rewrite Hf, Z.sub_diag. reflexivity. }
  unfold binary_round_aux. rewrite Hs.
  cbn [shr_m loc_of_shr_record round_nearest_even]. rewrite Hs. cbn [shr_m].
  apply Z.leb_le in He. change (1024 - 53)%Z with 971%Z. now rewrite He.
Qed.

Lemma binary_round_small s p :
  (Zpos p < 2 ^ 53)%Z ->
  PyFloat.int_of_float (binary_round PyFloat.prec PyFloat.emax s p 0)
  = Some (if s then Zneg p else Zpos p).
Proof.
  intros Hp. pose proof (digits2_pos_bound p Hp) as Hd.
  unfold binary_round, PyFloat.prec, PyFloat.emax.
  assert (Hf : forall d, (1 <= d <= 53)%Z -> fexp 53 1024 d = (d - 53)%Z).
  { intros d Hd'. unfold fexp, emin. lia. }
  rewrite Z.add_0_r, Hf by lia.
  unfold shl_align.
  destruct (Zpos (digits2_pos p) - 53 - 0)%Z as [|k|k] eqn:Ek; try lia.
  - rewrite binary_round_aux_exact; [| rewrite Z.add_0_r, Hf by lia; lia | lia].
    destruct s; reflexivity.
  - rewrite binary_round_aux_exact.
    + replace (Zpos (digits2_pos p) - 53)%Z with (Zneg k) by lia.
      unfold PyFloat.int_of_float.
      rewrite Z.shiftr_div_pow2, pos_shift_value by lia.
      rewrite Z.div_mul by (apply Z.pow_nonzero; lia).
      destruct s; reflexivity.
    + rewrite digits2_pos_shift.
      replace (Zpos (digits2_pos p + k) + (Zpos (digits2_pos p) - 53))%Z
        with (Zpos (digits2_pos p)) by lia.
      apply Hf. lia.
    + lia.
Qed.

Lemma digit_facts c :
  PyFloat.is_digit c = true ->
  PyFloat.to_ascii_char c = c /\ PyFloat.c_isspace c = false /\ Ascii.eqb c "_" = false
  /\ (0 <= PyFloat.digit_val c)%Z
  /\ (forall r, PyFloat.parse_sign (c :: r) = (false, c :: r)).
Proof.
  destruct c as [[] [] [] [] [] [] [] []]; intros H; try discriminate H;
    repeat split; try reflexivity; vm_compute; discriminate.
Qed.

Lemma map_to_ascii_digits ds :
  forallb PyFloat.is_digit ds = true -> map PyFloat.to_ascii_char ds = ds.
Proof.
  induction ds as [|c r IH]; simpl; [reflexivity|]. intros H.
  apply andb_true_iff in H. destruct H as [Hc Hr].
  destruct (digit_facts c Hc) as (-> & _). now rewrite IH.
Qed.

Lemma drop_underscores_digits ds : forall prev,
  forallb PyFloat.is_digit ds = true ->
  Ascii.eqb prev "_" = false ->
  PyFloat.drop_underscores prev ds = Some ds.
Proof.
  induction ds as [|c r IH]; simpl; intros prev H Hp; [now rewrite Hp|].
  apply andb_true_iff in H. destruct H as [Hc Hr].
  destruct (digit_facts c Hc) as (_ & _ & Hu & _).
  rewrite Hu, Hp. simpl. now rewrite (IH c Hr Hu).
Qed.

Lemma rstrip_no_space l :
  forallb (fun c => negb (PyFloat.c_isspace c)) l = true -> PyFloat.rstrip l = l.
Proof.
  induction l as [|c r IH]; [reflexivity|]. intros H.
  simpl in H. apply andb_true_iff in H. destruct H as [Hc Hr].
  destruct r as [|d r']; [reflexivity|].
  change (PyFloat.rstrip (c :: d :: r'))
    with (match PyFloat.rstrip (d :: r') with
          | [d0] => if PyFloat.c_isspace d0 then [c] else [c; d0]
          | r0 => c :: r0
          end).
  rewrite (IH Hr). destruct r' as [|e r'']; [|reflexivity].
  simpl in Hr. apply andb_true_iff in Hr. destruct Hr as [Hd _].
  apply negb_true_iff in Hd. now rewrite Hd.
Qed.

Lemma digits_no_space ds :
  forallb PyFloat.is_digit ds = true -> forallb (fun c => negb (PyFloat.c_isspace c)) ds = true.
Proof.
  induction ds as [|c r IH]; simpl; [reflexivity|]. intros H.
  apply andb_true_iff in H. destruct H as [Hc Hr].
  destruct (digit_facts c Hc) as (_ & -> & _). simpl. now apply IH.
Qed.

Lemma span_digits_all ds :
  forallb PyFloat.is_digit ds = true -> PyFloat.span_digits ds = (ds, []).
Proof.
  induction ds as [|c r IH]; simpl; [reflexivity|]. intros H.
  apply andb_true_iff in H. destruct H as [Hc Hr].
  now rewrite Hc, (IH Hr).
Qed.

Lemma digits_value_nonneg ds :
  forallb PyFloat.is_digit ds = true -> (0 <= PyFloat.digits_value ds)%Z.
Proof.
  unfold PyFloat.digits_value.
  assert (H : forall acc, (0 <= acc)%Z -> forallb PyFloat.is_digit ds = true ->
                          (0 <= fold_left (fun a c => (10 * a + PyFloat.digit_val c)%Z) ds acc)%Z).
  { induction ds as [|c r IH]; cbn [fold_left forallb]; intros acc Hacc H;
      [exact Hacc|].
    apply andb_true_iff in H. destruct H as [Hc Hr].
    destruct (digit_facts c Hc) as (_ & _ & _ & Hv & _).
    apply IH; [lia | exact Hr]. }
  apply H. lia.
Qed.

Lemma parse_decimal_digits s ds :
  ds <> [] ->
  forallb PyFloat.is_digit ds = true ->
  PyFloat.parse_decimal s ds = Some (PyFloat.of_decimal s (PyFloat.digits_value ds) 0).
Proof.
  intros Hne Hd. unfold PyFloat.parse_decimal.
  rewrite (span_digits_all ds Hd). rewrite app_nil_r.
  destruct ds as [|c r]; [contradiction|]. reflexivity.
Qed.

Lemma int_of_decimal_small s v :
  (0 <= v < 2 ^ 53)%Z ->
  PyFloat.int_of_float (PyFloat.of_decimal s v 0) = Some (if s then - v else v)%Z.
Proof.
  intros Hv. unfold PyFloat.of_decimal. destruct v as [|p|p]; try lia.
  - destruct s; reflexivity.
  - change (0 <=? 0)%Z with true. cbv iota.
    rewrite Z.pow_0_r, Z.mul_1_r.
    destruct s; simpl Z.opp; unfold binary_normalize;
      rewrite binary_round_small by lia; reflexivity.
Qed.

(** X17.  An integer numeral, with or without a minus sign, whose
    absolute value is below 2^53 is read back exactly by
    [int(float(score))]: the detour through a float loses nothing. *)
Theorem integer_score_round_trip :
  forall (neg : bool) (ds : list ascii),
    ds <> [] ->
    forallb PyFloat.is_digit ds = true ->
    (PyFloat.digits_value ds < 2 ^ 53)%Z ->
    score_int (string_of_list_ascii ((if neg then ["-"%char] else []) ++ ds))
    = Some (if neg then - PyFloat.digits_value ds else PyFloat.digits_value ds)%Z.
Proof.
  intros neg ds Hne Hd Hv. unfold score_int, PyFloat.float_of_string.
  rewrite list_ascii_of_string_of_list_ascii.
  pose proof (digits_value_nonneg ds Hd) as H0.
  destruct ds as [|c r]; [contradiction|].
  assert (Hc : PyFloat.is_digit c = true) by (simpl in Hd; now apply andb_true_iff in Hd).
  destruct (digit_facts c Hc) as (_ & Hsp & Hu & _ & Hsign).
  destruct neg.
  - cbn [app].
    change (map PyFloat.to_ascii_char ("-"%char :: c :: r))
      with ("-"%char :: map PyFloat.to_ascii_char (c :: r)).
    rewrite (map_to_ascii_digits _ Hd).
    change (PyFloat.drop_underscores "000" ("-"%char :: c :: r))
      with (option_map (cons "-"%char) (PyFloat.drop_underscores "-" (c :: r))).
    rewrite drop_underscores_digits by (auto; reflexivity).
    cbn [option_map]. change (PyFloat.lstrip ("-"%char :: c :: r)) with ("-"%char :: c :: r).
    rewrite rstrip_no_space
      by (change (forallb (fun c => negb (PyFloat.c_isspace c)) ("-"%char :: c :: r))
            with (forallb (fun c => negb (PyFloat.c_isspace c)) (c :: r));
          now apply digits_no_space).
    change (PyFloat.parse_sign ("-"%char :: c :: r)) with (true, c :: r).
    cbv beta iota. rewrite parse_decimal_digits by (auto; discriminate).
    apply int_of_decimal_small. lia.
  - cbn [app]. rewrite (map_to_ascii_digits _ Hd).
    rewrite drop_underscores_digits by (auto; reflexivity).
    assert (Hl : PyFloat.lstrip (c :: r) = c :: r) by (simpl; now rewrite Hsp).
    rewrite Hl, rstrip_no_space by now apply digits_no_space.
    rewrite Hsign. cbv beta iota.
    rewrite parse_decimal_digits by (auto; discriminate).
    apply int_of_decimal_small. lia.
Qed.

Lemma integer_score_round_trip_witness :
  score_int (string_of_list_ascii
               ((if true then ["-"%char] else []) ++ ["0"%char; "4"%char; "2"%char]))
  = Some (if true
          then - PyFloat.digits_value ["0"%char; "4"%char; "2"%char]
          else PyFloat.digits_value ["0"%char; "4"%char; "2"%char])%Z.
Proof.
  apply (integer_score_round_trip true ["0"%char; "4"%char; "2"%char]).
  - discriminate.
  - reflexivity.
  - vm_compute. reflexivity.
Defined.

(** *** The orchestrator on the sample directories *)

Lemma unsliceable_text_escapes_witness :
  exists e,
    slice400 (first_truthy doc_text_keys Sample.record_numeric_text) = Raise e
    /\ (e = TypeError
        \/ (e = DictSliceError
            /\ exists o,
                 first_truthy doc_text_keys Sample.record_numeric_text = JObj o))
    /\ Sample.run Sample.fs_numeric_text [0]
       = (size_lines [("d1", Sample.record_numeric_text)]
                     [("q1", Sample.record_q1)] [("q1", [("d1", 1%Z)])]
          ++ [Stdout [FText (PyStr.newline ++ "Sample doc id:");
                      FText (sampled_key [0] [("d1", Sample.record_numeric_text)])];
              Stdout [FText "Fields:"; FStrs (dict_keys Sample.record_numeric_text)];
              Stdout [FText "Title:";
                      FJson (get_default "title" (JStr EmptyString)
                                         Sample.record_numeric_text)]],
          Raise e).
Proof.
  apply (unsliceable_text_escapes Sample.sample_loads Sample.tsv_reader
           Sample.sample_repr Sample.fs_numeric_text ["data"] "test" [0]
           [("d1", Sample.record_numeric_text)] [("q1", Sample.record_q1)]
           [("q1", [("d1", 1%Z)])] Sample.record_numeric_text).
  - vm_compute. reflexivity.
  - vm_compute. reflexivity.
  - discriminate.
  - reflexivity.
  - reflexivity.
Defined.


(** ** Success of the record loader and order of the loads *)

Section LoadOrder.
Variable json_loads : string -> decoded.
Variable csv_reader : list string -> list (list string) * option exn.
Variable py_repr : json -> string.

(** X18.  [load_jsonl] returns a table exactly when the file exists and
    every line of it is blank or holds an object whose first identifier
    field present is truthy; the table is then what storing the entries of
    the lines one after the other gives. *)
Theorem load_jsonl_returns_iff_well_formed :
  forall (fs : filesystem) (p : path) (id_keys text_keys : list string)
         (t : dict record),
    load_jsonl json_loads py_repr fs p id_keys text_keys = Ok t
    <-> exists text,
          fs p = Some text
          /\ forallb (well_formed_line json_loads py_repr id_keys text_keys)
                     (PyStr.readlines text) = true
          /\ t = store_all (entries json_loads py_repr id_keys text_keys
                                    (PyStr.readlines text)) [].
Proof.
  intros fs p id_keys text_keys t. unfold load_jsonl, open_text.
  destruct (fs p) as [text|]; cbn [bind].
  - rewrite load_jsonl_lines_ok_iff. split.
    + intros [Hwf ->]. exists text. auto.
    + intros (text' & [= <-] & Hwf & ->). auto.
  - split; [discriminate | intros (text & H & _); discriminate].
Qed.

(** X19.  The files are loaded in the order corpus, queries, qrels and
    the first load that raises ends the run: [main] prints that exception
    alone and returns 1, whatever the later files hold. *)
Theorem first_failing_file_is_reported :
  forall (fs : filesystem) (data_path : path) (split : string) (seed : list nat)
         (e : exn),
    missing_files fs (expected_files data_path split) = [] ->
    (load_jsonl json_loads py_repr fs (path_join data_path "corpus.jsonl")
                default_id_keys default_text_keys = Raise e
     \/ (exists corpus,
           load_jsonl json_loads py_repr fs (path_join data_path "corpus.jsonl")
                      default_id_keys default_text_keys = Ok corpus
           /\ load_jsonl json_loads py_repr fs (path_join data_path "queries.jsonl")
                         default_id_keys default_text_keys = Raise e)
     \/ (exists corpus queries,
           load_jsonl json_loads py_repr fs (path_join data_path "corpus.jsonl")
                      default_id_keys default_text_keys = Ok corpus
           /\ load_jsonl json_loads py_repr fs (path_join data_path "queries.jsonl")
                         default_id_keys default_text_keys = Ok queries
           /\ load_qrels csv_reader fs
                         (path_join (path_join data_path "qrels") (split ++ ".tsv"))
              = Raise e)) ->
    main json_loads csv_reader py_repr fs data_path split seed
    = ([StderrError e], Ok 1%Z).
Proof.
  intros fs data_path split seed e Hm H.
  apply main_load_error; [exact Hm|]. unfold load_all.
  destruct H as [->|[(corpus & -> & ->)|(corpus & queries & -> & -> & ->)]];
    reflexivity.
Qed.
End LoadOrder.

Lemma first_failing_file_is_reported_witness :
  Sample.run Sample.fs_two_broken [0]
  = ([StderrError
        (ValueError
           (msg_invalid_json 3 ["data"; "corpus.jsonl"]
              "Expecting property name enclosed in double quotes: line 1 column 2 (char 1)"))],
     Ok 1%Z).
Proof.
  apply (first_failing_file_is_reported Sample.sample_loads Sample.tsv_reader
           Sample.sample_repr Sample.fs_two_broken ["data"] "test" [0]).
  - vm_compute. reflexivity.
  - left. vm_compute. reflexivity.
Defined.
